(** * ESP32 NVS partition decoder and CSV encoder

    A shallow embedding of [nvs_read.py] (binary partition -> structured
    record) and [generate_nvs_csv.py] (structured record -> CSV rows and
    blob files), with the properties of the specification proved or
    refuted on it.

    Conventions of the embedding:
    - a Python [bytes] object is a [list byte]; a byte's integer value is
      [byte_val];
    - a Python [str] is a [string] of ASCII characters;
    - a Python [dict] with integer keys is a [gmap Z string]; a JSON object
      whose iteration order matters is an association list;
    - an exception is [None] in the option monad; every [try]/[except] of
      the source is a [match] on that option;
    - a [while] loop is a fuel-indexed fixpoint together with a theorem
      that the fuel given to it is never exhausted. *)

From Stdlib Require Import ZArith Strings.Byte Strings.String Strings.Ascii Lia.
From Stdlib Require Import Sorting.Sorted Sorting.Permutation.
From stdpp Require Import gmap strings list fin_maps pretty.

Open Scope Z_scope.

(** ** Python primitives used by both scripts *)

Module Py.

Definition byte_val (b : byte) : Z := Z.of_N (Byte.to_N b).

(** [b[lo:hi]] for non-negative bounds. *)
Definition slice {A} (lo hi : nat) (l : list A) : list A :=
  take (hi - lo) (drop lo l).

(** [bytes.rstrip(b'\x00')]. *)
Fixpoint rstrip_nul (l : list byte) : list byte :=
  match l with
  | [] => []
  | b :: t =>
      match rstrip_nul t with
      | [] => if decide (byte_val b = 0) then [] else [b]
      | t' => b :: t'
      end
  end.

(** [bytes.decode('ascii', errors='ignore')]: bytes above 0x7f are dropped. *)
Definition decode_ascii_ignore (l : list byte) : string :=
  string_of_list_ascii
    (map ascii_of_byte (filter (fun b => byte_val b < 128) l)).

Definition hex_digit (n : Z) : ascii :=
  if n <? 10 then ascii_of_N (Z.to_N (48 + n))
  else ascii_of_N (Z.to_N (87 + n)).

(** [bytes.hex()]: two lowercase digits per byte. *)
Fixpoint hex (l : list byte) : string :=
  match l with
  | [] => EmptyString
  | b :: t =>
      String (hex_digit (byte_val b / 16))
        (String (hex_digit (byte_val b mod 16)) (hex t))
  end.

(** Little-endian unsigned value of a byte string. *)
Fixpoint le_unsigned (l : list byte) : Z :=
  match l with
  | [] => 0
  | b :: t => byte_val b + 256 * le_unsigned t
  end.

(** [struct.unpack("<B"|"<H"|"<I"|"<Q", bs)[0]]: [struct.error] unless the
    buffer has exactly the width of the format. *)
Definition unpack_unsigned (width : nat) (bs : list byte) : option Z :=
  if decide (length bs = width) then Some (le_unsigned bs) else None.

(** [struct.unpack("<b"|"<h"|"<i"|"<q", bs)[0]]: two's complement. *)
Definition unpack_signed (width : nat) (bs : list byte) : option Z :=
  v ← unpack_unsigned width bs;
  Some (if v <? 2 ^ (8 * Z.of_nat width - 1) then v
        else v - 2 ^ (8 * Z.of_nat width)).

(** [int(c)] for a one-character ASCII string. *)
Definition int_of_char (c : ascii) : option Z :=
  let n := Z.of_N (N_of_ascii c) in
  if (48 <=? n) && (n <=? 57) then Some (n - 48) else None.

(** [str(n)] for a digit, as used when the bitmap is decoded. *)
Definition str_of_digit (n : Z) : ascii := ascii_of_N (Z.to_N (48 + n)).

(** [s[i]] on a string: [IndexError] past the end. *)
Definition str_index (s : string) (i : nat) : option ascii := String.get i s.

End Py.

(** ** nvs_read.py *)

Module NvsRead.
Import Py.

Definition nvs_types (code : Z) : option string :=
  if code =? 0x01 then Some "U8"
  else if code =? 0x11 then Some "I8"
  else if code =? 0x02 then Some "U16"
  else if code =? 0x12 then Some "I16"
  else if code =? 0x04 then Some "U32"
  else if code =? 0x14 then Some "I32"
  else if code =? 0x08 then Some "U64"
  else if code =? 0x18 then Some "I64"
  else if code =? 0x21 then Some "STR"
  else if code =? 0x41 then Some "BLOB"
  else if code =? 0x42 then Some "BLOB_DATA"
  else if code =? 0x48 then Some "BLOB_IDX"
  else if code =? 0xFF then Some "ANY"
  else None.

Definition nvs_sector_states (raw : Z) : option string :=
  if raw =? 0xFFFFFFFF then Some "EMPTY"
  else if raw =? 0xFFFFFFFE then Some "ACTIVE"
  else if raw =? 0xFFFFFFFC then Some "FULL"
  else if raw =? 0xFFFFFFF8 then Some "FREEING"
  else if raw =? 0xFFFFFFF0 then Some "CORRUPT"
  else None.

(** The value stored under ["value"]: an integer, a string (text or hex),
    or the BLOB_IDX dictionary. *)
Inductive value :=
  | VInt (n : Z)
  | VStr (s : string)
  | VIdx (total_size chunk_count chunk_start : Z).

(** The dictionary [entry_data]. ["value"] is set by the branch of the
    entry's type, ["size"] by the STR, BLOB and BLOB_DATA branch only. *)
Record entry_data := mk_entry {
  e_key : string;
  e_type : string;
  e_namespace : string;
  e_span : Z;
  e_chunk_index : Z;
  e_value : option value;
  e_size : option Z
}.

(** [entry_data["value"] = v] and [entry_data["size"] = size] *)
Definition set_value (e : entry_data) (v : value) : entry_data :=
  mk_entry (e_key e) (e_type e) (e_namespace e) (e_span e) (e_chunk_index e)
    (Some v) (e_size e).

Definition set_size (e : entry_data) (size : Z) : entry_data :=
  mk_entry (e_key e) (e_type e) (e_namespace e) (e_span e) (e_chunk_index e)
    (e_value e) (Some size).

(** The variables of the [while i < 126] loop of [parse_nvs_entries]. *)
Record loop_state := mk_loop {
  ls_i : nat;
  ls_namespaces : gmap Z string;
  ls_result : list entry_data
}.

(** [i += n; continue] *)
Definition skip (st : loop_state) (n : nat) : loop_state :=
  mk_loop (ls_i st + n) (ls_namespaces st) (ls_result st).

(** [result.append(entry_data); i += entry_span], with the table the branch
    left behind. *)
Definition emit (st : loop_state) (ns : gmap Z string) (e : entry_data)
    (span : nat) : loop_state :=
  mk_loop (ls_i st + span) ns (ls_result st ++ [e]).

(** [namespaces.get(entry_ns, f"NS_{entry_ns}")] *)
Definition namespace_name (ns : gmap Z string) (entry_ns : Z) : string :=
  default ("NS_" +:+ pretty entry_ns) (ns !! entry_ns).

(** The [for x in range(1, entry_span)] loop collecting continuation slots:
    [break] at the page end, [IndexError] when the buffer is shorter. *)
Fixpoint collect_chunks (entries : list (list byte)) (i : nat) (xs : list nat)
    (data_chunks : list (list byte)) : option (list (list byte)) :=
  match xs with
  | [] => Some data_chunks
  | x :: xs' =>
      if decide (126 <= i + x)%nat then Some data_chunks
      else
        chunk ← entries !! (i + x)%nat;
        collect_chunks entries i xs' (data_chunks ++ [chunk])
  end.

(** The body of the [try] block for one iteration; [None] is a raised
    exception. *)
Definition try_slot (entries : list (list byte)) (entry_state_bitmap : string)
    (st : loop_state) : option loop_state :=
  let i := ls_i st in
  let namespaces := ls_namespaces st in
  c ← str_index entry_state_bitmap i;
  state ← int_of_char c;
  if negb (state =? 2) then Some (skip st 1)
  else
    entry ← entries !! i;
    b_ns ← entry !! 0%nat;
    b_type ← entry !! 1%nat;
    b_span ← entry !! 2%nat;
    b_chunk ← entry !! 3%nat;
    let entry_ns := byte_val b_ns in
    let entry_type := byte_val b_type in
    let entry_span := byte_val b_span in
    let chunk_index := byte_val b_chunk in
    let key := rstrip_nul (slice 8 24 entry) in
    let data := drop 24 entry in
    match nvs_types entry_type with
    | None => Some (skip st 1)
    | Some tname =>
        if (entry_span <? 1) || (entry_span >? 126 - Z.of_nat i)
        then Some (skip st 1)
        else
          let span := Z.to_nat entry_span in
          let entry_data :=
            mk_entry (decode_ascii_ignore key) tname
              (namespace_name namespaces entry_ns) entry_span chunk_index
              None None in
          if String.eqb tname "U8" then
            v ← unpack_unsigned 1 (slice 0 1 data);
            let e := set_value entry_data (VInt v) in
            if entry_ns =? 0
            then Some (emit st (<[v := e_key e]> namespaces) e span)
            else Some (emit st namespaces e span)
          else if String.eqb tname "I8" then
            v ← unpack_signed 1 (slice 0 1 data);
            Some (emit st namespaces (set_value entry_data (VInt v)) span)
          else if String.eqb tname "U16" then
            v ← unpack_unsigned 2 (slice 0 2 data);
            Some (emit st namespaces (set_value entry_data (VInt v)) span)
          else if String.eqb tname "I16" then
            v ← unpack_signed 2 (slice 0 2 data);
            Some (emit st namespaces (set_value entry_data (VInt v)) span)
          else if String.eqb tname "U32" then
            v ← unpack_unsigned 4 (slice 0 4 data);
            Some (emit st namespaces (set_value entry_data (VInt v)) span)
          else if String.eqb tname "I32" then
            v ← unpack_signed 4 (slice 0 4 data);
            Some (emit st namespaces (set_value entry_data (VInt v)) span)
          else if String.eqb tname "U64" then
            v ← unpack_unsigned 8 (slice 0 8 data);
            Some (emit st namespaces (set_value entry_data (VInt v)) span)
          else if String.eqb tname "I64" then
            v ← unpack_signed 8 (slice 0 8 data);
            Some (emit st namespaces (set_value entry_data (VInt v)) span)
          else if String.eqb tname "STR" || String.eqb tname "BLOB"
                  || String.eqb tname "BLOB_DATA" then
            size ← unpack_unsigned 2 (slice 0 2 data);
            if (size <? 0) || (size >? 4032) then Some (skip st span)
            else
              data_chunks ←
                collect_chunks entries i (seq 1 (span - 1)) [drop 8 data];
              let combined_data := take (Z.to_nat size) (concat data_chunks) in
              let v := if String.eqb tname "STR"
                       then decode_ascii_ignore combined_data
                       else hex combined_data in
              Some (emit st namespaces
                      (set_size (set_value entry_data (VStr v)) size) span)
          else if String.eqb tname "BLOB_IDX" then
            size ← unpack_unsigned 4 (slice 0 4 data);
            chunk_count ← unpack_unsigned 1 (slice 5 6 data);
            chunk_start ← unpack_unsigned 1 (slice 6 7 data);
            Some (emit st namespaces
                    (set_value entry_data (VIdx size chunk_count chunk_start))
                    span)
          else if String.eqb tname "ANY" then Some (skip st 1)
          else Some (emit st namespaces entry_data span)
    end.

(** One iteration of the loop: the [try] block, and [i += 1] in the
    handler. No branch raises after changing the table or the result, so
    the handler sees the state of the iteration's start. *)
Definition loop_body (entries : list (list byte)) (entry_state_bitmap : string)
    (st : loop_state) : loop_state :=
  match try_slot entries entry_state_bitmap st with
  | Some st' => st'
  | None => skip st 1
  end.

(** [while i < 126: ...] run for at most [fuel] iterations. *)
Fixpoint while_loop (fuel : nat) (entries : list (list byte))
    (entry_state_bitmap : string) (st : loop_state) : loop_state :=
  match fuel with
  | O => st
  | S fuel' =>
      if decide (ls_i st < 126)%nat
      then while_loop fuel' entries entry_state_bitmap
             (loop_body entries entry_state_bitmap st)
      else st
  end.

(** [parse_nvs_entries]: returns [result]; the table is updated in place,
    so the updated table is returned with it. *)
Definition parse_nvs_entries (entries : list (list byte))
    (entry_state_bitmap : string) (namespaces : gmap Z string)
    (page_num : nat) : list entry_data * gmap Z string :=
  let st := while_loop 126 entries entry_state_bitmap
              (mk_loop 0 namespaces []) in
  (ls_result st, ls_namespaces st).

(** The binary file object [fh]: its contents and the read position. *)
Record file_handle := mk_fh { fh_content : list byte; fh_pos : nat }.

Definition fh_seek (fh : file_handle) (pos : nat) : file_handle :=
  mk_fh (fh_content fh) pos.

(** [fh.read(n)]: up to [n] bytes, fewer at the end of the file. *)
Definition fh_read (fh : file_handle) (n : nat) : list byte * file_handle :=
  let bs := take n (drop (fh_pos fh) (fh_content fh)) in
  (bs, mk_fh (fh_content fh) (fh_pos fh + length bs)).

(** [f"{n:0<w>x}"] for [n] below [16^w]. *)
Fixpoint hex_fixed (w : nat) (n : Z) : string :=
  match w with
  | O => EmptyString
  | S w' => hex_fixed w' (n / 16) +:+ String (hex_digit (n mod 16)) EmptyString
  end.

(** [nvs_sector_states.get(raw, f"Unknown (0x{raw:08x})")] *)
Definition page_state_name (page_state_raw : Z) : string :=
  default ("Unknown (0x" +:+ hex_fixed 8 page_state_raw +:+ ")")
    (nvs_sector_states page_state_raw).

(** [page_state in ["ACTIVE", "FULL"]] *)
Definition active_or_full (page_state : string) : bool :=
  String.eqb page_state "ACTIVE" || String.eqb page_state "FULL".

(** The [for entry_num in range(126)] loop that renders the bitmap as a
    string of digits; [IndexError] when the bitmap read was short. *)
Fixpoint decode_bitmap (entry_state_bitmap : list byte) (entry_nums : list nat)
    (decoded : string) : option string :=
  match entry_nums with
  | [] => Some decoded
  | entry_num :: rest =>
      let bitnum := (entry_num * 2)%nat in
      let byte_index := (bitnum / 8)%nat in
      b ← entry_state_bitmap !! byte_index;
      let temp :=
        Z.land (Z.shiftr (byte_val b) (6 - Z.of_nat (bitnum mod 8))) 3 in
      decode_bitmap entry_state_bitmap rest
        (decoded +:+ String (str_of_digit temp) EmptyString)
  end.

(** The [for i in range(126)] loop reading the slots; [break] on a short
    read. *)
Fixpoint read_entries (fh : file_handle) (n : nat)
    (entries : list (list byte)) : list (list byte) * file_handle :=
  match n with
  | O => (entries, fh)
  | S n' =>
      let '(entry_data, fh') := fh_read fh 32 in
      if decide (length entry_data ≠ 32%nat) then (entries, fh')
      else read_entries fh' n' (entries ++ [entry_data])
  end.

(** The variables of the [while sector_pos < file_len] loop. *)
Record scan_state := mk_scan {
  sc_sector_pos : nat;
  sc_page_num : nat;
  sc_namespaces : gmap Z string;
  sc_result : list entry_data
}.

(** [sector_pos += 4096; page_num += 1] without touching the results. *)
Definition next_page (sc : scan_state) : scan_state :=
  mk_scan (sc_sector_pos sc + 4096) (sc_page_num sc + 1)
    (sc_namespaces sc) (sc_result sc).

(** The [try] block of one page; [None] is a raised exception. *)
Definition try_page (content : list byte) (sc : scan_state)
    : option scan_state :=
  let fh := fh_seek (mk_fh content 0) (sc_sector_pos sc) in
  let '(b_state, fh) := fh_read fh 4 in
  page_state_raw ← unpack_unsigned 4 b_state;
  let page_state := page_state_name page_state_raw in
  let '(b_seq, fh) := fh_read fh 4 in
  seq_no ← unpack_unsigned 4 b_seq;
  let '(b_version, fh) := fh_read fh 1 in
  v ← b_version !! 0%nat;
  let version := Z.lxor (byte_val v) 0xff + 1 in
  let '(_, fh) := fh_read fh 19 in
  let '(b_crc, fh) := fh_read fh 4 in
  crc_32 ← unpack_unsigned 4 b_crc;
  if negb (active_or_full page_state) then Some (next_page sc)
  else
    let '(entry_state_bitmap, fh) := fh_read fh 32 in
    entry_state_bitmap_decoded ←
      decode_bitmap entry_state_bitmap (seq 0 126) EmptyString;
    let '(entries, fh) := read_entries fh 126 [] in
    let '(page_result, namespaces) :=
      parse_nvs_entries entries entry_state_bitmap_decoded
        (sc_namespaces sc) (sc_page_num sc) in
    Some (mk_scan (sc_sector_pos sc + 4096) (sc_page_num sc + 1)
            namespaces (sc_result sc ++ page_result)).

(** One iteration: the [try] block, and the handler that moves on to the
    next page. [parse_nvs_entries] is the only step that changes the table
    and it cannot raise, so the handler sees the table and the result of
    the iteration's start. *)
Definition scan_body (content : list byte) (sc : scan_state) : scan_state :=
  match try_page content sc with
  | Some sc' => sc'
  | None => next_page sc
  end.

(** [while sector_pos < file_len: ...] run for at most [fuel] iterations. *)
Fixpoint scan_loop (fuel : nat) (content : list byte) (sc : scan_state)
    : scan_state :=
  match fuel with
  | O => sc
  | S fuel' =>
      if decide (sc_sector_pos sc < length content)%nat
      then scan_loop fuel' content (scan_body content sc)
      else sc
  end.

Definition scan_init : scan_state := mk_scan 0 0 {[ 0 := "System" ]} [].

(** [read_nvs_pages]: one iteration per 4096-byte stride of the file. *)
Definition read_nvs_pages (content : list byte)
    : list entry_data * gmap Z string :=
  let sc := scan_loop (S (length content / 4096)) content scan_init in
  (sc_result sc, sc_namespaces sc).

End NvsRead.

(** ** generate_nvs_csv.py *)

Module CsvGen.
Import Py NvsRead.

(** *** More Python primitives *)

(** The white space [int] skips around a number and [bytes.fromhex] skips
    between bytes: 0x09 to 0x0d and 0x20. *)
Definition is_ascii_space (c : ascii) : bool :=
  let n := N_of_ascii c in
  ((9 <=? n) && (n <=? 13) || (n =? 32))%N.

Definition digit_val (c : ascii) : option Z :=
  let n := Z.of_N (N_of_ascii c) in
  if (48 <=? n) && (n <=? 57) then Some (n - 48) else None.

Fixpoint lstrip (l : list ascii) : list ascii :=
  match l with
  | c :: t => if is_ascii_space c then lstrip t else l
  | [] => []
  end.

Definition strip (l : list ascii) : list ascii :=
  rev (lstrip (rev (lstrip l))).

(** What [int] does to a string before it parses it. An ASCII string is
    taken as it is. In a string that is not all ASCII the next-line control
    0x85 and the no-break space 0xa0 become spaces, and any other character
    from 0x7f on is refused. A character of the embedding is a code point
    below 256; none of them is a decimal digit outside ASCII. *)
Definition to_ascii_spaces (l : list ascii) : option (list ascii) :=
  if forallb (fun c => (N_of_ascii c <? 128)%N) l then Some l
  else
    mapM (fun c =>
            let n := N_of_ascii c in
            if (n <? 127)%N then Some c
            else if ((n =? 0x85) || (n =? 0xa0))%N then Some " "%char
            else None)
      l.

(** Decimal digits with single underscores between them. *)
Fixpoint parse_digits (l : list ascii) (acc : Z) (after_digit : bool)
    : option Z :=
  match l with
  | [] => if after_digit then Some acc else None
  | c :: t =>
      match digit_val c with
      | Some d => parse_digits t (10 * acc + d) true
      | None =>
          if Ascii.eqb c "_" && after_digit then parse_digits t acc false
          else None
      end
  end.

(** [int(s)] in base 10 on a string; [None] is [ValueError]. White space
    is skipped at both ends only, a sign comes first, and the digits may
    be separated by single underscores. The interpreter's configurable
    limit on the number of digits (4300 by default) is not modelled. *)
Definition py_int (s : string) : option Z :=
  l ← to_ascii_spaces (list_ascii_of_string s);
  match strip l with
  | "-"%char :: t => Z.opp <$> parse_digits t 0 false
  | "+"%char :: t => parse_digits t 0 false
  | l => parse_digits l 0 false
  end.

Definition hex_val (c : ascii) : option Z :=
  let n := Z.of_N (N_of_ascii c) in
  if (48 <=? n) && (n <=? 57) then Some (n - 48)
  else if (97 <=? n) && (n <=? 102) then Some (n - 87)
  else if (65 <=? n) && (n <=? 70) then Some (n - 55)
  else None.

Definition byte_of_nibbles (hi lo : Z) : byte :=
  default "000"%byte (Byte.of_N (Z.to_N (16 * hi + lo))).

Fixpoint fromhex_chars (l : list ascii) : option (list byte) :=
  match l with
  | [] => Some []
  | c :: t =>
      if is_ascii_space c then fromhex_chars t
      else
        match t with
        | [] => None
        | d :: t' =>
            hi ← hex_val c;
            lo ← hex_val d;
            rest ← fromhex_chars t';
            Some (byte_of_nibbles hi lo :: rest)
        end
  end.

(** [bytes.fromhex(v)]: [TypeError] unless [v] is a string, [ValueError]
    unless it is pairs of hex digits (white space between pairs is
    skipped). *)
Definition bytes_fromhex (v : value) : option (list byte) :=
  match v with
  | VStr s => fromhex_chars (list_ascii_of_string s)
  | _ => None
  end.

(** [sorted(l, key=...)] / [list.sort(key=...)] on items decorated with
    their integer key: a stable sort. *)
Fixpoint insert_by_key {A} (x : Z * A) (l : list (Z * A)) : list (Z * A) :=
  match l with
  | [] => [x]
  | y :: l' =>
      if x.1 <=? y.1 then x :: l else y :: insert_by_key x l'
  end.

Fixpoint sort_by_key {A} (l : list (Z * A)) : list (Z * A) :=
  match l with
  | [] => []
  | x :: l' => insert_by_key x (sort_by_key l')
  end.

(** A [dict] from strings to lists in insertion order:
    [if k not in d: d[k] = []] followed by [d[k].append(v)]. *)
Fixpoint dict_append {V} (k : string) (v : V) (d : list (string * list V))
    : list (string * list V) :=
  match d with
  | [] => [(k, [v])]
  | (k', vs) :: d' =>
      if String.eqb k' k then (k', vs ++ [v]) :: d'
      else (k', vs) :: dict_append k v d'
  end.

(** [d.get(k, [])] *)
Fixpoint dict_get {V} (k : string) (d : list (string * list V)) : list V :=
  match d with
  | [] => []
  | (k', vs) :: d' => if String.eqb k' k then vs else dict_get k d'
  end.

(** [os.path.join(output_dir, name)] for a relative [name]. *)
Definition path_join (output_dir name : string) : string :=
  match rev (list_ascii_of_string output_dir) with
  | [] => name
  | c :: _ => if Ascii.eqb c "/" then output_dir +:+ name
              else output_dir +:+ "/" +:+ name
  end.

(** *** The file system and the random source

    The files the script writes, by path, and the values [uuid.uuid4().hex]
    returns: the [n]th call yields [w_uuid4_hex n]. Directories are not
    modelled. *)

Record world := mk_world {
  w_files : gmap string (list byte);
  w_uuid4_hex : nat -> string;
  w_uuid_calls : nat
}.

(** A computation that reads and writes the world and may raise. *)
Definition io (A : Type) : Type := world -> option A * world.

Definition io_ret {A} (a : A) : io A := fun w => (Some a, w).
Definition io_raise {A} : io A := fun w => (None, w).
Definition io_bind {A B} (m : io A) (f : A -> io B) : io B :=
  fun w => match m w with
           | (Some a, w') => f a w'
           | (None, w') => (None, w')
           end.

Notation "'do' x <- m ; k" := (io_bind m (fun x => k))
  (at level 10, x name, m at level 100, k at level 200).

(** A raising pure step lifted into [io]. *)
Definition io_lift {A} (o : option A) : io A :=
  fun w => (o, w).

Definition uuid4_hex : io string :=
  fun w => (Some (w_uuid4_hex w (w_uuid_calls w)),
            mk_world (w_files w) (w_uuid4_hex w) (S (w_uuid_calls w))).

(** [open(path, 'wb')] and [open(path, 'w')]: the file is created or
    truncated. *)
Definition open_write (path : string) : io unit :=
  fun w => (Some tt,
            mk_world (<[path := []]> (w_files w)) (w_uuid4_hex w)
              (w_uuid_calls w)).

(** [f.write(bs)] on the file opened at [path]. *)
Definition file_write (path : string) (bs : list byte) : io unit :=
  fun w => (Some tt,
            mk_world (<[path := default [] (w_files w !! path) ++ bs]>
                        (w_files w))
              (w_uuid4_hex w) (w_uuid_calls w)).

(** *** The script *)

Definition type_mapping : list (string * option string) :=
  [("U8", Some "u8"); ("I8", Some "i8"); ("U16", Some "u16");
   ("I16", Some "i16"); ("U32", Some "u32"); ("I32", Some "i32");
   ("U64", Some "u64"); ("I64", Some "i64"); ("BLOB_DATA", Some "binary");
   ("BLOB_IDX", None)].

Fixpoint assoc_get {V} (k : string) (d : list (string * V)) : option V :=
  match d with
  | [] => None
  | (k', v) :: d' => if String.eqb k' k then Some v else assoc_get k d'
  end.

(** [type_mapping.get(json_type)]: Python's [None] for an absent type and
    for BLOB_IDX alike. *)
Definition map_type_encoding (json_type : string) : option string :=
  match assoc_get json_type type_mapping with
  | Some encoding => encoding
  | None => None
  end.

(** The [for blob_value in blob_values] loop of [write_blob_file]. *)
Fixpoint write_blob_values (blob_path : string) (blob_values : list value)
    : io unit :=
  match blob_values with
  | [] => io_ret tt
  | blob_value :: rest =>
      do bs <- io_lift (bytes_fromhex blob_value);
      do _ <- file_write blob_path bs;
      write_blob_values blob_path rest
  end.

Definition write_blob_file (blob_values : list value) (output_dir : string)
    : io string :=
  do u <- uuid4_hex;
  let blob_filename := "blob_" +:+ u +:+ ".bin" in
  let blob_path := path_join output_dir blob_filename in
  do _ <- open_write blob_path;
  do _ <- write_blob_values blob_path blob_values;
  io_ret blob_path.

(** One line of [csv_lines]. The script appends the text [render_line]
    gives; the lines are kept structured here so that a row's kind and
    fields can be told apart. *)
Inductive csv_line :=
  | Header
  | NamespaceLine (ns_name : string)
  | FileLine (key blob_path : string)
  | DataLine (key encoding value_str : string).

Definition render_line (l : csv_line) : string :=
  match l with
  | Header => "key,type,encoding,value"
  | NamespaceLine ns_name => ns_name +:+ ",namespace,,"
  | FileLine key blob_path => key +:+ ",file,binary," +:+ blob_path
  | DataLine key encoding value_str =>
      key +:+ ",data," +:+ encoding +:+ "," +:+ value_str
  end.

(** ['\n'.join(lines)] *)
Fixpoint join_lines (lines : list string) : string :=
  match lines with
  | [] => EmptyString
  | [l] => l
  | l :: rest => l +:+ String (ascii_of_nat 10) EmptyString +:+ join_lines rest
  end.

(** The structured record: ["namespaces"] in the order of the JSON object,
    keyed by the id's text, and ["entries"]. *)
Record json_data := mk_json {
  jd_namespaces : list (string * string);
  jd_entries : list entry_data
}.

(** [f"{encoding}"]: Python's [None] prints as the text None. *)
Definition str_of_encoding (encoding : option string) : string :=
  default "None" encoding.

Definition dquote : string := String (ascii_of_nat 34) EmptyString.

(** [json.dumps(value)] for the BLOB_IDX dictionary, [str(value)] for the
    scalars. The interpreter's limit on the number of digits of an integer
    is not modelled here either. *)
Definition value_str (v : value) : string :=
  match v with
  | VIdx sz cc cs =>
      "{" +:+ dquote +:+ "size" +:+ dquote +:+ ": " +:+ pretty sz
      +:+ ", " +:+ dquote +:+ "chunk_count" +:+ dquote +:+ ": " +:+ pretty cc
      +:+ ", " +:+ dquote +:+ "chunk_start" +:+ dquote +:+ ": " +:+ pretty cs
      +:+ "}"
  | VInt n => pretty n
  | VStr s => s
  end.

(** The loop grouping the entries by namespace name. *)
Definition group_by_namespace (entries : list entry_data)
    : list (string * list entry_data) :=
  fold_left (fun d entry => dict_append (e_namespace entry) entry d)
    entries [].

(** The loop over one namespace's entries: BLOB_DATA chunks are grouped by
    key, BLOB_IDX entries are skipped, the others are kept in order.
    [KeyError] when a chunk has no value. *)
Fixpoint partition_entries (es : list entry_data)
    (blob_data_by_key : list (string * list (Z * value)))
    (non_blob_entries : list entry_data)
    : option (list (string * list (Z * value)) * list entry_data) :=
  match es with
  | [] => Some (blob_data_by_key, non_blob_entries)
  | entry :: rest =>
      if String.eqb (e_type entry) "BLOB_DATA" then
        v ← e_value entry;
        partition_entries rest
          (dict_append (e_key entry) (e_chunk_index entry, v)
             blob_data_by_key)
          non_blob_entries
      else if negb (String.eqb (e_type entry) "BLOB_IDX") then
        partition_entries rest blob_data_by_key (non_blob_entries ++ [entry])
      else partition_entries rest blob_data_by_key non_blob_entries
  end.

(** The loop over the blob groups of a namespace. *)
Fixpoint write_blob_groups (groups : list (string * list (Z * value)))
    (blobs_output_dir : string) (csv_lines : list csv_line)
    : io (list csv_line) :=
  match groups with
  | [] => io_ret csv_lines
  | (key, blob_entries) :: rest =>
      let blob_entries := sort_by_key blob_entries in
      let blob_values := map snd blob_entries in
      do blob_path <- write_blob_file blob_values blobs_output_dir;
      write_blob_groups rest blobs_output_dir
        (csv_lines ++ [FileLine key blob_path])
  end.

(** The loop over the other entries of a namespace; [KeyError] when an
    entry has no value. *)
Fixpoint data_lines (non_blob_entries : list entry_data)
    (csv_lines : list csv_line) : option (list csv_line) :=
  match non_blob_entries with
  | [] => Some csv_lines
  | entry :: rest =>
      let encoding := map_type_encoding (e_type entry) in
      v ← e_value entry;
      data_lines rest
        (csv_lines
         ++ [DataLine (e_key entry) (str_of_encoding encoding) (value_str v)])
  end.

(** The loop over the sorted namespaces. *)
Fixpoint namespace_loop (sorted_namespaces : list (string * string))
    (entries_by_namespace : list (string * list entry_data))
    (blobs_output_dir : string) (csv_lines : list csv_line)
    : io (list csv_line) :=
  match sorted_namespaces with
  | [] => io_ret csv_lines
  | (ns_id, ns_name) :: rest =>
      let csv_lines := csv_lines ++ [NamespaceLine ns_name] in
      do parts <-
        io_lift (partition_entries (dict_get ns_name entries_by_namespace)
                   [] []);
      do csv_lines <- write_blob_groups parts.1 blobs_output_dir csv_lines;
      do csv_lines <- io_lift (data_lines parts.2 csv_lines);
      namespace_loop rest entries_by_namespace blobs_output_dir csv_lines
  end.

(** [sorted(namespace_map.items(), key=lambda x: int(x[0]))]: every key is
    converted first, [ValueError] if one is not an integer. *)
Definition sorted_namespaces (namespace_map : list (string * string))
    : option (list (string * string)) :=
  keyed ← mapM (fun item => k ← py_int item.1; Some (k, item)) namespace_map;
  Some (map snd (sort_by_key keyed)).

(** [generate_csv]. The script returns nothing; the lines it wrote to the
    CSV file are returned here beside the world that holds the file. *)
Definition generate_csv (data : json_data)
    (csv_output_path blobs_output_dir : string) : io (list csv_line) :=
  let csv_lines := [Header] in
  let entries_by_namespace := group_by_namespace (jd_entries data) in
  do sorted <- io_lift (sorted_namespaces (jd_namespaces data));
  do csv_lines <-
    namespace_loop sorted entries_by_namespace blobs_output_dir csv_lines;
  do _ <- open_write csv_output_path;
  do _ <- file_write csv_output_path
            (list_byte_of_string (join_lines (map render_line csv_lines)));
  io_ret csv_lines.

End CsvGen.

(** ** Fixture builders

    Pages and slots assembled byte by byte, used to run the decoder on
    concrete partitions. *)

Module Fixture.
Import Py NvsRead.

Definition byte_of_Z (n : Z) : byte :=
  default "000"%byte (Byte.of_N (Z.to_N n)).

Definition bytes_of_string (s : string) : list byte := list_byte_of_string s.

(** [l] padded on the right to [n] bytes with [fill]. *)
Definition pad (n : nat) (fill : byte) (l : list byte) : list byte :=
  take n (l ++ repeat fill (n - length l)).

(** [width] little-endian bytes of [n]. *)
Fixpoint le_bytes (width : nat) (n : Z) : list byte :=
  match width with
  | O => []
  | S w => byte_of_Z (n mod 256) :: le_bytes w (n / 256)
  end.

(** A 32-byte slot: header bytes, reserved bytes, key and value region. *)
Definition slot (ns type span chunk : Z) (key : string) (data : list byte)
    : list byte :=
  [byte_of_Z ns; byte_of_Z type; byte_of_Z span; byte_of_Z chunk]
  ++ repeat (byte_of_Z 255) 4
  ++ pad 16 (byte_of_Z 0) (bytes_of_string key)
  ++ pad 8 (byte_of_Z 255) data.

(** A raw continuation slot holding [payload]. *)
Definition raw_slot (payload : list byte) : list byte :=
  pad 32 (byte_of_Z 255) payload.

Definition erased_slot : list byte := repeat (byte_of_Z 255) 32.

(** The 32-byte bitmap whose slot [n] has the two-bit code [states !! n]
    (3, Empty, for the slots past the list). *)
Fixpoint bitmap_bytes (nbytes : nat) (states : list Z) : list byte :=
  match nbytes with
  | O => []
  | S k =>
      let code n := default 3 (states !! n) in
      byte_of_Z (64 * code 0%nat + 16 * code 1%nat + 4 * code 2%nat
                 + code 3%nat)
      :: bitmap_bytes k (drop 4 states)
  end.

(** The string of digits that [read_nvs_pages] hands to
    [parse_nvs_entries] for these slot states. *)
Definition bitmap_string (states : list Z) : string :=
  string_of_list_ascii
    (map str_of_digit (take 126 (states ++ repeat 3 126))).

(** 126 slots: the given ones, then erased flash. *)
Definition slots126 (slots : list (list byte)) : list (list byte) :=
  take 126 (slots ++ repeat erased_slot 126).

(** A full 4096-byte page. *)
Definition page (state : Z) (states : list Z) (slots : list (list byte))
    : list byte :=
  le_bytes 4 state ++ le_bytes 4 0 ++ [byte_of_Z 254]
  ++ repeat (byte_of_Z 255) 19 ++ le_bytes 4 0
  ++ bitmap_bytes 32 states
  ++ concat (slots126 slots).

Definition ACTIVE : Z := 0xFFFFFFFE.
Definition EMPTY : Z := 0xFFFFFFFF.

End Fixture.

(** ** Vocabulary of the properties

    Executable readings of the words the specification uses about a scan:
    a Written slot, a valid span, a namespace definition, the state of the
    loops after a number of iterations. *)

Module NvsView.
Import Py NvsRead.

(** Slot [i] is Written: [int(entry_state_bitmap[i]) == 2]. *)
Definition is_written (entry_state_bitmap : string) (i : nat) : bool :=
  match str_index entry_state_bitmap i with
  | Some c =>
      match int_of_char c with
      | Some state => state =? 2
      | None => false
      end
  | None => false
  end.

(** [1 <= span <= remaining slots in the page]. *)
Definition valid_span (i : nat) (entry_span : Z) : bool :=
  (1 <=? entry_span) && (entry_span <=? 126 - Z.of_nat i).

(** The 2-byte declared size of a variable-length entry, at offset 24. *)
Definition declared_size (entry : list byte) : Z :=
  le_unsigned (slice 24 26 entry).

(** The type codes of STR, BLOB and BLOB_DATA. *)
Definition is_variable_length (entry_type : Z) : bool :=
  (entry_type =? 0x21) || (entry_type =? 0x41) || (entry_type =? 0x42).

(** The namespace definition slot [i] holds, if it is one: a Written U8
    entry of namespace 0 with a valid span names the id stored as its
    value after its key. *)
Definition definition_at (entries : list (list byte))
    (entry_state_bitmap : string) (i : nat) : list (Z * string) :=
  if is_written entry_state_bitmap i then
    match entries !! i with
    | Some entry =>
        match entry !! 0%nat, entry !! 1%nat, entry !! 2%nat, entry !! 3%nat,
              entry !! 24%nat with
        | Some b_ns, Some b_type, Some b_span, Some _, Some b_value =>
            if (byte_val b_ns =? 0) && (byte_val b_type =? 0x01)
               && valid_span i (byte_val b_span)
            then [(byte_val b_value,
                   decode_ascii_ignore (rstrip_nul (slice 8 24 entry)))]
            else []
        | _, _, _, _, _ => []
        end
    | None => []
    end
  else [].

(** A table after the definitions [defs] were registered in order. *)
Definition apply_defs (defs : list (Z * string)) (ns : gmap Z string)
    : gmap Z string :=
  fold_left (fun m d => <[d.1 := d.2]> m) defs ns.

(** What one iteration of the slot loop can do: consume one slot and
    produce nothing, reject an oversized variable-length entry and consume
    its span, or append an entry and consume its span. *)
Inductive step_kind (entries : list (list byte)) (bitmap : string)
    (st : loop_state) : loop_state -> Prop :=
  | step_skip1 :
      definition_at entries bitmap (ls_i st) = [] ->
      step_kind entries bitmap st (skip st 1)
  | step_oversized entry b_type b_span :
      is_written bitmap (ls_i st) = true ->
      entries !! ls_i st = Some entry ->
      entry !! 1%nat = Some b_type ->
      entry !! 2%nat = Some b_span ->
      is_variable_length (byte_val b_type) = true ->
      valid_span (ls_i st) (byte_val b_span) = true ->
      (26 <= length entry)%nat ->
      declared_size entry > 4032 ->
      definition_at entries bitmap (ls_i st) = [] ->
      step_kind entries bitmap st (skip st (Z.to_nat (byte_val b_span)))
  | step_emit entry b_ns b_type b_span tname e ns' :
      is_written bitmap (ls_i st) = true ->
      entries !! ls_i st = Some entry ->
      entry !! 0%nat = Some b_ns ->
      entry !! 1%nat = Some b_type ->
      entry !! 2%nat = Some b_span ->
      nvs_types (byte_val b_type) = Some tname ->
      tname <> "ANY" ->
      valid_span (ls_i st) (byte_val b_span) = true ->
      e_type e = tname ->
      e_namespace e = namespace_name (ls_namespaces st) (byte_val b_ns) ->
      ns' = apply_defs (definition_at entries bitmap (ls_i st))
              (ls_namespaces st) ->
      step_kind entries bitmap st
        (emit st ns' e (Z.to_nat (byte_val b_span))).

(** The loop variables of [parse_nvs_entries] after [n] iterations, or at
    the loop's exit when it comes earlier. *)
Fixpoint slot_state (entries : list (list byte)) (entry_state_bitmap : string)
    (namespaces : gmap Z string) (n : nat) : loop_state :=
  match n with
  | O => mk_loop 0 namespaces []
  | S n' =>
      let st := slot_state entries entry_state_bitmap namespaces n' in
      if decide (ls_i st < 126)%nat
      then loop_body entries entry_state_bitmap st
      else st
  end.

(** The definitions parsed by the first [n] iterations, oldest first. *)
Fixpoint slot_defs (entries : list (list byte)) (entry_state_bitmap : string)
    (namespaces : gmap Z string) (n : nat) : list (Z * string) :=
  match n with
  | O => []
  | S n' =>
      slot_defs entries entry_state_bitmap namespaces n'
      ++ definition_at entries entry_state_bitmap
           (ls_i (slot_state entries entry_state_bitmap namespaces n'))
  end.

(** The raw page-state word at [sector_pos], when four bytes are there. *)
Definition header_state_raw (content : list byte) (sector_pos : nat)
    : option Z :=
  unpack_unsigned 4 (slice sector_pos (sector_pos + 4) content).

(** The slots and the decoded bitmap that [read_nvs_pages] hands to
    [parse_nvs_entries] for the page at [sector_pos], read as [try_page]
    reads them; [None] when the page is not parsed. *)
Definition page_view (content : list byte) (sector_pos : nat)
    : option (list (list byte) * string) :=
  let fh := fh_seek (mk_fh content 0) sector_pos in
  let '(b_state, fh) := fh_read fh 4 in
  page_state_raw ← unpack_unsigned 4 b_state;
  let '(b_seq, fh) := fh_read fh 4 in
  _ ← unpack_unsigned 4 b_seq;
  let '(b_version, fh) := fh_read fh 1 in
  _ ← b_version !! 0%nat;
  let '(_, fh) := fh_read fh 19 in
  let '(b_crc, fh) := fh_read fh 4 in
  _ ← unpack_unsigned 4 b_crc;
  if negb (active_or_full (page_state_name page_state_raw)) then None
  else
    let '(entry_state_bitmap, fh) := fh_read fh 32 in
    entry_state_bitmap_decoded ←
      decode_bitmap entry_state_bitmap (seq 0 126) EmptyString;
    Some ((read_entries fh 126 []).1, entry_state_bitmap_decoded).

(** The loop variables of [read_nvs_pages] after [k] pages, or at the
    loop's exit when it comes earlier. *)
Fixpoint page_state (content : list byte) (k : nat) : scan_state :=
  match k with
  | O => scan_init
  | S k' =>
      let sc := page_state content k' in
      if decide (sc_sector_pos sc < length content)%nat
      then scan_body content sc
      else sc
  end.

(** The definitions parsed in the page at [sector_pos], entered with the
    table [namespaces]. *)
Definition page_defs (content : list byte) (sector_pos : nat)
    (namespaces : gmap Z string) : list (Z * string) :=
  match page_view content sector_pos with
  | Some (entries, bitmap) => slot_defs entries bitmap namespaces 126
  | None => []
  end.

(** The definitions parsed in the first [k] pages, oldest first. *)
Fixpoint scan_defs (content : list byte) (k : nat) : list (Z * string) :=
  match k with
  | O => []
  | S k' =>
      let sc := page_state content k' in
      scan_defs content k'
      ++ (if decide (sc_sector_pos sc < length content)%nat
          then page_defs content (sc_sector_pos sc) (sc_namespaces sc)
          else [])
  end.

End NvsView.

(** ** Vocabulary of the CSV properties *)

Module CsvView.
Import NvsRead CsvGen.

(** The names on the namespace rows of the output, in order. *)
Definition namespace_rows (lines : list csv_line) : list string :=
  omap (fun l => match l with NamespaceLine n => Some n | _ => None end) lines.

(** Ascending order of two decorated items by their integer key. *)
Definition key_le {A} (a b : Z * A) : Prop := a.1 <= b.1.

(** Ascending order of two items of the namespace table by numeric id. *)
Definition id_le (a b : string * string) : Prop :=
  match py_int a.1, py_int b.1 with
  | Some x, Some y => x <= y
  | _, _ => False
  end.

(** The key function of [sorted_namespaces]: an item with its numeric id. *)
Definition decorate (item : string * string) : option (Z * (string * string)) :=
  k ← py_int item.1; Some (k, item).

(** The record without its BLOB_IDX entries. *)
Definition without_blob_idx (data : json_data) : json_data :=
  mk_json (jd_namespaces data)
    (filter (fun e => e_type e <> "BLOB_IDX") (jd_entries data)).

(** The chunk an entry contributes to the blob group of [key]: BLOB_DATA
    entries of that key give their chunk index and value. *)
Definition chunk_of (key : string) (e : entry_data) : option (Z * value) :=
  if String.eqb (e_type e) "BLOB_DATA" && String.eqb (e_key e) key
  then (fun v => (e_chunk_index e, v)) <$> e_value e
  else None.

(** The chunks of [key] among the entries [es], in record order. *)
Definition chunks_of (key : string) (es : list entry_data)
    : list (Z * value) :=
  omap (chunk_of key) es.

(** An entry the encoder can write: it has a value, which is a hex string
    if the entry is a BLOB_DATA chunk. *)
Definition entry_encodable (e : entry_data) : Prop :=
  match e_value e with
  | Some v => e_type e = "BLOB_DATA" -> is_Some (bytes_fromhex v)
  | None => False
  end.

(** A record the encoder can write: the ids of the namespace table are
    integers and the entries are encodable. *)
Definition record_encodable (data : json_data) : Prop :=
  Forall (fun item => is_Some (py_int item.1)) (jd_namespaces data)
  /\ Forall entry_encodable (jd_entries data).

(** A blob group whose chunk values are all hex strings. *)
Definition group_encodable (group : string * list (Z * value)) : Prop :=
  Forall (fun chunk => is_Some (bytes_fromhex chunk.2)) group.2.

(** An entry that is not of type ANY. *)
Definition not_any (e : entry_data) : Prop := e_type e <> "ANY".

End CsvView.

(** ** Sample partitions and records *)

Module Samples.
Import Py NvsRead CsvGen Fixture.

(** The table [read_nvs_pages] starts from. *)
Definition seed_namespaces : gmap Z string := {[ 0 := "System" ]}.

(** Slot 0: a U32 entry whose span byte is 0; slot 1: a sound U8 entry. *)
Definition zero_span_slot : list byte :=
  slot 1 0x04 0 0 "cnt" (le_bytes 4 7).
Definition zero_span_entries : list (list byte) :=
  slots126 [zero_span_slot; slot 1 0x01 1 0 "u" (le_bytes 1 9)].
Definition zero_span_bitmap : string := bitmap_string [2; 2].

(** Slot 0: a STR entry of span 2 declaring 5000 bytes; slot 1, marked
    Written, would decode as a U8 entry if the scan reached it. *)
Definition oversized_slot : list byte :=
  slot 1 0x21 2 0 "big" (le_bytes 2 5000).
Definition oversized_entries : list (list byte) :=
  slots126 [oversized_slot; slot 1 0x01 1 0 "u" (le_bytes 1 9)].
Definition oversized_bitmap : string := bitmap_string [2; 2].

(** Slot 0: a BLOB entry of span 3 declaring 4033 bytes. *)
Definition oversized_blob_slot : list byte :=
  slot 2 0x41 3 0 "cert" (le_bytes 2 4033).
Definition oversized_blob_entries : list (list byte) :=
  slots126 [oversized_blob_slot].
Definition oversized_blob_bitmap : string := bitmap_string [2].

(** Slot 0: a STR entry of span 2 declaring 2 bytes; slot 1 carries the
    four payload bytes [hi!!]. *)
Definition greeting_slot : list byte :=
  slot 1 0x21 2 0 "greeting" (le_bytes 2 2).
Definition greeting_entries : list (list byte) :=
  slots126 [greeting_slot; raw_slot (bytes_of_string "hi!!")].
Definition greeting_bitmap : string := bitmap_string [2].

(** One ACTIVE page: an entry of namespace 5, then the U8 entry of
    namespace 0 that names id 5 [wifi], then another entry of namespace 5. *)
Definition ns_early_slot : list byte := slot 5 0x04 1 0 "early" (le_bytes 4 1).
Definition ns_def_slot : list byte := slot 0 0x01 1 0 "wifi" (le_bytes 1 5).
Definition ns_late_slot : list byte := slot 5 0x04 1 0 "late" (le_bytes 4 2).
Definition ns_entries : list (list byte) :=
  slots126 [ns_early_slot; ns_def_slot; ns_late_slot].
Definition ns_bitmap : string := bitmap_string [2; 2; 2].
Definition ns_file : list byte :=
  page ACTIVE [2; 2; 2] [ns_early_slot; ns_def_slot; ns_late_slot].
Definition ns_late_entry : entry_data :=
  mk_entry "late" "U32" "wifi" 1 0 (Some (VInt 2)) None.

(** An EMPTY page followed by an ACTIVE page holding the STR entry
    [greeting] = [hi]. *)
Definition two_page_file : list byte :=
  page EMPTY [] []
  ++ page ACTIVE [2] [greeting_slot; raw_slot (bytes_of_string "hi")].

(** A file that ends inside the first page header. *)
Definition truncated_file : list byte := take 3 (le_bytes 4 ACTIVE).

(** Slot 0: a BLOB_IDX entry of span 1: total size 2, two chunks from 0. *)
Definition blob_idx_slot : list byte :=
  slot 1 0x48 1 0 "cert"
    (le_bytes 4 2 ++ [byte_of_Z 255; byte_of_Z 2; byte_of_Z 0]).
Definition blob_idx_entries : list (list byte) := slots126 [blob_idx_slot].
Definition blob_idx_bitmap : string := bitmap_string [2].
(** The file of one ACTIVE page that holds this slot. *)
Definition blob_idx_file : list byte := page ACTIVE [2] [blob_idx_slot].

(** A stand-in for the random source, and a world with no files yet. *)
Definition sample_uuid (n : nat) : string := "uuid" +:+ pretty n.
Definition empty_world : world := mk_world ∅ sample_uuid 0.

Definition blob_chunk (key ns : string) (chunk_index : Z) (hex_value : string)
    : entry_data :=
  mk_entry key "BLOB_DATA" ns 1 chunk_index (Some (VStr hex_value)) None.

(** The chunks (chunk_index=1, BB), (chunk_index=0, AA) of one key. *)
Definition chunk_group : list (Z * value) :=
  [(1, VStr "BB"); (0, VStr "AA")].

(** Two records with the same two chunks of one key, both of chunk index
    0, in opposite orders. *)
Definition tie_record_a : json_data :=
  mk_json [("0", "System"); ("1", "wifi")]
    [blob_chunk "cert" "wifi" 0 "AA"; blob_chunk "cert" "wifi" 0 "BB"].
Definition tie_record_b : json_data :=
  mk_json [("0", "System"); ("1", "wifi")]
    [blob_chunk "cert" "wifi" 0 "BB"; blob_chunk "cert" "wifi" 0 "AA"].

(** A record whose namespace table is not in id order, and the lines the
    encoder writes for it. *)
Definition unordered_record : json_data :=
  mk_json [("10", "app"); ("2", "wifi"); ("0", "System")]
    [mk_entry "mode" "U8" "app" 1 0 (Some (VInt 3)) None;
     mk_entry "ssid" "STR" "wifi" 2 0 (Some (VStr "home")) (Some 4);
     mk_entry "cert" "BLOB_IDX" "wifi" 1 0 (Some (VIdx 2 2 0)) None].
Definition unordered_lines : list csv_line :=
  [Header; NamespaceLine "System"; NamespaceLine "wifi";
   DataLine "ssid" "None" "home"; NamespaceLine "app";
   DataLine "mode" "u8" "3"].

(** The entry [greeting] = [hi] as decoded into namespace [ns]. *)
Definition greeting_entry (ns : string) : entry_data :=
  mk_entry "greeting" "STR" ns 2 0 (Some (VStr "hi")) (Some 2).

(** A record that lists the entry's namespace, and the lines written. *)
Definition listed_record : json_data :=
  mk_json [("0", "System"); ("5", "wifi")] [greeting_entry "wifi"].
Definition listed_lines : list csv_line :=
  [Header; NamespaceLine "System"; NamespaceLine "wifi";
   DataLine "greeting" "None" "hi"].

(** The record decoded from [two_page_file]: namespace 1 is never defined,
    so the entry carries the fallback name and the table lists id 0 only. *)
Definition unlisted_record : json_data :=
  mk_json [("0", "System")] [greeting_entry "NS_1"].

(** A record whose table has an id that is not a number. *)
Definition bad_id_record : json_data :=
  mk_json [("0", "System"); ("x1", "wifi")] [greeting_entry "wifi"].

(** A record with a blob chunk whose value is not hex text. *)
Definition bad_chunk_record : json_data :=
  mk_json [("0", "System"); ("1", "wifi")]
    [blob_chunk "cert" "wifi" 0 "aabb"; blob_chunk "cert" "wifi" 1 "zz"].

(** A record with two blobs in one namespace, the chunks of the first one
    out of order and apart, and the lines written for it. *)
Definition two_blob_record : json_data :=
  mk_json [("1", "wifi"); ("0", "System")]
    [blob_chunk "cert" "wifi" 1 "cc"; blob_chunk "key" "wifi" 0 "dd";
     blob_chunk "cert" "wifi" 0 "aabb"].
Definition two_blob_lines : list csv_line :=
  [Header; NamespaceLine "System"; NamespaceLine "wifi";
   FileLine "cert" "blobs/blob_uuid0.bin";
   FileLine "key" "blobs/blob_uuid1.bin"].

(** The page of [ns_file] with another sequence number, version and CRC in
    its header. *)
Definition ns_file_other_header : list byte :=
  le_bytes 4 ACTIVE ++ le_bytes 4 7 ++ [byte_of_Z 253]
  ++ repeat (byte_of_Z 255) 19 ++ le_bytes 4 0x12345678
  ++ bitmap_bytes 32 [2; 2; 2]
  ++ concat (slots126 [ns_early_slot; ns_def_slot; ns_late_slot]).


(** Two pages of erased flash and a few bytes more. *)
Definition erased_flash : list byte := repeat (byte_of_Z 255) (4096 + 4096 + 8).

End Samples.


(** ** Vocabulary of the decoder's invariants *)

Module NvsShape.
Import Py NvsRead NvsView.

(** The two-bit state of slot [entry_num] in the raw bitmap: four slots to
    a byte, the first of them in the two most significant bits. *)
Definition state_code (entry_state_bitmap : list byte) (entry_num : nat)
    : option Z :=
  b ← entry_state_bitmap !! (entry_num / 4)%nat;
  let shift := 6 - 2 * Z.of_nat (entry_num mod 4) in
  Some (2 * Z.b2z (Z.testbit (byte_val b) (shift + 1))
        + Z.b2z (Z.testbit (byte_val b) shift)).

(** Byte [k] of a slot as an integer (0 when the slot is shorter). *)
Definition byte_at (entry : list byte) (k : nat) : Z :=
  default 0 (byte_val <$> entry !! k).

(** Width in bytes and signedness of the integer types. *)
Definition int_format (tname : string) : option (nat * bool) :=
  if String.eqb tname "U8" then Some (1%nat, false)
  else if String.eqb tname "I8" then Some (1%nat, true)
  else if String.eqb tname "U16" then Some (2%nat, false)
  else if String.eqb tname "I16" then Some (2%nat, true)
  else if String.eqb tname "U32" then Some (4%nat, false)
  else if String.eqb tname "I32" then Some (4%nat, true)
  else if String.eqb tname "U64" then Some (8%nat, false)
  else if String.eqb tname "I64" then Some (8%nat, true)
  else None.

(** The range of an integer of [width] bytes. *)
Definition in_int_range (width : nat) (signed : bool) (n : Z) : Prop :=
  if signed
  then - 2 ^ (8 * Z.of_nat width - 1) <= n < 2 ^ (8 * Z.of_nat width - 1)
  else 0 <= n < 2 ^ (8 * Z.of_nat width).

(** A string of 7-bit characters. *)
Definition ascii_only (s : string) : bool :=
  forallb (fun c => (N_of_ascii c <? 128)%N) (list_ascii_of_string s).

(** The value of an entry agrees with its type: an integer in the range of
    its integer type; for STR a text of at most the declared size; for BLOB
    and BLOB_DATA the hex text of at most that many bytes; for BLOB_IDX the
    three fields of the index. *)
Definition value_well_typed (e : entry_data) : Prop :=
  match e_value e with
  | Some (VInt n) =>
      exists width signed,
        int_format (e_type e) = Some (width, signed)
        /\ in_int_range width signed n
        /\ e_size e = None
  | Some (VStr s) =>
      exists size,
        e_size e = Some size
        /\ 0 <= size <= 4032
        /\ ((e_type e = "STR" /\ ascii_only s = true
             /\ Z.of_nat (String.length s) <= size)
            \/ ((e_type e = "BLOB" \/ e_type e = "BLOB_DATA")
                /\ exists bs, s = hex bs /\ Z.of_nat (length bs) <= size))
  | Some (VIdx total_size chunk_count chunk_start) =>
      e_type e = "BLOB_IDX"
      /\ 0 <= total_size < 2 ^ 32
      /\ 0 <= chunk_count < 256
      /\ 0 <= chunk_start < 256
      /\ e_size e = None
  | None => False
  end.

(** What every decoded entry looks like. *)
Definition entry_well_formed (e : entry_data) : Prop :=
  1 <= e_span e <= 126
  /\ 0 <= e_chunk_index e <= 255
  /\ (String.length (e_key e) <= 16)%nat
  /\ ascii_only (e_key e) = true
  /\ value_well_typed e.

(** Entry [e] is what the slot [entry] of the buffer [entries], parsed in
    state [st], appends: the fields of [e] as the slot's bytes give them,
    and the state [st'] the iteration leaves. *)
Record decoded_from (entries : list (list byte))
    (entry_state_bitmap : string) (st : loop_state)
    (entry : list byte) (e : entry_data) (st' : loop_state) : Prop := {
  df_written : is_written entry_state_bitmap (ls_i st) = true;
  df_key : e_key e = decode_ascii_ignore (rstrip_nul (slice 8 24 entry));
  df_type : nvs_types (byte_at entry 1) = Some (e_type e);
  df_not_any : e_type e <> "ANY";
  df_namespace :
    e_namespace e = namespace_name (ls_namespaces st) (byte_at entry 0);
  df_span : e_span e = byte_at entry 2;
  df_chunk_index : e_chunk_index e = byte_at entry 3;
  df_valid_span : valid_span (ls_i st) (e_span e) = true;
  df_value : value_well_typed e;
  df_size :
    e_size e = if is_variable_length (byte_at entry 1)
               then Some (declared_size entry) else None;
  df_int :
    match e_value e, int_format (e_type e) with
    | Some (VInt n), Some (width, _) =>
        n mod 2 ^ (8 * Z.of_nat width)
        = le_unsigned (slice 24 (24 + width) entry)
    | _, _ => True
    end;
  df_slots :
    is_variable_length (byte_at entry 1) = true ->
    (ls_i st + Z.to_nat (e_span e) <= length entries)%nat;
  df_next : ls_i st' = (ls_i st + Z.to_nat (e_span e))%nat;
  df_table :
    ls_namespaces st'
    = match e_value e with
      | Some (VInt v) =>
          if String.eqb (e_type e) "U8" && (byte_at entry 0 =? 0)
          then <[v := e_key e]> (ls_namespaces st)
          else ls_namespaces st
      | _ => ls_namespaces st
      end
}.

(** Every name of the table [ns] is the seeded [0: "System"] or the key of
    a U8 entry among [earlier] whose value is the id. *)
Definition table_from (earlier : list entry_data) (ns : gmap Z string)
    : Prop :=
  forall id name,
    ns !! id = Some name ->
    (id = 0 /\ name = "System")
    \/ exists e,
         e ∈ earlier
         /\ e_type e = "U8"
         /\ e_value e = Some (VInt id)
         /\ e_key e = name.

(** Slot [i] of the buffer is one the loop turns into an entry: Written,
    of a known type other than ANY, with a valid span and, for the
    variable-length types, a declared size of at most 4032 and all the
    slots of its span in the buffer. *)
Definition yields_entry (entries : list (list byte))
    (entry_state_bitmap : string) (i : nat) : bool :=
  match entries !! i with
  | Some entry =>
      is_written entry_state_bitmap i
      && match nvs_types (byte_at entry 1) with
         | Some tname => negb (String.eqb tname "ANY")
         | None => false
         end
      && valid_span i (byte_at entry 2)
      && (negb (is_variable_length (byte_at entry 1))
          || ((declared_size entry <=? 4032)
              && (i + Z.to_nat (byte_at entry 2) <=? length entries)%nat))
  | None => false
  end.


(** The page at [sector_pos] is one the scan parses: its state word is
    there and reads ACTIVE or FULL. *)
Definition page_active (content : list byte) (sector_pos : nat) : bool :=
  match header_state_raw content sector_pos with
  | Some raw => (raw =? 0xFFFFFFFE) || (raw =? 0xFFFFFFFC)
  | None => false
  end.

(** No 4096-byte stride of the file starts with an ACTIVE or FULL page. *)
Definition no_active_page (content : list byte) : bool :=
  forallb (fun k => negb (page_active content (4096 * k)))
    (seq 0 (S (length content / 4096))).

(** The bytes of slot [j] of the page at [sector_pos]: the page header and
    the bitmap take the first 64 bytes. *)
Definition slot_bytes (content : list byte) (sector_pos j : nat)
    : list byte :=
  slice (sector_pos + 64 + 32 * j) (sector_pos + 64 + 32 * j + 32) content.

(** The number of whole slots of the page at [sector_pos] that the file
    holds, 126 at most. *)
Definition slots_in_file (content : list byte) (sector_pos : nat) : nat :=
  Nat.min 126 ((length content - (sector_pos + 64)) / 32).

(** The slots of the page at [sector_pos] that the file holds. *)
Definition page_slots (content : list byte) (sector_pos : nat)
    : list (list byte) :=
  map (slot_bytes content sector_pos)
    (seq 0 (slots_in_file content sector_pos)).

(** The digits of the state bitmap of the page at [sector_pos], which
    takes the 32 bytes after the 32-byte page header. *)
Definition page_digits (content : list byte) (sector_pos : nat) : string :=
  string_of_list_ascii
    (map (fun n =>
            str_of_digit
              (default 3
                 (state_code (slice (sector_pos + 32) (sector_pos + 64)
                                content) n)))
       (seq 0 126)).

(** File offset [i] lies outside bytes 4 to 31 of its page: outside the
    sequence number, the version, the reserved bytes and the CRC of the
    page header. *)
Definition same_outside_page_header (i : nat) : bool :=
  ((i mod 4096 <? 4) || (32 <=? i mod 4096))%nat.

End NvsShape.

(** ** Vocabulary of the encoder's invariants *)

Module CsvShape.
Import Py NvsRead CsvGen CsvView.

(** The namespace table as [json.dump] writes it and [json.load] reads it
    back: the integer ids become their decimal text. The order of the
    items is the order of the table's insertions, which a finite map does
    not keep; the properties below hold for every order. *)
Definition json_namespaces (ns : gmap Z string) : list (string * string) :=
  (fun item => (pretty item.1, item.2)) <$> map_to_list ns.

(** The path [write_blob_file] gives the blob named after [u]. *)
Definition blob_path_of (output_dir u : string) : string :=
  path_join output_dir ("blob_" +:+ u +:+ ".bin").

(** The data rows and the file rows of the output, in order. *)
Definition is_data_line (l : csv_line) : bool :=
  match l with DataLine _ _ _ => true | _ => false end.

Definition is_file_line (l : csv_line) : bool :=
  match l with FileLine _ _ => true | _ => false end.

Definition data_rows (lines : list csv_line) : list csv_line :=
  filter (fun l => is_data_line l = true) lines.

Definition file_rows (lines : list csv_line) : list csv_line :=
  filter (fun l => is_file_line l = true) lines.

(** An entry that is written as a data row: neither a blob chunk nor a
    blob index. *)
Definition is_plain (e : entry_data) : Prop :=
  e_type e <> "BLOB_DATA" /\ e_type e <> "BLOB_IDX".

(** The data row of an entry. *)
Definition row_of (e : entry_data) : option csv_line :=
  v ← e_value e;
  Some (DataLine (e_key e) (str_of_encoding (map_type_encoding (e_type e)))
          (value_str v)).

(** The entries of the namespace called [name], in record order. *)
Definition namespace_entries (name : string) (es : list entry_data)
    : list entry_data :=
  filter (fun e => e_namespace e = name) es.

(** The entries written as data rows under the namespaces [sorted], in the
    order of the rows. *)
Definition plain_entries (sorted : list (string * string))
    (es : list entry_data) : list entry_data :=
  concat (map (fun item => filter is_plain (namespace_entries item.2 es))
            sorted).

(** The distinct strings of [l] in the order of their first appearance,
    leaving out those in [seen]. *)
Fixpoint first_seen (seen l : list string) : list string :=
  match l with
  | [] => []
  | k :: l' =>
      if decide (k ∈ seen) then first_seen seen l'
      else k :: first_seen (k :: seen) l'
  end.

(** The keys of the blobs of the namespace called [name]. *)
Definition blob_keys (name : string) (es : list entry_data) : list string :=
  first_seen []
    (e_key <$> filter (fun e => e_type e = "BLOB_DATA")
                 (namespace_entries name es)).

(** The keys of the file rows written under the namespaces [sorted]. *)
Definition file_keys (sorted : list (string * string))
    (es : list entry_data) : list string :=
  concat (map (fun item => blob_keys item.2 es) sorted).

(** The file rows for [keys] when the first of them takes the [n]th value
    of the random source. *)
Definition file_rows_from (output_dir : string) (uuid4_hex : nat -> string)
    (n : nat) (keys : list string) : list csv_line :=
  imap (fun j key => FileLine key (blob_path_of output_dir (uuid4_hex (n + j)%nat)))
    keys.

(** From [w] to [w'] the random source was only advanced, and the only
    files touched are blobs named after the values drawn in between. *)
Definition touches_blobs_only (output_dir : string) (w w' : world) : Prop :=
  w_uuid4_hex w' = w_uuid4_hex w
  /\ (w_uuid_calls w <= w_uuid_calls w')%nat
  /\ forall path,
       (forall j, (w_uuid_calls w <= j < w_uuid_calls w')%nat ->
                  path <> blob_path_of output_dir (w_uuid4_hex w j)) ->
       w_files w' !! path = w_files w !! path.

(** The bytes of the blob [key] of the namespace called [name]: the bytes
    of its chunks' hex texts in ascending order of chunk index. *)
Definition blob_bytes (name key : string) (es : list entry_data)
    : option (list byte) :=
  payloads ←
    mapM bytes_fromhex
      (sort_by_key (chunks_of key (namespace_entries name es))).*2;
  Some (concat payloads).

(** Every file row of [lines] names a blob drawn since [w0] that, in [w],
    holds the bytes of the blob of the row's key in one of the namespaces
    [names]. *)
Definition files_hold (output_dir : string) (names : list string)
    (es : list entry_data) (w0 w : world) (lines : list csv_line) : Prop :=
  forall key path,
    FileLine key path ∈ lines ->
    exists j name bytes,
      (w_uuid_calls w0 <= j < w_uuid_calls w)%nat
      /\ path = blob_path_of output_dir (w_uuid4_hex w0 j)
      /\ name ∈ names
      /\ blob_bytes name key es = Some bytes
      /\ w_files w !! path = Some bytes.

(** The blobs drawn from the [lo]th to the [hi]th value of the random
    source have paths of their own. *)
Definition distinct_blob_paths (output_dir : string) (w : world)
    (lo hi : nat) : Prop :=
  forall i j,
    (lo <= i < j)%nat -> (j < hi)%nat ->
    blob_path_of output_dir (w_uuid4_hex w i)
    <> blob_path_of output_dir (w_uuid4_hex w j).

End CsvShape.
(** * Properties *)

Import Py NvsRead NvsView CsvGen CsvView Fixture Samples.

(** ** One iteration of the slot loop *)

Lemma loop_body_not_written entries bitmap st :
  is_written bitmap (ls_i st) = false ->
  loop_body entries bitmap st = skip st 1.
Proof.
  unfold is_written, loop_body, try_slot. intros H.
  destruct (str_index bitmap (ls_i st)) as [c|]; simpl; [|done].
  destruct (int_of_char c) as [s|]; simpl; [|done].
  rewrite H. done.
Qed.

Lemma slice_drop_24_2 (entry : list byte) :
  slice 0 2 (drop 24 entry) = slice 24 26 entry.
Proof. reflexivity. Qed.

Lemma length_slice {A} lo hi (l : list A) :
  length (slice lo hi l) = ((hi - lo) `min` (length l - lo))%nat.
Proof. unfold slice. by rewrite length_take, length_drop. Qed.

Lemma unpack_unsigned_Some width bs v :
  unpack_unsigned width bs = Some v <->
  length bs = width /\ v = le_unsigned bs.
Proof.
  unfold unpack_unsigned. case_decide; split.
  - intros [= <-]. done.
  - intros [_ ->]. done.
  - done.
  - intros [? _]. done.
Qed.

Lemma unpack_value_byte (entry : list byte) v :
  unpack_unsigned 1 (slice 0 1 (drop 24 entry)) = Some v ->
  exists b, entry !! 24%nat = Some b /\ v = byte_val b.
Proof.
  intros [Hlen ->]%unpack_unsigned_Some. unfold slice in *. simpl in *.
  destruct (drop 24 entry) as [|b t] eqn:Hd; [done|].
  exists b. split.
  - rewrite <- (Nat.add_0_r 24), <- lookup_drop, Hd. done.
  - simpl. lia.
Qed.

Lemma unpack_value_byte_None (entry : list byte) :
  unpack_unsigned 1 (slice 0 1 (drop 24 entry)) = None ->
  entry !! 24%nat = None.
Proof.
  unfold unpack_unsigned, slice. simpl. intros H.
  rewrite <- (Nat.add_0_r 24), <- lookup_drop.
  by destruct (drop 24 entry).
Qed.

Lemma byte_val_range b : 0 <= byte_val b < 256.
Proof.
  unfold byte_val. pose proof (Byte.to_N_bounded b). lia.
Qed.

Lemma le_unsigned_nonneg bs : 0 <= le_unsigned bs.
Proof.
  induction bs as [|b t IH]; simpl; [lia|].
  pose proof (byte_val_range b). lia.
Qed.

(** Closes an entry-producing case of a type that defines no namespace. *)
Ltac emit_nodef Hnodef :=
  eapply step_emit; eauto; try done; rewrite Hnodef by lia; done.

(** The STR, BLOB and BLOB_DATA cases. *)
Ltac var_case Hnodef :=
  let size := fresh "size" in
  let Hu := fresh "Hu" in
  let Hlen := fresh "Hlen" in
  let Hov := fresh "Hov" in
  destruct (unpack_unsigned 2 _) as [size|] eqn:Hu; simpl;
    [|apply step_skip1, Hnodef; lia];
  apply unpack_unsigned_Some in Hu as [Hlen ->];
  match goal with
  | |- context [(?a <? 0) || (?a >? 4032)] =>
      destruct ((a <? 0) || (a >? 4032)) eqn:Hov
  end;
  [ eapply step_oversized; eauto;
    [ unfold is_variable_length; lia
    | rewrite slice_drop_24_2, length_slice in Hlen; lia
    | rewrite slice_drop_24_2 in Hov;
      match type of Hov with
      | context [le_unsigned ?bs] => pose proof (le_unsigned_nonneg bs)
      end;
      unfold declared_size; lia
    | apply Hnodef; lia ]
  | destruct (collect_chunks _ _ _ _); simpl;
    [ emit_nodef Hnodef | apply step_skip1, Hnodef; lia ] ].

(** A slot that is not a readable Written entry defines no namespace. *)
Ltac no_definition :=
  apply step_skip1; unfold definition_at, is_written;
  repeat match goal with
         | H : _ = _ |- _ => rewrite H
         end;
  repeat case_match; done.

Lemma definition_at_header entries bitmap i entry b_ns b_type b_span b_chunk :
  is_written bitmap i = true ->
  entries !! i = Some entry ->
  entry !! 0%nat = Some b_ns ->
  entry !! 1%nat = Some b_type ->
  entry !! 2%nat = Some b_span ->
  entry !! 3%nat = Some b_chunk ->
  definition_at entries bitmap i
  = match entry !! 24%nat with
    | Some b_value =>
        if (byte_val b_ns =? 0) && (byte_val b_type =? 0x01)
           && valid_span i (byte_val b_span)
        then [(byte_val b_value,
               decode_ascii_ignore (rstrip_nul (slice 8 24 entry)))]
        else []
    | None => []
    end.
Proof.
  intros Hw He H0 H1 H2 H3. unfold definition_at.
  by rewrite Hw, He, H0, H1, H2, H3.
Qed.

Lemma loop_body_kind entries bitmap st :
  step_kind entries bitmap st (loop_body entries bitmap st).
Proof.
  unfold loop_body, try_slot.
  destruct (str_index bitmap (ls_i st)) as [c|] eqn:Hc; simpl;
    [|no_definition].
  destruct (int_of_char c) as [s|] eqn:Hs; simpl; [|no_definition].
  destruct (s =? 2) eqn:Hs2; simpl; [|no_definition].
  assert (Hw : is_written bitmap (ls_i st) = true).
  { unfold is_written. by rewrite Hc, Hs. }
  destruct (entries !! ls_i st) as [entry|] eqn:He; simpl; [|no_definition].
  destruct (entry !! 0%nat) as [b_ns|] eqn:H0; simpl; [|no_definition].
  destruct (entry !! 1%nat) as [b_type|] eqn:H1; simpl; [|no_definition].
  destruct (entry !! 2%nat) as [b_span|] eqn:H2; simpl; [|no_definition].
  destruct (entry !! 3%nat) as [b_chunk|] eqn:H3; simpl; [|no_definition].
  pose proof (definition_at_header _ _ _ _ _ _ _ _ Hw He H0 H1 H2 H3) as Hdef.
  assert (Hnodef : byte_val b_type <> 1 ->
    definition_at entries bitmap (ls_i st) = []).
  { intros Hne. rewrite Hdef. destruct (entry !! 24%nat); [|done].
    replace (byte_val b_type =? 1) with false by lia.
    by rewrite andb_false_r. }
  destruct (nvs_types (byte_val b_type)) as [tname|] eqn:Ht.
  2:{ apply step_skip1, Hnodef. intros Heq. by rewrite Heq in Ht. }
  destruct ((byte_val b_span <? 1)
            || (byte_val b_span >? 126 - Z.of_nat (ls_i st))) eqn:Hsp.
  { apply step_skip1. rewrite Hdef. destruct (entry !! 24%nat); [|done].
    replace (valid_span (ls_i st) (byte_val b_span)) with false
      by (unfold valid_span; lia).
    by rewrite andb_false_r. }
  assert (Hv : valid_span (ls_i st) (byte_val b_span) = true).
  { unfold valid_span. lia. }
  rewrite Hv, andb_true_r in Hdef.
  pose proof Ht as Ht'.
  unfold nvs_types in Ht'.
  repeat match type of Ht' with
         | (if ?b then _ else _) = _ => destruct b eqn:?
         end; simplify_eq; simpl.
  - (* U8 *)
    destruct (unpack_unsigned 1 _) as [v|] eqn:Hu; simpl.
    + apply unpack_value_byte in Hu as (bv & H24 & ->). rewrite H24 in Hdef.
      destruct (byte_val b_ns =? 0) eqn:Hns;
        eapply step_emit; eauto; by rewrite Hdef.
    + apply step_skip1. rewrite Hdef.
      by rewrite (unpack_value_byte_None _ Hu).
  - destruct (unpack_signed 1 _); simpl; [|apply step_skip1, Hnodef; lia].
    emit_nodef Hnodef.
  - destruct (unpack_unsigned 2 _); simpl; [|apply step_skip1, Hnodef; lia].
    emit_nodef Hnodef.
  - destruct (unpack_signed 2 _); simpl; [|apply step_skip1, Hnodef; lia].
    emit_nodef Hnodef.
  - destruct (unpack_unsigned 4 _); simpl; [|apply step_skip1, Hnodef; lia].
    emit_nodef Hnodef.
  - destruct (unpack_signed 4 _); simpl; [|apply step_skip1, Hnodef; lia].
    emit_nodef Hnodef.
  - destruct (unpack_unsigned 8 _); simpl; [|apply step_skip1, Hnodef; lia].
    emit_nodef Hnodef.
  - destruct (unpack_signed 8 _); simpl; [|apply step_skip1, Hnodef; lia].
    emit_nodef Hnodef.
  - var_case Hnodef.
  - var_case Hnodef.
  - var_case Hnodef.
  - destruct (unpack_unsigned 4 _); simpl; [|apply step_skip1, Hnodef; lia].
    destruct (unpack_unsigned 1 (slice 5 6 _)); simpl;
      [|apply step_skip1, Hnodef; lia].
    destruct (unpack_unsigned 1 (slice 6 7 _)); simpl;
      [|apply step_skip1, Hnodef; lia].
    emit_nodef Hnodef.
  - apply step_skip1, Hnodef. lia.
Qed.
Lemma is_written_true bitmap i :
  is_written bitmap i = true ->
  exists c, str_index bitmap i = Some c /\ int_of_char c = Some 2.
Proof.
  unfold is_written. intros H.
  destruct (str_index bitmap i) as [c|]; [|done].
  destruct (int_of_char c) as [s|] eqn:Hs; [|done].
  apply Z.eqb_eq in H as ->. by exists c.
Qed.

(** Rewrites the [try] block of a Written slot up to its header bytes. *)
Ltac open_slot Hw :=
  let c := fresh "c" in
  let Hc := fresh "Hc" in
  let Hs := fresh "Hs" in
  unfold loop_body, try_slot;
  destruct (is_written_true _ _ Hw) as (c & Hc & Hs);
  rewrite Hc; simpl; rewrite Hs; simpl.

Lemma while_loop_unfold fuel entries bitmap st :
  (ls_i st < 126)%nat ->
  while_loop (S fuel) entries bitmap st
  = while_loop fuel entries bitmap (loop_body entries bitmap st).
Proof. intros H. simpl. by rewrite decide_True. Qed.

Lemma lookup_header (entry : list byte) (k : nat) :
  (k < length entry)%nat -> exists b, entry !! k = Some b.
Proof. intros H. by apply lookup_lt_is_Some_2 in H as [b ?]; exists b. Qed.

Lemma variable_length_types c :
  is_variable_length c = true ->
  exists tname,
    nvs_types c = Some tname
    /\ (tname = "STR" \/ tname = "BLOB" \/ tname = "BLOB_DATA")
    /\ String.eqb tname "STR" = (c =? 0x21).
Proof.
  unfold is_variable_length. intros H.
  destruct (c =? 0x21) eqn:H1; [apply Z.eqb_eq in H1 as ->; by eexists; eauto|].
  destruct (c =? 0x41) eqn:H2; [apply Z.eqb_eq in H2 as ->; by eexists; eauto|].
  destruct (c =? 0x42) eqn:H3; [apply Z.eqb_eq in H3 as ->; by eexists; eauto|].
  done.
Qed.

Lemma unpack_declared_size (entry : list byte) :
  (26 <= length entry)%nat ->
  unpack_unsigned 2 (slice 0 2 (drop 24 entry)) = Some (declared_size entry).
Proof.
  intros H. rewrite slice_drop_24_2. unfold unpack_unsigned.
  rewrite decide_True; [done|]. rewrite length_slice. lia.
Qed.

Lemma valid_span_range i span :
  valid_span i span = true <-> 1 <= span <= 126 - Z.of_nat i.
Proof. unfold valid_span. lia. Qed.

Lemma collect_chunks_seq entries i n : forall a acc,
  (i + a + n <= 126)%nat ->
  (i + a + n <= length entries)%nat ->
  collect_chunks entries i (seq a n) acc
  = Some (acc ++ slice (i + a) (i + a + n) entries).
Proof.
  unfold slice.
  induction n as [|n IH]; intros a acc H126 Hlen; simpl.
  - replace (i + a + 0 - (i + a))%nat with 0%nat by lia.
    by rewrite take_0, app_nil_r.
  - rewrite decide_False by lia.
    destruct (lookup_lt_is_Some_2 entries (i + a)) as [chunk Hc]; [lia|].
    rewrite Hc. simpl. rewrite IH by lia.
    replace (i + a + S n - (i + a))%nat with (S n) by lia.
    replace (i + S a + n - (i + S a))%nat with n by lia.
    rewrite (drop_S _ _ _ Hc). simpl.
    replace (i + S a)%nat with (S (i + a)) by lia.
    by rewrite <- app_assoc.
Qed.

Lemma collect_chunks_short entries i n : forall a acc,
  (i + a + n <= 126)%nat ->
  (length entries < i + a + n)%nat ->
  (i + a <= length entries)%nat ->
  collect_chunks entries i (seq a n) acc = None.
Proof.
  induction n as [|n IH]; intros a acc H126 Hshort Hlen; [lia|].
  simpl. rewrite decide_False by lia.
  destruct (entries !! (i + a)%nat) as [chunk|] eqn:Hc; [|done].
  simpl. apply lookup_lt_Some in Hc. apply IH; lia.
Qed.

Lemma loop_body_progress entries bitmap st :
  (ls_i st < 126)%nat ->
  (ls_i st < ls_i (loop_body entries bitmap st) <= 126)%nat.
Proof.
  intros Hi.
  destruct (loop_body_kind entries bitmap st);
    repeat match goal with
           | H : valid_span _ _ = true |- _ => apply valid_span_range in H
           end; simpl; lia.
Qed.

Lemma slot_state_index_bound entries bitmap ns n :
  (Nat.min n 126 <= ls_i (slot_state entries bitmap ns n))%nat.
Proof.
  induction n as [|n IH]; simpl; [lia|].
  case_decide as Hi; [|lia].
  pose proof (loop_body_progress entries bitmap _ Hi). lia.
Qed.

Lemma while_loop_exited fuel entries bitmap st :
  ~ (ls_i st < 126)%nat -> while_loop fuel entries bitmap st = st.
Proof. intros H. destruct fuel; simpl; [done|]. by rewrite decide_False. Qed.

Lemma while_loop_step fuel entries bitmap : forall st,
  while_loop (S fuel) entries bitmap st
  = let st' := while_loop fuel entries bitmap st in
    if decide (ls_i st' < 126)%nat then loop_body entries bitmap st' else st'.
Proof.
  induction fuel as [|fuel IH]; intros st.
  - simpl. by case_decide.
  - change (while_loop (S (S fuel)) entries bitmap st)
      with (if decide (ls_i st < 126)%nat
            then while_loop (S fuel) entries bitmap (loop_body entries bitmap st)
            else st).
    case_decide as Hi.
    + rewrite IH. cbv zeta. by rewrite (while_loop_unfold fuel entries bitmap st Hi).
    + cbv zeta. rewrite while_loop_exited by done. by rewrite decide_False.
Qed.

Lemma slot_state_while_loop entries bitmap ns n :
  slot_state entries bitmap ns n
  = while_loop n entries bitmap (mk_loop 0 ns []).
Proof.
  induction n as [|n IH]; [done|].
  rewrite while_loop_step. simpl. by rewrite IH.
Qed.

Lemma slot_state_exited entries bitmap ns n k :
  (126 <= ls_i (slot_state entries bitmap ns n))%nat ->
  slot_state entries bitmap ns (n + k) = slot_state entries bitmap ns n.
Proof.
  intros H. induction k as [|k IH].
  - by rewrite Nat.add_0_r.
  - replace (n + S k)%nat with (S (n + k)) by lia. simpl.
    rewrite IH. by rewrite decide_False by lia.
Qed.

(** ** The slot loop: claims *)

(** C4. A Written slot at index [i] whose span byte is 0 or exceeds the
    [126 - i] slots left in the page is discarded: the iteration produces
    no entry, leaves the table alone and consumes exactly one slot, and the
    loop goes on with slot [i + 1]. *)
Theorem invalid_span_consumes_one_slot entries bitmap st entry b_span :
  (ls_i st < 126)%nat ->
  is_written bitmap (ls_i st) = true ->
  entries !! ls_i st = Some entry ->
  entry !! 2%nat = Some b_span ->
  byte_val b_span = 0 \/ byte_val b_span > 126 - Z.of_nat (ls_i st) ->
  loop_body entries bitmap st
  = mk_loop (ls_i st + 1) (ls_namespaces st) (ls_result st)
  /\ forall fuel,
       while_loop (S fuel) entries bitmap st
       = while_loop fuel entries bitmap
           (mk_loop (ls_i st + 1) (ls_namespaces st) (ls_result st)).
Proof.
  intros Hi Hw He H2 Hspan.
  assert (Hbody : loop_body entries bitmap st = skip st 1).
  { open_slot Hw. rewrite He. simpl.
    destruct (entry !! 0%nat); simpl; [|done].
    destruct (entry !! 1%nat) as [b_type|]; simpl; [|done].
    rewrite H2. simpl.
    destruct (entry !! 3%nat); simpl; [|done].
    destruct (nvs_types (byte_val b_type)); [|done].
    replace ((byte_val b_span <? 1)
             || (byte_val b_span >? 126 - Z.of_nat (ls_i st))) with true by lia.
    done. }
  split; [done|].
  intros fuel. rewrite while_loop_unfold by done. by rewrite Hbody.
Qed.

Lemma invalid_span_consumes_one_slot_witness :
  loop_body zero_span_entries zero_span_bitmap (mk_loop 0 seed_namespaces [])
  = mk_loop 1 seed_namespaces []
  /\ forall fuel,
       while_loop (S fuel) zero_span_entries zero_span_bitmap
         (mk_loop 0 seed_namespaces [])
       = while_loop fuel zero_span_entries zero_span_bitmap
           (mk_loop 1 seed_namespaces []).
Proof.
  apply (invalid_span_consumes_one_slot zero_span_entries zero_span_bitmap
           (mk_loop 0 seed_namespaces []) zero_span_slot (byte_of_Z 0)).
  - simpl. lia.
  - reflexivity.
  - reflexivity.
  - reflexivity.
  - left. reflexivity.
Defined.

(** C1, as the code has it. A Written STR, BLOB or BLOB_DATA slot with a
    valid span whose declared size exceeds 4032 produces no entry and
    leaves the table alone, and the scan advances by the entry's span (by
    one slot only when the span is 1). *)
Theorem oversized_entry_skips_span entries bitmap st entry b_type b_span :
  (ls_i st < 126)%nat ->
  is_written bitmap (ls_i st) = true ->
  entries !! ls_i st = Some entry ->
  length entry = 32%nat ->
  entry !! 1%nat = Some b_type ->
  entry !! 2%nat = Some b_span ->
  is_variable_length (byte_val b_type) = true ->
  valid_span (ls_i st) (byte_val b_span) = true ->
  declared_size entry > 4032 ->
  loop_body entries bitmap st
  = mk_loop (ls_i st + Z.to_nat (byte_val b_span)) (ls_namespaces st)
      (ls_result st).
Proof.
  intros Hi Hw He Hlen H1 H2 Hvar Hspan Hsize.
  destruct (lookup_header entry 0) as [b_ns H0]; [lia|].
  destruct (lookup_header entry 3) as [b_chunk H3]; [lia|].
  destruct (variable_length_types _ Hvar) as (tname & Ht & Hname & _).
  open_slot Hw. rewrite He. simpl. rewrite H0, H1, H2, H3. simpl. rewrite Ht.
  apply valid_span_range in Hspan.
  replace ((byte_val b_span <? 1)
           || (byte_val b_span >? 126 - Z.of_nat (ls_i st))) with false by lia.
  rewrite unpack_declared_size by lia.
  destruct Hname as [-> | [-> | ->]]; simpl;
    (replace (declared_size entry >? 4032) with true by lia);
    by rewrite orb_true_r.
Qed.

Lemma oversized_entry_skips_span_witness :
  loop_body oversized_entries oversized_bitmap (mk_loop 0 seed_namespaces [])
  = mk_loop 2 seed_namespaces [].
Proof.
  apply (oversized_entry_skips_span oversized_entries oversized_bitmap
           (mk_loop 0 seed_namespaces []) oversized_slot
           (byte_of_Z 0x21) (byte_of_Z 2)).
  - simpl. lia.
  - reflexivity.
  - reflexivity.
  - reflexivity.
  - reflexivity.
  - reflexivity.
  - reflexivity.
  - reflexivity.
  - reflexivity.
Defined.

(** C1 as stated fails: slot 0 is a Written STR entry declaring 5000
    bytes, and the iteration moves from slot 0 to slot 2, not to slot 1.
    The Written U8 entry in slot 1 is passed over: the page decodes to
    nothing, while a scan resumed at slot 1 decodes that entry. *)
Lemma oversized_entry_not_one_slot :
  is_written oversized_bitmap 0 = true
  /\ oversized_entries !! 0%nat = Some oversized_slot
  /\ byte_val <$> oversized_slot !! 1%nat = Some 0x21
  /\ declared_size oversized_slot = 5000
  /\ ls_i (loop_body oversized_entries oversized_bitmap
            (mk_loop 0 seed_namespaces [])) = 2%nat
  /\ loop_body oversized_entries oversized_bitmap
       (mk_loop 0 seed_namespaces [])
     <> mk_loop (0 + 1) seed_namespaces []
  /\ (parse_nvs_entries oversized_entries oversized_bitmap
        seed_namespaces 0).1 = []
  /\ length (ls_result (while_loop 125 oversized_entries oversized_bitmap
                          (mk_loop 1 seed_namespaces []))) = 1%nat.
Proof.
  repeat split; try (vm_compute; reflexivity).
  intros H. apply (f_equal ls_i) in H. vm_compute in H. discriminate.
Qed.

(** C3. A Written STR, BLOB or BLOB_DATA entry with a valid span and a
    declared size of at most 4032 decodes to the first [size] bytes of the
    slot's bytes from offset 32 followed by the [span - 1] next raw slots
    taken whole: as permissive ASCII for STR, as lowercase hex for BLOB
    and BLOB_DATA. The declared size is recorded and the scan advances by
    the span. In a buffer cut short before the entry's last slot the
    lookup of the missing slot raises: nothing is decoded and one slot is
    consumed. *)
Theorem variable_length_value_reassembled entries bitmap st entry b_type b_span :
  let i := ls_i st in
  let span := Z.to_nat (byte_val b_span) in
  let size := declared_size entry in
  let payload :=
    take (Z.to_nat size)
      (drop 32 entry ++ concat (slice (i + 1) (i + span) entries)) in
  (i < 126)%nat ->
  is_written bitmap i = true ->
  entries !! i = Some entry ->
  length entry = 32%nat ->
  entry !! 1%nat = Some b_type ->
  entry !! 2%nat = Some b_span ->
  is_variable_length (byte_val b_type) = true ->
  valid_span i (byte_val b_span) = true ->
  size <= 4032 ->
  ((i + span <= length entries)%nat ->
   exists e,
     loop_body entries bitmap st
     = mk_loop (i + span) (ls_namespaces st) (ls_result st ++ [e])
     /\ e_value e
        = Some (VStr (if byte_val b_type =? 0x21
                      then decode_ascii_ignore payload
                      else hex payload))
     /\ e_size e = Some size)
  /\ ((length entries < i + span)%nat ->
      loop_body entries bitmap st
      = mk_loop (i + 1) (ls_namespaces st) (ls_result st)).
Proof.
  intros i span size payload Hi Hw He Hlen H1 H2 Hvar Hspan Hsize.
  destruct (lookup_header entry 0) as [b_ns H0]; [lia|].
  destruct (lookup_header entry 3) as [b_chunk H3]; [lia|].
  destruct (variable_length_types _ Hvar) as (tname & Ht & Hname & Hstr).
  subst i. open_slot Hw. rewrite He. simpl. rewrite H0, H1, H2, H3. simpl.
  rewrite Ht.
  apply valid_span_range in Hspan.
  replace ((byte_val b_span <? 1)
           || (byte_val b_span >? 126 - Z.of_nat (ls_i st))) with false by lia.
  rewrite unpack_declared_size by lia. fold size span.
  pose proof (le_unsigned_nonneg (slice 24 26 entry)) as Hnn.
  fold (declared_size entry) in Hnn. fold size in Hnn.
  assert (Hov : (size <? 0) || (size >? 4032) = false) by lia.
  rewrite <- Hstr.
  pose proof (lookup_lt_Some _ _ _ He) as Hlt.
  split; intros Hbuf.
  - assert (Hchunks :
      collect_chunks entries (ls_i st) (seq 1 (span - 1))
        [drop 8 (drop 24 entry)]
      = Some ([drop 32 entry]
              ++ slice (ls_i st + 1) (ls_i st + span) entries)).
    { rewrite collect_chunks_seq by (subst span; lia).
      rewrite drop_drop. simpl.
      replace (ls_i st + 1 + (span - 1))%nat
        with (ls_i st + span)%nat by (subst span; lia).
      done. }
    destruct Hname as [-> | [-> | ->]]; simpl; rewrite Hov, Hchunks; simpl;
      eexists; (split; [reflexivity|]); done.
  - assert (Hchunks :
      collect_chunks entries (ls_i st) (seq 1 (span - 1))
        [drop 8 (drop 24 entry)] = None).
    { apply collect_chunks_short; subst span; lia. }
    by destruct Hname as [-> | [-> | ->]]; simpl; rewrite Hov, Hchunks.
Qed.

Lemma variable_length_value_reassembled_witness :
  exists e,
    loop_body greeting_entries greeting_bitmap (mk_loop 0 seed_namespaces [])
    = mk_loop 2 seed_namespaces [e]
    /\ e_value e = Some (VStr "hi")
    /\ e_size e = Some 2.
Proof.
  apply (variable_length_value_reassembled greeting_entries greeting_bitmap
           (mk_loop 0 seed_namespaces []) greeting_slot
           (byte_of_Z 0x21) (byte_of_Z 2)).
  - simpl. lia.
  - reflexivity.
  - reflexivity.
  - reflexivity.
  - reflexivity.
  - reflexivity.
  - reflexivity.
  - reflexivity.
  - vm_compute. discriminate.
  - vm_compute. lia.
Defined.

(** C9, as the code has it. Every iteration of the slot loop strictly
    increases the slot index and keeps it within 126: by one on a skip or
    exception path, by the validated span when an oversized declared size
    is rejected, and by the validated span when an entry is appended. The
    loop has therefore left [while i < 126] after at most 126 iterations,
    further fuel changes nothing, and [parse_nvs_entries] returns the
    state reached then. *)
Theorem parse_loop_terminates entries bitmap namespaces page_num :
  (forall st,
     (ls_i st < 126)%nat ->
     (ls_i st < ls_i (loop_body entries bitmap st) <= 126)%nat
     /\ (loop_body entries bitmap st = skip st 1
         \/ (exists entry b_type b_span,
               entries !! ls_i st = Some entry
               /\ entry !! 1%nat = Some b_type
               /\ entry !! 2%nat = Some b_span
               /\ is_variable_length (byte_val b_type) = true
               /\ declared_size entry > 4032
               /\ 1 <= byte_val b_span <= 126 - Z.of_nat (ls_i st)
               /\ loop_body entries bitmap st
                  = skip st (Z.to_nat (byte_val b_span)))
         \/ (exists entry b_span ns' e,
               entries !! ls_i st = Some entry
               /\ entry !! 2%nat = Some b_span
               /\ 1 <= byte_val b_span <= 126 - Z.of_nat (ls_i st)
               /\ loop_body entries bitmap st
                  = emit st ns' e (Z.to_nat (byte_val b_span)))))
  /\ (126 <= ls_i (slot_state entries bitmap namespaces 126))%nat
  /\ (forall extra,
        while_loop (126 + extra) entries bitmap (mk_loop 0 namespaces [])
        = while_loop 126 entries bitmap (mk_loop 0 namespaces []))
  /\ parse_nvs_entries entries bitmap namespaces page_num
     = (ls_result (slot_state entries bitmap namespaces 126),
        ls_namespaces (slot_state entries bitmap namespaces 126)).
Proof.
  split; [|split; [|split]].
  - intros st Hi. split; [by apply loop_body_progress|].
    destruct (loop_body_kind entries bitmap st) as
      [| entry b_type b_span ? ? ? ? ? Hv ? ? ?
       | entry b_ns b_type b_span tname e ns' ? ? ? ? ? ? ? Hv ? ? ?].
    + by left.
    + right. left. apply valid_span_range in Hv.
      by exists entry, b_type, b_span.
    + right. right. apply valid_span_range in Hv.
      by exists entry, b_span, ns', e.
  - pose proof (slot_state_index_bound entries bitmap namespaces 126). lia.
  - intros extra. rewrite <- !slot_state_while_loop.
    apply slot_state_exited.
    pose proof (slot_state_index_bound entries bitmap namespaces 126). lia.
  - unfold parse_nvs_entries. by rewrite slot_state_while_loop.
Qed.

Lemma parse_loop_terminates_witness :
  (0 < ls_i (loop_body zero_span_entries zero_span_bitmap
               (mk_loop 0 seed_namespaces [])) <= 126)%nat.
Proof.
  apply (proj1 (parse_loop_terminates zero_span_entries zero_span_bitmap
                  seed_namespaces 0)
           (mk_loop 0 seed_namespaces [])).
  simpl. lia.
Defined.

(** C9 as stated fails in its account of the skip paths: the Written BLOB
    entry of span 3 in slot 0 declares 4033 bytes, the iteration appends
    nothing, and the index moves from 0 to 3, not to 1. *)
Lemma oversized_skip_advances_by_span :
  is_written oversized_blob_bitmap 0 = true
  /\ oversized_blob_entries !! 0%nat = Some oversized_blob_slot
  /\ declared_size oversized_blob_slot = 4033
  /\ ls_result (loop_body oversized_blob_entries oversized_blob_bitmap
                 (mk_loop 0 seed_namespaces [])) = []
  /\ ls_i (loop_body oversized_blob_entries oversized_blob_bitmap
            (mk_loop 0 seed_namespaces [])) = 3%nat
  /\ 3%nat <> (0 + 1)%nat.
Proof. repeat split; try (vm_compute; reflexivity). lia. Qed.

(** ** The page loop *)

#[local] Opaque decode_bitmap read_entries parse_nvs_entries.

Lemma scan_body_view content sc :
  scan_body content sc
  = match page_view content (sc_sector_pos sc) with
    | Some (entries, bitmap) =>
        let r := parse_nvs_entries entries bitmap (sc_namespaces sc)
                   (sc_page_num sc) in
        mk_scan (sc_sector_pos sc + 4096) (sc_page_num sc + 1) r.2
          (sc_result sc ++ r.1)
    | None => next_page sc
    end.
Proof.
  unfold scan_body, try_page, page_view, fh_read, fh_seek.
  cbn [fh_content fh_pos].
  repeat match goal with
         | |- match mbind _ ?x with Some _ => _ | None => _ end = _ =>
             destruct x; simpl; [|done]
         end.
  destruct (active_or_full _); simpl; [|done].
  repeat match goal with
         | |- match mbind _ ?x with Some _ => _ | None => _ end = _ =>
             destruct x; simpl; [|done]
         end.
  destruct (read_entries _ _ _) as [entries fh]. simpl.
  by destruct (parse_nvs_entries _ _ _ _).
Qed.

#[local] Transparent decode_bitmap read_entries parse_nvs_entries.
Lemma scan_body_pos content sc :
  sc_sector_pos (scan_body content sc) = (sc_sector_pos sc + 4096)%nat.
Proof.
  rewrite scan_body_view.
  by destruct (page_view content (sc_sector_pos sc)) as [[entries bitmap]|].
Qed.

Lemma page_state_pos content k :
  (sc_sector_pos (page_state content k) < length content)%nat ->
  sc_sector_pos (page_state content k) = (4096 * k)%nat.
Proof.
  induction k as [|k IH]; [done|].
  cbn [page_state]. cbv zeta. case_decide as Hg; [|done].
  rewrite scan_body_pos. intros _. rewrite IH by done. lia.
Qed.

Lemma page_state_pos_lower content k :
  (Nat.min (4096 * k) (length content)
   <= sc_sector_pos (page_state content k))%nat.
Proof.
  induction k as [|k IH]; [simpl; lia|].
  cbn [page_state]. cbv zeta. case_decide as Hg; [|lia].
  rewrite scan_body_pos. lia.
Qed.

Lemma scan_loop_unfold fuel content sc :
  (sc_sector_pos sc < length content)%nat ->
  scan_loop (S fuel) content sc
  = scan_loop fuel content (scan_body content sc).
Proof. intros H. simpl. by rewrite decide_True. Qed.

Lemma scan_loop_exited fuel content sc :
  ~ (sc_sector_pos sc < length content)%nat ->
  scan_loop fuel content sc = sc.
Proof. intros H. destruct fuel; simpl; [done|]. by rewrite decide_False. Qed.

Lemma scan_loop_step fuel content : forall sc,
  scan_loop (S fuel) content sc
  = let sc' := scan_loop fuel content sc in
    if decide (sc_sector_pos sc' < length content)%nat
    then scan_body content sc' else sc'.
Proof.
  induction fuel as [|fuel IH]; intros sc.
  - simpl. by case_decide.
  - change (scan_loop (S (S fuel)) content sc)
      with (if decide (sc_sector_pos sc < length content)%nat
            then scan_loop (S fuel) content (scan_body content sc)
            else sc).
    case_decide as Hg.
    + rewrite IH. cbv zeta. by rewrite (scan_loop_unfold fuel content sc Hg).
    + cbv zeta. rewrite scan_loop_exited by done. by rewrite decide_False.
Qed.

Lemma page_state_scan_loop content k :
  page_state content k = scan_loop k content scan_init.
Proof.
  induction k as [|k IH]; [done|].
  rewrite scan_loop_step. cbn [page_state]. by rewrite IH.
Qed.

Lemma page_state_exited content k m :
  (length content <= sc_sector_pos (page_state content k))%nat ->
  page_state content (k + m) = page_state content k.
Proof.
  intros H. induction m as [|m IH].
  - by rewrite Nat.add_0_r.
  - replace (k + S m)%nat with (S (k + m)) by lia. cbn [page_state].
    rewrite IH. cbv zeta. by rewrite decide_False by lia.
Qed.

Lemma scan_exit_bound content :
  (length content
   <= sc_sector_pos (page_state content (S (length content / 4096))))%nat.
Proof.
  pose proof (page_state_pos_lower content (S (length content / 4096))).
  pose proof (Nat.div_mod_eq (length content) 4096).
  pose proof (Nat.mod_upper_bound (length content) 4096).
  lia.
Qed.

Lemma read_nvs_pages_page_state content :
  read_nvs_pages content
  = (sc_result (page_state content (S (length content / 4096))),
     sc_namespaces (page_state content (S (length content / 4096)))).
Proof. unfold read_nvs_pages. by rewrite page_state_scan_loop. Qed.

Lemma active_or_full_raw raw :
  active_or_full (page_state_name raw) = true <->
  raw = 0xFFFFFFFE \/ raw = 0xFFFFFFFC.
Proof.
  unfold page_state_name, nvs_sector_states.
  repeat case_match; simpl; split; intros; try done; lia.
Qed.

Lemma header_state_raw_read content pos :
  header_state_raw content pos = unpack_unsigned 4 (take 4 (drop pos content)).
Proof.
  unfold header_state_raw, slice.
  by replace (pos + 4 - pos)%nat with 4%nat by lia.
Qed.

#[local] Opaque decode_bitmap read_entries parse_nvs_entries.

Lemma inactive_page_skipped content sc :
  (forall raw,
     header_state_raw content (sc_sector_pos sc) = Some raw ->
     raw <> 0xFFFFFFFE /\ raw <> 0xFFFFFFFC) ->
  scan_body content sc = next_page sc.
Proof.
  intros Hraw. rewrite header_state_raw_read in Hraw.
  unfold scan_body, try_page, fh_read, fh_seek. cbn [fh_content fh_pos].
  destruct (unpack_unsigned 4 (take 4 (drop (sc_sector_pos sc) content)))
    as [raw|]; simpl; [|done].
  destruct (Hraw raw eq_refl) as [Hactive Hfull].
  replace (active_or_full (page_state_name raw)) with false.
  2:{ symmetry. apply not_true_is_false. rewrite active_or_full_raw. lia. }
  repeat match goal with
         | |- match mbind _ ?x with Some _ => _ | None => _ end = _ =>
             destruct x; simpl; [|done]
         end.
  done.
Qed.

#[local] Transparent decode_bitmap read_entries parse_nvs_entries.

(** C5. The page loop leaves [while sector_pos < file_len] after one
    iteration per 4096-byte stride, so [read_nvs_pages] returns for every
    file. A page whose header state is neither ACTIVE nor FULL, and a page
    whose read raises, contributes no entry and no namespace: the scan
    moves on by one stride and continues from there. *)
Theorem bad_page_skipped_scan_continues content :
  (length content
   <= sc_sector_pos (page_state content (S (length content / 4096))))%nat
  /\ read_nvs_pages content
     = (sc_result (page_state content (S (length content / 4096))),
        sc_namespaces (page_state content (S (length content / 4096))))
  /\ (forall extra,
        scan_loop (S (length content / 4096) + extra) content scan_init
        = scan_loop (S (length content / 4096)) content scan_init)
  /\ forall sc,
       (sc_sector_pos sc < length content)%nat ->
       (forall raw,
          header_state_raw content (sc_sector_pos sc) = Some raw ->
          raw <> 0xFFFFFFFE /\ raw <> 0xFFFFFFFC)
       \/ try_page content sc = None ->
       scan_body content sc
       = mk_scan (sc_sector_pos sc + 4096) (sc_page_num sc + 1)
           (sc_namespaces sc) (sc_result sc)
       /\ forall fuel,
            scan_loop (S fuel) content sc
            = scan_loop fuel content
                (mk_scan (sc_sector_pos sc + 4096) (sc_page_num sc + 1)
                   (sc_namespaces sc) (sc_result sc)).
Proof.
  split; [apply scan_exit_bound|].
  split; [apply read_nvs_pages_page_state|].
  split.
  { intros extra. rewrite <- !page_state_scan_loop.
    apply page_state_exited, scan_exit_bound. }
  intros sc Hpos Hbad.
  assert (Hbody : scan_body content sc = next_page sc).
  { destruct Hbad as [Hraw | Hraise].
    - by apply inactive_page_skipped.
    - unfold scan_body. by rewrite Hraise. }
  split; [done|].
  intros fuel. rewrite scan_loop_unfold by done. by rewrite Hbody.
Qed.

Lemma bad_page_skipped_scan_continues_witness :
  scan_body two_page_file scan_init = mk_scan 4096 1 seed_namespaces []
  /\ scan_body truncated_file scan_init = mk_scan 4096 1 seed_namespaces [].
Proof.
  split.
  - apply (proj2 (proj2 (proj2 (bad_page_skipped_scan_continues two_page_file)))
             scan_init).
    + apply Nat.ltb_lt. vm_compute. reflexivity.
    + left. intros raw H. vm_compute in H. injection H as <-. lia.
  - apply (proj2 (proj2 (proj2 (bad_page_skipped_scan_continues truncated_file)))
             scan_init).
    + apply Nat.ltb_lt. vm_compute. reflexivity.
    + right. vm_compute. reflexivity.
Defined.


(** The specification's end-to-end check: an EMPTY page followed by an
    ACTIVE page with one STR entry decodes to exactly that entry. *)
Example two_page_file_decodes_one_entry :
  (read_nvs_pages two_page_file).1
  = [mk_entry "greeting" "STR" "NS_1" 2 0 (Some (VStr "hi")) (Some 2)].
Proof. vm_compute. reflexivity. Qed.

(** ** Namespace definitions along the scan *)

Lemma apply_defs_app defs1 defs2 ns :
  apply_defs (defs1 ++ defs2) ns = apply_defs defs2 (apply_defs defs1 ns).
Proof. unfold apply_defs. by rewrite fold_left_app. Qed.

Lemma apply_defs_absent defs : forall (ns : gmap Z string) id,
  id ∉ defs.*1 -> apply_defs defs ns !! id = ns !! id.
Proof.
  induction defs as [|[k v] defs IH]; intros ns id Hid; [done|].
  rewrite fmap_cons, not_elem_of_cons in Hid. destruct Hid as [Hne Hid].
  change (apply_defs ((k, v) :: defs) ns)
    with (apply_defs defs (<[k := v]> ns)).
  rewrite IH by done. by rewrite lookup_insert_ne.
Qed.

Lemma apply_defs_latest earlier later id name (ns : gmap Z string) :
  id ∉ later.*1 ->
  apply_defs (earlier ++ (id, name) :: later) ns !! id = Some name.
Proof.
  intros Hid. rewrite apply_defs_app.
  change (apply_defs ((id, name) :: later) (apply_defs earlier ns))
    with (apply_defs later (<[id := name]> (apply_defs earlier ns))).
  rewrite apply_defs_absent by done. by rewrite lookup_insert_eq.
Qed.

Lemma definition_at_past_end entries bitmap i :
  (126 <= i)%nat -> definition_at entries bitmap i = [].
Proof.
  intros Hi. unfold definition_at. repeat case_match; try done.
  unfold valid_span in *. lia.
Qed.

Lemma loop_body_namespaces entries bitmap st :
  ls_namespaces (loop_body entries bitmap st)
  = apply_defs (definition_at entries bitmap (ls_i st)) (ls_namespaces st).
Proof.
  destruct (loop_body_kind entries bitmap st); simpl;
    repeat match goal with
           | H : definition_at _ _ _ = [] |- _ => rewrite H
           end; done.
Qed.

Lemma slot_state_namespaces entries bitmap ns n :
  ls_namespaces (slot_state entries bitmap ns n)
  = apply_defs (slot_defs entries bitmap ns n) ns.
Proof.
  induction n as [|n IH]; [done|].
  cbn [slot_state slot_defs]. cbv zeta. rewrite apply_defs_app, <- IH.
  case_decide as Hi.
  - apply loop_body_namespaces.
  - by rewrite definition_at_past_end by lia.
Qed.

Lemma scan_body_namespaces content sc :
  sc_namespaces (scan_body content sc)
  = apply_defs (page_defs content (sc_sector_pos sc) (sc_namespaces sc))
      (sc_namespaces sc).
Proof.
  rewrite scan_body_view. unfold page_defs.
  destruct (page_view content (sc_sector_pos sc)) as [[entries bitmap]|];
    [|done].
  cbv zeta. cbn [sc_namespaces]. unfold parse_nvs_entries. cbn [snd].
  by rewrite <- slot_state_while_loop, slot_state_namespaces.
Qed.

Lemma page_state_namespaces content k :
  sc_namespaces (page_state content k)
  = apply_defs (scan_defs content k) {[ 0 := "System" ]}.
Proof.
  induction k as [|k IH]; [done|].
  cbn [page_state scan_defs]. cbv zeta. rewrite apply_defs_app, <- IH.
  case_decide; [apply scan_body_namespaces | done].
Qed.

(** ** Results only grow *)

Lemma emitted_entry entries bitmap st e :
  ls_result (loop_body entries bitmap st) = ls_result st ++ [e] ->
  exists entry b_ns,
    entries !! ls_i st = Some entry
    /\ entry !! 0%nat = Some b_ns
    /\ e_type e <> "ANY"
    /\ e_namespace e = namespace_name (ls_namespaces st) (byte_val b_ns).
Proof.
  intros Hres.
  destruct (loop_body_kind entries bitmap st) as
    [? | ? ? ? ? ? ? ? ? ? ? ?
     | entry b_ns b_type b_span tname e' ns' ? ? ? ? ? ? Hany ? Htype Hname ?].
  - simpl in Hres. apply (f_equal length) in Hres.
    rewrite length_app in Hres. simpl in Hres. lia.
  - simpl in Hres. apply (f_equal length) in Hres.
    rewrite length_app in Hres. simpl in Hres. lia.
  - simpl in Hres. apply app_inv_head in Hres. injection Hres as ->.
    exists entry, b_ns. by rewrite Htype.
Qed.

Lemma loop_body_result_prefix entries bitmap st :
  ls_result st `prefix_of` ls_result (loop_body entries bitmap st).
Proof.
  destruct (loop_body_kind entries bitmap st); simpl;
    [done | done | by apply prefix_app_r].
Qed.

Lemma slot_state_result_prefix entries bitmap ns n m :
  ls_result (slot_state entries bitmap ns n)
  `prefix_of` ls_result (slot_state entries bitmap ns (n + m)).
Proof.
  induction m as [|m IH]; [by rewrite Nat.add_0_r|].
  replace (n + S m)%nat with (S (n + m)) by lia. cbn [slot_state]. cbv zeta.
  case_decide; [|done].
  etrans; [apply IH | apply loop_body_result_prefix].
Qed.

Lemma scan_body_result_prefix content sc :
  sc_result sc `prefix_of` sc_result (scan_body content sc).
Proof.
  rewrite scan_body_view.
  destruct (page_view content (sc_sector_pos sc)) as [[entries bitmap]|];
    [|done].
  by apply prefix_app_r.
Qed.

Lemma page_state_result_prefix content k m :
  sc_result (page_state content k)
  `prefix_of` sc_result (page_state content (k + m)).
Proof.
  induction m as [|m IH]; [by rewrite Nat.add_0_r|].
  replace (k + S m)%nat with (S (k + m)) by lia. cbn [page_state]. cbv zeta.
  case_decide; [|done].
  etrans; [apply IH | apply scan_body_result_prefix].
Qed.

(** C2, as the code has it. An entry appended while slot [ls_i st] of the
    page at stride [k] is parsed carries the name the table holds at that
    moment. The table is the seed [{0: "System"}] overwritten, in scan
    order, by the U8 definitions of namespace 0 parsed in earlier pages
    and in earlier slots of this page. So an entry whose id is not 0 and
    has no earlier definition gets [NS_<id>]; an entry of id 0 with no
    earlier definition of id 0 gets the seeded name [System]; an entry
    parsed after a definition of its id gets the latest defined name; and
    the entries decoded so far, this one included, stay as they are in the
    final result whatever is defined later. *)
Theorem namespace_resolved_at_parse_time content k entries bitmap n e :
  let sc := page_state content k in
  let st := slot_state entries bitmap (sc_namespaces sc) n in
  let defs :=
    scan_defs content k ++ slot_defs entries bitmap (sc_namespaces sc) n in
  let table := apply_defs defs {[ 0 := "System" ]} in
  (sc_sector_pos sc < length content)%nat ->
  page_view content (sc_sector_pos sc) = Some (entries, bitmap) ->
  (ls_i st < 126)%nat ->
  ls_result (loop_body entries bitmap st) = ls_result st ++ [e] ->
  exists entry b_ns,
    entries !! ls_i st = Some entry
    /\ entry !! 0%nat = Some b_ns
    /\ ls_namespaces st = table
    /\ e_namespace e
       = default ("NS_" +:+ pretty (byte_val b_ns)) (table !! byte_val b_ns)
    /\ (byte_val b_ns <> 0 -> byte_val b_ns ∉ defs.*1 ->
        e_namespace e = "NS_" +:+ pretty (byte_val b_ns))
    /\ (byte_val b_ns = 0 -> 0 ∉ defs.*1 -> e_namespace e = "System")
    /\ (forall earlier name later,
          defs = earlier ++ (byte_val b_ns, name) :: later ->
          byte_val b_ns ∉ later.*1 ->
          e_namespace e = name)
    /\ (sc_result sc ++ ls_result st ++ [e])
       `prefix_of` (read_nvs_pages content).1.
Proof.
  intros sc st defs table Hpos Hview Hi Hres.
  destruct (emitted_entry _ _ _ _ Hres) as (entry & b_ns & He & H0 & _ & Hname).
  assert (Htable : ls_namespaces st = table).
  { subst st table defs. rewrite slot_state_namespaces, apply_defs_app.
    f_equal. apply page_state_namespaces. }
  unfold namespace_name in Hname. rewrite Htable in Hname.
  exists entry, b_ns. repeat split; try done.
  - intros Hne Hid. rewrite Hname. subst table.
    rewrite apply_defs_absent by done. by rewrite lookup_singleton_ne.
  - intros Hz Hid. rewrite Hname, Hz. subst table.
    rewrite apply_defs_absent by done. by rewrite lookup_singleton_eq.
  - intros earlier name later Hdefs Hid. rewrite Hname. subst table.
    rewrite Hdefs. by rewrite apply_defs_latest.
  - rewrite read_nvs_pages_page_state. cbn [fst].
    pose proof (page_state_pos content k Hpos) as Hk. fold sc in Hk.
    assert (Hlt : (k <= length content / 4096)%nat).
    { apply Nat.div_le_lower_bound; lia. }
    replace (S (length content / 4096))
      with (S k + (length content / 4096 - k))%nat by lia.
    etrans; [|apply page_state_result_prefix].
    cbn [page_state]. cbv zeta. fold sc. rewrite decide_True by done.
    rewrite scan_body_view, Hview. cbv zeta. cbn [sc_result].
    apply prefix_app. unfold parse_nvs_entries. cbn [fst].
    rewrite <- slot_state_while_loop.
    pose proof (slot_state_index_bound entries bitmap (sc_namespaces sc) n)
      as Hn. fold st in Hn.
    replace 126%nat with (S n + (126 - S n))%nat at 1 by lia.
    etrans; [|apply slot_state_result_prefix].
    cbn [slot_state]. cbv zeta. fold st. rewrite decide_True by done.
    by rewrite Hres.
Qed.

Lemma namespace_resolved_at_parse_time_witness :
  e_namespace ns_late_entry = "wifi"
  /\ ([] ++ ls_result (slot_state ns_entries ns_bitmap seed_namespaces 2)
         ++ [ns_late_entry])
     `prefix_of` (read_nvs_pages ns_file).1.
Proof.
  destruct (namespace_resolved_at_parse_time ns_file 0 ns_entries ns_bitmap 2
              ns_late_entry)
    as (entry & b_ns & _ & _ & _ & _ & _ & _ & _ & Hprefix).
  - apply Nat.ltb_lt. vm_compute. reflexivity.
  - vm_compute. reflexivity.
  - apply Nat.ltb_lt. vm_compute. reflexivity.
  - vm_compute. reflexivity.
  - split; [reflexivity | exact Hprefix].
Defined.


(** C2 as stated fails for namespace id 0: the definition entry in slot 1
    belongs to namespace 0, no U8 definition was parsed before it, and its
    name is the seeded [System], not the fallback [NS_0]. *)
Lemma namespace_zero_not_fallback :
  map e_namespace (read_nvs_pages ns_file).1 = ["NS_5"; "System"; "wifi"]
  /\ ns_entries !! 1%nat = Some ns_def_slot
  /\ byte_val <$> ns_def_slot !! 0%nat = Some 0
  /\ scan_defs ns_file 0 ++ slot_defs ns_entries ns_bitmap seed_namespaces 1
     = []
  /\ "System" <> "NS_" +:+ pretty 0.
Proof. repeat split; try (vm_compute; reflexivity). discriminate. Qed.


(** ** BLOB_IDX and ANY slots *)

Lemma unpack_slice_drop (l : list byte) k a hi w :
  (hi - a = w)%nat ->
  (k + hi <= length l)%nat ->
  unpack_unsigned w (slice a hi (drop k l))
  = Some (le_unsigned (slice (k + a) (k + hi) l)).
Proof.
  intros Hw Hlen. unfold unpack_unsigned, slice. rewrite drop_drop.
  replace (k + hi - (k + a))%nat with (hi - a)%nat by lia.
  rewrite decide_True; [done|]. rewrite length_take, length_drop. lia.
Qed.

Lemma blob_idx_decoded entries bitmap st entry b_type b_span :
  (ls_i st < 126)%nat ->
  is_written bitmap (ls_i st) = true ->
  entries !! ls_i st = Some entry ->
  length entry = 32%nat ->
  entry !! 1%nat = Some b_type ->
  entry !! 2%nat = Some b_span ->
  byte_val b_type = 0x48 ->
  valid_span (ls_i st) (byte_val b_span) = true ->
  exists e,
    loop_body entries bitmap st
    = mk_loop (ls_i st + Z.to_nat (byte_val b_span)) (ls_namespaces st)
        (ls_result st ++ [e])
    /\ e_type e = "BLOB_IDX"
    /\ e_value e
       = Some (VIdx (le_unsigned (slice 24 28 entry))
                 (le_unsigned (slice 29 30 entry))
                 (le_unsigned (slice 30 31 entry))).
Proof.
  intros Hi Hw He Hlen H1 H2 Htype Hspan.
  destruct (lookup_header entry 0) as [b_ns H0]; [lia|].
  destruct (lookup_header entry 3) as [b_chunk H3]; [lia|].
  open_slot Hw. rewrite He. simpl. rewrite H0, H1, H2, H3. simpl.
  rewrite Htype. simpl.
  apply valid_span_range in Hspan.
  replace ((byte_val b_span <? 1)
           || (byte_val b_span >? 126 - Z.of_nat (ls_i st))) with false by lia.
  rewrite (unpack_slice_drop entry 24 0 4 4) by lia. simpl.
  rewrite (unpack_slice_drop entry 24 5 6 1) by lia. simpl.
  rewrite (unpack_slice_drop entry 24 6 7 1) by lia. simpl.
  eexists. split; [reflexivity|]. done.
Qed.

Lemma appended_entry_in_result content k entries bitmap n e :
  (sc_sector_pos (page_state content k) < length content)%nat ->
  page_view content (sc_sector_pos (page_state content k))
  = Some (entries, bitmap) ->
  (ls_i (slot_state entries bitmap (sc_namespaces (page_state content k)) n)
   < 126)%nat ->
  ls_result
    (loop_body entries bitmap
       (slot_state entries bitmap (sc_namespaces (page_state content k)) n))
  = ls_result
      (slot_state entries bitmap (sc_namespaces (page_state content k)) n)
    ++ [e] ->
  (sc_result (page_state content k)
   ++ ls_result
        (slot_state entries bitmap (sc_namespaces (page_state content k)) n)
   ++ [e])
  `prefix_of` (read_nvs_pages content).1.
Proof.
  set (sc := page_state content k).
  set (st := slot_state entries bitmap (sc_namespaces sc) n).
  intros Hpos Hview Hi Hres.
  rewrite read_nvs_pages_page_state. cbn [fst].
  pose proof (page_state_pos content k Hpos) as Hk. fold sc in Hk.
  assert (Hlt : (k <= length content / 4096)%nat).
  { apply Nat.div_le_lower_bound; lia. }
  replace (S (length content / 4096))
    with (S k + (length content / 4096 - k))%nat by lia.
  etrans; [|apply page_state_result_prefix].
  cbn [page_state]. cbv zeta. fold sc. rewrite decide_True by done.
  rewrite scan_body_view, Hview. cbv zeta. cbn [sc_result].
  apply prefix_app. unfold parse_nvs_entries. cbn [fst].
  rewrite <- slot_state_while_loop.
  pose proof (slot_state_index_bound entries bitmap (sc_namespaces sc) n)
    as Hn. fold st in Hn.
  replace 126%nat with (S n + (126 - S n))%nat at 1 by lia.
  etrans; [|apply slot_state_result_prefix].
  cbn [slot_state]. cbv zeta. fold st. rewrite decide_True by done.
  by rewrite Hres.
Qed.

Lemma loop_body_no_any entries bitmap st :
  Forall not_any (ls_result st) ->
  Forall not_any (ls_result (loop_body entries bitmap st)).
Proof.
  intros H.
  destruct (loop_body_kind entries bitmap st) as
    [? | ? ? ? ? ? ? ? ? ? ? ?
     | entry b_ns b_type b_span tname e ns' ? ? ? ? ? ? Hany ? Htype ? ?];
    simpl; try done.
  apply Forall_app. split; [done|]. apply Forall_singleton.
  unfold not_any. by rewrite Htype.
Qed.

Lemma slot_state_no_any entries bitmap ns n :
  Forall not_any (ls_result (slot_state entries bitmap ns n)).
Proof.
  induction n as [|n IH]; [constructor|].
  cbn [slot_state]. cbv zeta. case_decide; [|done].
  by apply loop_body_no_any.
Qed.

Lemma page_state_no_any content k :
  Forall not_any (sc_result (page_state content k)).
Proof.
  induction k as [|k IH]; [constructor|].
  cbn [page_state]. cbv zeta. case_decide; [|done].
  rewrite scan_body_view.
  destruct (page_view content _) as [[entries bitmap]|]; [|done].
  cbv zeta. cbn [sc_result]. apply Forall_app. split; [done|].
  unfold parse_nvs_entries. cbn [fst]. rewrite <- slot_state_while_loop.
  apply slot_state_no_any.
Qed.

Lemma read_nvs_pages_no_any content :
  Forall not_any (read_nvs_pages content).1.
Proof. rewrite read_nvs_pages_page_state. apply page_state_no_any. Qed.

(** * The CSV encoder *)


Lemma dict_get_append {V} (n k : string) (v : V) d :
  dict_get n (dict_append k v d)
  = if String.eqb k n then dict_get n d ++ [v] else dict_get n d.
Proof.
  induction d as [|[k' vs] d IH]; simpl.
  - by destruct (String.eqb k n).
  - destruct (String.eqb_spec k' k) as [->|Hk]; simpl.
    + by destruct (String.eqb k n).
    + destruct (String.eqb_spec k' n) as [->|Hn].
      * apply String.eqb_neq in Hk. rewrite String.eqb_sym in Hk.
        by rewrite Hk.
      * apply IH.
Qed.

Lemma dict_get_group_acc n (es : list entry_data) : forall d,
  dict_get n (fold_left (fun d entry => dict_append (e_namespace entry) entry d)
                es d)
  = dict_get n d ++ filter (fun e => e_namespace e = n) es.
Proof.
  induction es as [|e es IH]; intros d; simpl.
  - by rewrite app_nil_r.
  - rewrite IH, dict_get_append.
    destruct (String.eqb_spec (e_namespace e) n) as [Heq|Hne].
    + rewrite filter_cons_True by done. by rewrite <- app_assoc.
    + by rewrite filter_cons_False by done.
Qed.

Lemma dict_get_group n (es : list entry_data) :
  dict_get n (group_by_namespace es) = filter (fun e => e_namespace e = n) es.
Proof. unfold group_by_namespace. by rewrite dict_get_group_acc. Qed.

Lemma partition_entries_without_blob_idx (es : list entry_data) : forall blobs others,
  partition_entries (filter (fun e => e_type e <> "BLOB_IDX") es) blobs others
  = partition_entries es blobs others.
Proof.
  induction es as [|e es IH]; intros blobs others; [done|].
  destruct (decide (e_type e = "BLOB_IDX")) as [Heq|Hne].
  - rewrite filter_cons_False by (by intros ?). simpl. rewrite Heq. simpl.
    apply IH.
  - rewrite filter_cons_True by done. simpl.
    destruct (String.eqb (e_type e) "BLOB_DATA").
    + destruct (e_value e); simpl; [apply IH | done].
    + destruct (negb (String.eqb (e_type e) "BLOB_IDX")); apply IH.
Qed.

Lemma filter_namespace_without_blob_idx n (es : list entry_data) :
  filter (fun e => e_namespace e = n)
    (filter (fun e => e_type e <> "BLOB_IDX") es)
  = filter (fun e => e_type e <> "BLOB_IDX")
      (filter (fun e => e_namespace e = n) es).
Proof.
  induction es as [|e es IH]; [done|].
  destruct (decide (e_type e = "BLOB_IDX")) as [Heq|Hne];
    destruct (decide (e_namespace e = n)) as [Hn|Hn];
    repeat (first [ rewrite filter_cons_True by done
                  | rewrite filter_cons_False by (by intros ?) ]);
    by rewrite IH.
Qed.

Lemma namespace_loop_without_blob_idx sorted (es : list entry_data) dir :
  forall lines w,
    namespace_loop sorted
      (group_by_namespace (filter (fun e => e_type e <> "BLOB_IDX") es))
      dir lines w
    = namespace_loop sorted (group_by_namespace es) dir lines w.
Proof.
  induction sorted as [|[ns_id ns_name] sorted IH]; intros lines w; [done|].
  cbn [namespace_loop]. cbv zeta.
  rewrite !dict_get_group, filter_namespace_without_blob_idx,
    partition_entries_without_blob_idx.
  unfold io_bind, io_lift.
  destruct (partition_entries _ [] []) as [parts|]; [|done].
  destruct (write_blob_groups _ _ _ w) as [[lines1|] w1]; [|done].
  destruct (data_lines _ _) as [lines2|]; [|done].
  apply IH.
Qed.

Lemma generate_csv_without_blob_idx data csv_output_path blobs_output_dir w :
  generate_csv (without_blob_idx data) csv_output_path blobs_output_dir w
  = generate_csv data csv_output_path blobs_output_dir w.
Proof.
  unfold generate_csv, without_blob_idx, io_bind, io_lift. cbn [jd_namespaces jd_entries].
  destruct (sorted_namespaces _) as [sorted|]; [|done].
  by rewrite namespace_loop_without_blob_idx.
Qed.

(** ** The stable sort *)

Section sorting.
Context {A : Type}.
Implicit Types (x : Z * A) (l : list (Z * A)).

Lemma insert_by_key_perm x l : insert_by_key x l ≡ₚ x :: l.
Proof.
  induction l as [|y l IH]; simpl; [done|].
  destruct (x.1 <=? y.1); [done|].
  rewrite IH. apply Permutation_swap.
Qed.

Lemma sort_by_key_perm l : sort_by_key l ≡ₚ l.
Proof.
  induction l as [|x l IH]; simpl; [done|].
  by rewrite insert_by_key_perm, IH.
Qed.

Lemma insert_by_key_sorted x l :
  StronglySorted key_le l -> StronglySorted key_le (insert_by_key x l).
Proof.
  induction 1 as [|y l Hl IH Hy]; simpl.
  - repeat constructor.
  - destruct (x.1 <=? y.1) eqn:Hxy.
    + constructor; [by constructor|].
      constructor; [unfold key_le; lia|].
      eapply Forall_impl; [exact Hy|]. unfold key_le. intros z ?. lia.
    + constructor; [done|].
      rewrite insert_by_key_perm. constructor; [unfold key_le; lia | done].
Qed.

Lemma sort_by_key_sorted l : StronglySorted key_le (sort_by_key l).
Proof.
  induction l as [|x l IH]; simpl; [constructor|].
  by apply insert_by_key_sorted.
Qed.

Lemma sorted_by_key_unique l1 : forall l2,
  StronglySorted key_le l1 -> StronglySorted key_le l2 ->
  l1 ≡ₚ l2 -> NoDup l1.*1 -> l1 = l2.
Proof.
  induction l1 as [|a l1 IH]; intros l2 Hs1 Hs2 Hp Hnd.
  - by apply Permutation_nil_l in Hp.
  - destruct l2 as [|b l2]; [by apply Permutation_nil_r in Hp|].
    apply StronglySorted_inv in Hs1 as [Hs1 Ha].
    apply StronglySorted_inv in Hs2 as [Hs2 Hb].
    rewrite fmap_cons in Hnd. apply NoDup_cons in Hnd as [Hnotin Hnd].
    assert (a = b) as ->.
    { assert (Hain : a ∈ b :: l2) by (rewrite <- Hp; left).
      assert (Hbin : b ∈ a :: l1) by (rewrite Hp; left).
      apply elem_of_cons in Hain as [?|Hain]; [done|].
      apply elem_of_cons in Hbin as [?|Hbin]; [done|].
      rewrite Forall_forall in Ha, Hb.
      pose proof (Ha _ Hbin) as H1. pose proof (Hb _ Hain) as H2.
      unfold key_le in H1, H2.
      exfalso. apply Hnotin. replace a.1 with b.1 by lia.
      by apply list_elem_of_fmap_2. }
    f_equal. apply IH; try done. by apply Permutation_cons_inv in Hp.
Qed.

Lemma sort_by_key_order_independent l1 l2 :
  NoDup l1.*1 -> l1 ≡ₚ l2 -> sort_by_key l1 = sort_by_key l2.
Proof.
  intros Hnd Hp. apply sorted_by_key_unique.
  - apply sort_by_key_sorted.
  - apply sort_by_key_sorted.
  - by rewrite !sort_by_key_perm.
  - by rewrite sort_by_key_perm.
Qed.

End sorting.

(** ** Ties in the sorts *)

Lemma insert_by_key_same_key {A} (k : Z) (x : Z * A) l :
  filter (fun c => c.1 = k) (insert_by_key x l)
  = filter (fun c => c.1 = k) (x :: l).
Proof.
  induction l as [|y l IH]; [done|].
  cbn [insert_by_key]. destruct (x.1 <=? y.1) eqn:Hle; [done|].
  apply Z.leb_gt in Hle.
  destruct (decide (y.1 = k)) as [Hy|Hy].
  - rewrite filter_cons_True by done. rewrite IH.
    rewrite (filter_cons_False _ x) by lia.
    rewrite (filter_cons_False _ x) by lia.
    by rewrite filter_cons_True by done.
  - rewrite filter_cons_False by done. rewrite IH.
    destruct (decide (x.1 = k)) as [Hx|Hx].
    + rewrite !(filter_cons_True _ x) by done.
      by rewrite filter_cons_False by done.
    + rewrite !(filter_cons_False _ x) by done.
      by rewrite filter_cons_False by done.
Qed.

Lemma sort_by_key_same_key {A} (k : Z) (l : list (Z * A)) :
  filter (fun c => c.1 = k) (sort_by_key l) = filter (fun c => c.1 = k) l.
Proof.
  induction l as [|x l IH]; [done|].
  cbn [sort_by_key]. rewrite insert_by_key_same_key.
  destruct (decide (x.1 = k)).
  - rewrite !filter_cons_True by done. by rewrite IH.
  - by rewrite !filter_cons_False by done.
Qed.

Lemma sorted_stable_unique {A} (l1 : list (Z * A)) : forall l2,
  StronglySorted key_le l1 -> StronglySorted key_le l2 ->
  (forall k, filter (fun c => c.1 = k) l1 = filter (fun c => c.1 = k) l2) ->
  l1 = l2.
Proof.
  assert (Hempty : forall (b : Z * A) l,
            filter (fun c => c.1 = b.1) (b :: l) <> []).
  { intros b l. by rewrite filter_cons_True by done. }
  assert (Habove : forall (k : Z) (l : list (Z * A)),
            Forall (fun c => k < c.1) l -> filter (fun c => c.1 = k) l = []).
  { intros k l. induction 1 as [|c l Hc _ IH]; [done|].
    by rewrite filter_cons_False by lia. }
  induction l1 as [|a l1 IH]; intros l2 Hs1 Hs2 Hsame.
  - destruct l2 as [|b l2]; [done|].
    exfalso. apply (Hempty b l2). by rewrite <- Hsame.
  - destruct l2 as [|b l2].
    { exfalso. apply (Hempty a l1). by rewrite Hsame. }
    apply StronglySorted_inv in Hs1 as [Hs1 Ha].
    apply StronglySorted_inv in Hs2 as [Hs2 Hb].
    unfold key_le in Ha, Hb.
    destruct (Z.lt_trichotomy a.1 b.1) as [Hlt|[Heq|Hgt]].
    + exfalso. apply (Hempty a l1). rewrite Hsame.
      apply Habove. constructor; [done|].
      eapply Forall_impl; [exact Hb|]. intros c Hc. simpl in Hc. lia.
    + pose proof (Hsame a.1) as Hhead.
      rewrite filter_cons_True in Hhead by done.
      rewrite filter_cons_True in Hhead by done.
      injection Hhead as -> Htail. f_equal. apply IH; try done.
      intros k. specialize (Hsame k).
      destruct (decide (b.1 = k)) as [Hk|Hk].
      * rewrite !filter_cons_True in Hsame by done. by injection Hsame.
      * by rewrite !filter_cons_False in Hsame by done.
    + exfalso. apply (Hempty b l2). rewrite <- Hsame.
      apply Habove. constructor; [lia|].
      eapply Forall_impl; [exact Ha|]. intros c Hc. simpl in Hc. lia.
Qed.


(** ** Blob files *)

Lemma write_blob_values_ok blob_path blob_values : forall payloads w old,
  mapM bytes_fromhex blob_values = Some payloads ->
  w_files w !! blob_path = Some old ->
  write_blob_values blob_path blob_values w
  = (Some tt,
     mk_world (<[blob_path := old ++ concat payloads]> (w_files w))
       (w_uuid4_hex w) (w_uuid_calls w)).
Proof.
  induction blob_values as [|v vs IH]; intros payloads w old Hhex Hold.
  - injection Hhex as <-. simpl. rewrite app_nil_r, insert_id by done.
    by destruct w.
  - simpl in Hhex. destruct (bytes_fromhex v) as [bs|] eqn:Hv; [|done].
    simpl in Hhex. destruct (mapM bytes_fromhex vs) as [rest|] eqn:Hvs; [|done].
    injection Hhex as <-.
    cbn [write_blob_values]. unfold io_bind, io_lift, file_write. rewrite Hv.
    rewrite (IH rest _ (old ++ bs) eq_refl).
    + cbn [w_files w_uuid4_hex w_uuid_calls]. rewrite Hold. simpl.
      by rewrite insert_insert_eq, <- app_assoc.
    + cbn [w_files]. rewrite Hold. simpl. by rewrite lookup_insert_eq.
Qed.

Lemma write_blob_file_ok blob_values output_dir payloads w :
  mapM bytes_fromhex blob_values = Some payloads ->
  let blob_path :=
    path_join output_dir
      ("blob_" +:+ w_uuid4_hex w (w_uuid_calls w) +:+ ".bin") in
  write_blob_file blob_values output_dir w
  = (Some blob_path,
     mk_world (<[blob_path := concat payloads]> (w_files w))
       (w_uuid4_hex w) (S (w_uuid_calls w))).
Proof.
  intros Hhex blob_path.
  unfold write_blob_file, io_bind, uuid4_hex, open_write, io_ret.
  fold blob_path.
  rewrite (write_blob_values_ok _ _ payloads _ [] Hhex).
  - cbn [w_files w_uuid4_hex w_uuid_calls]. by rewrite insert_insert_eq.
  - cbn [w_files]. by rewrite lookup_insert_eq.
Qed.

(** ** Rows of the CSV file *)

Lemma write_blob_groups_lines groups dir : forall lines w lines' w',
  write_blob_groups groups dir lines w = (Some lines', w') ->
  namespace_rows lines' = namespace_rows lines
  /\ lines `prefix_of` lines'.
Proof.
  induction groups as [|[key blob_entries] groups IH];
    intros lines w lines' w' Hrun.
  - injection Hrun as <- <-. done.
  - cbn [write_blob_groups] in Hrun. unfold io_bind at 1 in Hrun.
    destruct (write_blob_file _ dir w) as [[blob_path|] w1]; [|done].
    apply IH in Hrun as [Hrows Hpre]. split.
    + rewrite Hrows. unfold namespace_rows. rewrite omap_app. simpl.
      by rewrite app_nil_r.
    + etrans; [|exact Hpre]. by apply prefix_app_r.
Qed.

Lemma data_lines_lines es : forall lines lines',
  data_lines es lines = Some lines' ->
  namespace_rows lines' = namespace_rows lines
  /\ lines `prefix_of` lines'
  /\ forall entry, entry ∈ es ->
       exists v, e_value entry = Some v
         /\ DataLine (e_key entry)
              (str_of_encoding (map_type_encoding (e_type entry)))
              (value_str v) ∈ lines'.
Proof.
  induction es as [|e es IH]; intros lines lines' Hrun.
  - injection Hrun as <-. split; [done|]. split; [done|].
    intros entry Hin. by apply elem_of_nil in Hin.
  - cbn [data_lines] in Hrun. cbv zeta in Hrun.
    destruct (e_value e) as [v|] eqn:Hv; [|done]. simpl in Hrun.
    apply IH in Hrun as (Hrows & Hpre & Hin). split; [|split].
    + rewrite Hrows. unfold namespace_rows. rewrite omap_app. simpl.
      by rewrite app_nil_r.
    + etrans; [|exact Hpre]. by apply prefix_app_r.
    + intros entry [->|Hentry]%elem_of_cons; [|by apply Hin].
      exists v. split; [done|].
      destruct Hpre as [tail ->]. rewrite !elem_of_app. left. right.
      by apply list_elem_of_singleton.
Qed.

Lemma partition_entries_others es : forall blobs others blobs' others',
  partition_entries es blobs others = Some (blobs', others') ->
  others' = others ++ filter (fun e => e_type e <> "BLOB_DATA"
                                       /\ e_type e <> "BLOB_IDX") es.
Proof.
  induction es as [|e es IH]; intros blobs others blobs' others' Hrun.
  - injection Hrun as <- <-. by rewrite app_nil_r.
  - cbn [partition_entries] in Hrun.
    destruct (String.eqb_spec (e_type e) "BLOB_DATA") as [Hd|Hd].
    + destruct (e_value e); [|done]. simpl in Hrun. apply IH in Hrun as ->.
      rewrite filter_cons_False; [done|]. by intros [? _].
    + destruct (String.eqb_spec (e_type e) "BLOB_IDX") as [Hi|Hi]; simpl in Hrun.
      * apply IH in Hrun as ->. rewrite filter_cons_False; [done|].
        by intros [_ ?].
      * apply IH in Hrun as ->. rewrite filter_cons_True by done.
        by rewrite <- app_assoc.
Qed.

Lemma namespace_loop_lines sorted ebn dir : forall lines w lines' w',
  namespace_loop sorted ebn dir lines w = (Some lines', w') ->
  namespace_rows lines' = namespace_rows lines ++ sorted.*2
  /\ lines `prefix_of` lines'
  /\ forall ns_id ns_name entry,
       (ns_id, ns_name) ∈ sorted ->
       entry ∈ dict_get ns_name ebn ->
       e_type entry <> "BLOB_DATA" ->
       e_type entry <> "BLOB_IDX" ->
       exists v, e_value entry = Some v
         /\ DataLine (e_key entry)
              (str_of_encoding (map_type_encoding (e_type entry)))
              (value_str v) ∈ lines'.
Proof.
  induction sorted as [|[ns_id ns_name] sorted IH];
    intros lines w lines' w' Hrun.
  - injection Hrun as <- <-. rewrite app_nil_r. split; [done|].
    split; [done|]. intros ? ? ? Hin. by apply elem_of_nil in Hin.
  - cbn [namespace_loop] in Hrun. cbv zeta in Hrun.
    unfold io_bind, io_lift in Hrun.
    destruct (partition_entries _ [] []) as [[blobs others]|] eqn:Hparts;
      [|done].
    cbn [fst snd] in Hrun.
    destruct (write_blob_groups _ _ _ w) as [[lines1|] w1] eqn:Hblobs; [|done].
    destruct (data_lines _ _) as [lines2|] eqn:Hdata; [|done].
    apply write_blob_groups_lines in Hblobs as [Hrows1 Hpre1].
    apply data_lines_lines in Hdata as (Hrows2 & Hpre2 & Hin2).
    apply IH in Hrun as (Hrows & Hpre & Hin).
    apply partition_entries_others in Hparts. simpl in Hparts.
    split; [|split].
    + rewrite Hrows, Hrows2, Hrows1. unfold namespace_rows.
      rewrite omap_app. simpl. by rewrite <- app_assoc.
    + etrans; [|exact Hpre]. etrans; [|exact Hpre2]. etrans; [|exact Hpre1].
      by apply prefix_app_r.
    + intros id name entry [Heq|Hsorted]%elem_of_cons Hentry Hd Hi.
      * injection Heq as -> ->.
        destruct (Hin2 entry) as (v & Hv & Hline).
        { rewrite Hparts. by apply list_elem_of_filter. }
        exists v. split; [done|].
        destruct Hpre as [tail ->]. apply elem_of_app. by left.
      * by apply (Hin id name).
Qed.

(** ** Sorting the namespaces *)

Lemma decorate_all namespace_map : forall keyed,
  mapM decorate namespace_map = Some keyed ->
  keyed.*2 = namespace_map
  /\ keyed.*1 = (fun item => default 0 (py_int item.1)) <$> namespace_map
  /\ Forall (fun ki => py_int ki.2.1 = Some ki.1) keyed.
Proof.
  induction namespace_map as [|item m IH]; intros keyed Hrun.
  - injection Hrun as <-. done.
  - simpl in Hrun.
    destruct (decorate item) as [[k it]|] eqn:Hd; simpl in Hrun; [|done].
    destruct (mapM decorate m) as [rest|]; simpl in Hrun; [|done].
    injection Hrun as <-. unfold decorate in Hd.
    destruct (py_int item.1) as [k'|] eqn:Hk; simpl in Hd; [|done].
    injection Hd as -> ->.
    destruct (IH rest eq_refl) as (H2 & H1 & Hall).
    rewrite !fmap_cons, H2, H1, Hk. repeat split; try done.
    by constructor.
Qed.

Lemma decorate_perm m1 : forall m2 keyed1,
  m1 ≡ₚ m2 ->
  mapM decorate m1 = Some keyed1 ->
  exists keyed2, mapM decorate m2 = Some keyed2 /\ keyed1 ≡ₚ keyed2.
Proof.
  intros m2 keyed1 Hp. revert keyed1.
  induction Hp as [|x l l' Hp IH|x y l|l l' l'' Hp1 IH1 Hp2 IH2];
    intros keyed1 Hrun.
  - exists keyed1. done.
  - simpl in Hrun. destruct (decorate x) as [kx|] eqn:Hx; simpl in Hrun; [|done].
    destruct (mapM decorate l) as [rest|]; simpl in Hrun; [|done].
    injection Hrun as <-. destruct (IH rest eq_refl) as (rest' & Hr & Hpr).
    exists (kx :: rest'). simpl. rewrite Hx, Hr. simpl. split; [done|].
    by constructor.
  - simpl in Hrun. destruct (decorate y) as [ky|] eqn:Hy; simpl in Hrun; [|done].
    destruct (decorate x) as [kx|] eqn:Hx; simpl in Hrun; [|done].
    destruct (mapM decorate l) as [rest|] eqn:Hl; simpl in Hrun; [|done].
    injection Hrun as <-. exists (kx :: ky :: rest). simpl.
    rewrite Hx, Hy. simpl. rewrite Hl. simpl. split; [done|].
    apply Permutation_swap.
  - destruct (IH1 _ Hrun) as (k2 & Hk2 & Hp12).
    destruct (IH2 _ Hk2) as (k3 & Hk3 & Hp23).
    exists k3. split; [done|]. by etrans.
Qed.

Lemma sorted_by_id keyed :
  StronglySorted key_le keyed ->
  Forall (fun ki : Z * (string * string) => py_int ki.2.1 = Some ki.1) keyed ->
  StronglySorted id_le keyed.*2.
Proof.
  induction 1 as [|ki keyed Hs IH Hle]; intros Hall; [constructor|].
  apply Forall_cons in Hall as [Hki Hall].
  rewrite fmap_cons. constructor; [by apply IH|].
  apply Forall_fmap. rewrite Forall_forall in Hle, Hall.
  apply Forall_forall. intros kj Hin.
  unfold id_le. simpl. rewrite Hki, (Hall _ Hin). by apply Hle.
Qed.

Lemma sorted_namespaces_spec namespace_map sorted :
  sorted_namespaces namespace_map = Some sorted ->
  sorted ≡ₚ namespace_map
  /\ StronglySorted id_le sorted
  /\ forall namespace_map',
       namespace_map ≡ₚ namespace_map' ->
       NoDup ((fun item => default 0 (py_int item.1)) <$> namespace_map) ->
       sorted_namespaces namespace_map' = Some sorted.
Proof.
  unfold sorted_namespaces. fold decorate. intros Hrun.
  destruct (mapM decorate namespace_map) as [keyed|] eqn:Hkeyed; [|done].
  injection Hrun as <-.
  destruct (decorate_all _ _ Hkeyed) as (H2 & H1 & Hall).
  split; [|split].
  - rewrite <- H2. by rewrite sort_by_key_perm.
  - apply sorted_by_id; [apply sort_by_key_sorted|].
    by rewrite sort_by_key_perm.
  - intros m' Hp Hnd.
    destruct (decorate_perm _ _ _ Hp Hkeyed) as (keyed' & Hkeyed' & Hpk).
    rewrite Hkeyed'. simpl. do 2 f_equal. symmetry.
    apply sort_by_key_order_independent; [by rewrite H1 | done].
Qed.

(** ** Blob groups *)

Lemma partition_entries_groups (es : list entry_data) :
  forall blobs others blobs' others' key,
    partition_entries es blobs others = Some (blobs', others') ->
    dict_get key blobs' = dict_get key blobs ++ chunks_of key es.
Proof.
  unfold chunks_of.
  induction es as [|e es IH]; intros blobs others blobs' others' key Hrun.
  - injection Hrun as <- <-. by rewrite app_nil_r.
  - cbn [partition_entries] in Hrun. cbn [omap list_omap]. unfold chunk_of at 1.
    destruct (String.eqb (e_type e) "BLOB_DATA"); simpl in *.
    + destruct (e_value e) as [v|]; [|done]. simpl in Hrun.
      rewrite (IH _ _ _ _ key Hrun), dict_get_append.
      destruct (String.eqb (e_key e) key); simpl; [|done].
      by rewrite <- app_assoc.
    + destruct (negb _); by rewrite (IH _ _ _ _ key Hrun).
Qed.

Lemma dict_append_keys {V} k (v : V) d :
  (dict_append k v d).*1 = if decide (k ∈ d.*1) then d.*1 else d.*1 ++ [k].
Proof.
  induction d as [|[k' vs] d IH]; [done|].
  cbn [dict_append].
  destruct (String.eqb_spec k' k) as [->|Hne]; rewrite !fmap_cons; cbn [fst].
  - rewrite decide_True; [done | left].
  - rewrite IH. case_decide as Hin.
    + rewrite decide_True; [done | by right].
    + rewrite decide_False; [done|].
      intros [?|?]%elem_of_cons; [by subst | done].
Qed.

Lemma dict_append_nodup {V} k (v : V) d :
  NoDup d.*1 -> NoDup (dict_append k v d).*1.
Proof.
  intros Hnd. rewrite dict_append_keys. case_decide as Hin; [done|].
  apply NoDup_app. split; [done|]. split; [|apply NoDup_singleton].
  intros x Hx ->%list_elem_of_singleton. done.
Qed.

Lemma partition_entries_nodup (es : list entry_data) :
  forall blobs others blobs' others',
    partition_entries es blobs others = Some (blobs', others') ->
    NoDup blobs.*1 -> NoDup blobs'.*1.
Proof.
  induction es as [|e es IH]; intros blobs others blobs' others' Hrun Hnd.
  - by injection Hrun as <- <-.
  - cbn [partition_entries] in Hrun.
    destruct (String.eqb (e_type e) "BLOB_DATA").
    + destruct (e_value e) as [v|]; [|done]. simpl in Hrun.
      eapply IH; [exact Hrun|]. by apply dict_append_nodup.
    + destruct (negb _); by eapply IH.
Qed.

Lemma dict_get_elem {V} k (g : list V) d :
  NoDup d.*1 -> (k, g) ∈ d -> dict_get k d = g.
Proof.
  induction d as [|[k' vs] d IH]; intros Hnd Hin.
  - by apply elem_of_nil in Hin.
  - rewrite fmap_cons in Hnd. apply NoDup_cons in Hnd as [Hk' Hnd]. simpl.
    apply elem_of_cons in Hin as [Heq|Hin].
    + injection Heq as <- <-. by rewrite String.eqb_refl.
    + destruct (String.eqb_spec k' k) as [->|Hne]; [|by apply IH].
      exfalso. apply Hk'. by apply (list_elem_of_fmap_2 fst) in Hin.
Qed.

Lemma blob_group_chunks (es : list entry_data) blobs others key group :
  partition_entries es [] [] = Some (blobs, others) ->
  (key, group) ∈ blobs ->
  group = chunks_of key es.
Proof.
  intros Hrun Hin.
  rewrite <- (dict_get_elem key group blobs); [|
    by eapply partition_entries_nodup; [exact Hrun | constructor] |done].
  by rewrite (partition_entries_groups _ _ _ _ _ key Hrun).
Qed.

(** C6, as the code has it. A blob group of a namespace holds the chunks
    of the namespace's BLOB_DATA entries of one key, in record order. The
    chunks are sorted ascending by chunk index with a stable sort: the
    chunks that carry one chunk index keep the order they have in the
    record, and the sorted list is the only list in ascending order of
    chunk index for which that is so. The file written for the group holds
    the bytes of the sorted chunks' hex values in that order. When the
    chunk indices of the group are pairwise distinct the sorted order, and
    so the payload, is the same for every order in which the chunks appear
    in the record. *)
Theorem blob_chunks_sorted_by_index (blob_entries : list (Z * value))
    key rest blobs_output_dir csv_lines w :
  let sorted := sort_by_key blob_entries in
  let blob_path :=
    path_join blobs_output_dir
      ("blob_" +:+ w_uuid4_hex w (w_uuid_calls w) +:+ ".bin") in
  (forall es blobs others,
     partition_entries es [] [] = Some (blobs, others) ->
     (key, blob_entries) ∈ blobs ->
     blob_entries = chunks_of key es)
  /\ StronglySorted key_le sorted
  /\ sorted ≡ₚ blob_entries
  /\ (forall chunk_index,
        filter (fun chunk => chunk.1 = chunk_index) sorted
        = filter (fun chunk => chunk.1 = chunk_index) blob_entries)
  /\ (forall written,
        StronglySorted key_le written ->
        (forall chunk_index,
           filter (fun chunk => chunk.1 = chunk_index) written
           = filter (fun chunk => chunk.1 = chunk_index) blob_entries) ->
        written = sorted)
  /\ write_blob_groups ((key, blob_entries) :: rest) blobs_output_dir
       csv_lines w
     = match write_blob_file sorted.*2 blobs_output_dir w with
       | (Some p, w') =>
           write_blob_groups rest blobs_output_dir
             (csv_lines ++ [FileLine key p]) w'
       | (None, w') => (None, w')
       end
  /\ (forall payloads,
        mapM bytes_fromhex sorted.*2 = Some payloads ->
        exists w',
          write_blob_file sorted.*2 blobs_output_dir w = (Some blob_path, w')
          /\ w_files w' !! blob_path = Some (concat payloads))
  /\ (forall blob_entries',
        NoDup blob_entries.*1 ->
        blob_entries ≡ₚ blob_entries' ->
        sort_by_key blob_entries' = sorted).
Proof.
  intros sorted blob_path.
  split; [intros es blobs others; apply blob_group_chunks|].
  split; [apply sort_by_key_sorted|].
  split; [apply sort_by_key_perm|].
  split; [intros chunk_index; apply sort_by_key_same_key|].
  split.
  { intros written Hsorted Hstable. apply sorted_stable_unique; try done.
    - apply sort_by_key_sorted.
    - intros k. rewrite Hstable. symmetry. apply sort_by_key_same_key. }
  split; [done|]. split.
  - intros payloads Hhex. eexists. split.
    + by apply write_blob_file_ok.
    + cbn [w_files]. by rewrite lookup_insert_eq.
  - intros blob_entries' Hnd Hp. symmetry.
    by apply sort_by_key_order_independent.
Qed.

Lemma blob_chunks_sorted_by_index_witness :
  (exists w',
     write_blob_file (sort_by_key chunk_group).*2 "blobs" empty_world
     = (Some "blobs/blob_uuid0.bin", w')
     /\ w_files w' !! "blobs/blob_uuid0.bin"
        = Some (concat [[byte_of_Z 0xAA]; [byte_of_Z 0xBB]]))
  /\ sort_by_key [(0, VStr "AA"); (1, VStr "BB")] = sort_by_key chunk_group
  /\ [(0, VStr "AA"); (1, VStr "BB")] = sort_by_key chunk_group.
Proof.
  destruct (blob_chunks_sorted_by_index chunk_group "cert" [] "blobs" []
              empty_world) as (_ & _ & _ & _ & Hunique & _ & Hwrite & Horder).
  split; [|split].
  - apply (Hwrite [[byte_of_Z 0xAA]; [byte_of_Z 0xBB]]). reflexivity.
  - apply Horder.
    + vm_compute. apply NoDup_cons. split.
      * intros [H|H]%elem_of_cons; [discriminate | by apply elem_of_nil in H].
      * apply NoDup_singleton.
    + apply Permutation_swap.
  - apply Hunique.
    + repeat constructor; unfold key_le; simpl; lia.
    + intros chunk_index. unfold chunk_group.
      destruct (decide (chunk_index = 0)) as [->|H0]; [reflexivity|].
      destruct (decide (chunk_index = 1)) as [->|H1]; [reflexivity|].
      by rewrite !filter_cons_False by (simpl; lia).
Defined.

(** C6 as stated fails when two chunks share a chunk index: the stable
    sort keeps them in record order, so the same chunks in the opposite
    order give a different payload. *)
Lemma blob_equal_index_order_dependent :
  jd_entries tie_record_a ≡ₚ jd_entries tie_record_b
  /\ w_files (generate_csv tie_record_a "out.csv" "blobs" empty_world).2
       !! "blobs/blob_uuid0.bin"
     = Some [byte_of_Z 0xAA; byte_of_Z 0xBB]
  /\ w_files (generate_csv tie_record_b "out.csv" "blobs" empty_world).2
       !! "blobs/blob_uuid0.bin"
     = Some [byte_of_Z 0xBB; byte_of_Z 0xAA]
  /\ [byte_of_Z 0xAA; byte_of_Z 0xBB] <> [byte_of_Z 0xBB; byte_of_Z 0xAA].
Proof.
  split; [apply Permutation_swap|].
  repeat split; try (vm_compute; reflexivity). discriminate.
Qed.

(** ** White space around a namespace id *)

(** [int] skips the ASCII white space at both ends of an id, and the
    next-line control and the no-break space as well; the separators 0x1c
    to 0x1f are not skipped, and no white space may follow the sign. *)
Lemma py_int_white_space :
  py_int " 9 " = Some 9
  /\ py_int (String (ascii_of_nat 160) "9") = Some 9
  /\ py_int (String (ascii_of_nat 133) " 9 ") = Some 9
  /\ py_int (String (ascii_of_nat 28) "9") = None
  /\ py_int (String (ascii_of_nat 127) "9") = None
  /\ py_int " -1_0 " = Some (-10)
  /\ py_int "- 1" = None.
Proof. repeat split; vm_compute; reflexivity. Qed.

(** ** The encoder returns on encodable records *)

Lemma Forall_filter_keep {A} (P Q : A -> Prop) `{!forall x, Decision (Q x)}
    (l : list A) :
  Forall P l -> Forall P (filter Q l).
Proof.
  rewrite !Forall_forall. intros Hall x [_ Hx]%list_elem_of_filter.
  by apply Hall.
Qed.

Lemma dict_append_encodable k chunk groups :
  is_Some (bytes_fromhex chunk.2) ->
  Forall group_encodable groups ->
  Forall group_encodable (dict_append k chunk groups).
Proof.
  intros Hchunk. induction 1 as [|[k' vs] groups Hg Hgs IH]; simpl.
  - repeat constructor. done.
  - destruct (String.eqb k' k).
    + constructor; [|done]. unfold group_encodable in *. simpl in *.
      apply Forall_app. split; [done|]. by repeat constructor.
    + by constructor.
Qed.

Lemma partition_entries_returns es : forall blobs others,
  Forall entry_encodable es ->
  Forall group_encodable blobs ->
  exists blobs' others',
    partition_entries es blobs others = Some (blobs', others')
    /\ Forall group_encodable blobs'.
Proof.
  induction es as [|e es IH]; intros blobs others Hes Hblobs.
  - by exists blobs, others.
  - apply Forall_cons in Hes as [He Hes]. cbn [partition_entries].
    unfold entry_encodable in He.
    destruct (e_value e) as [v|]; [|done].
    destruct (String.eqb_spec (e_type e) "BLOB_DATA") as [Hd|Hd]; simpl.
    + apply IH; [done|]. apply dict_append_encodable; [|done]. by apply He.
    + destruct (negb _); by apply IH.
Qed.

Lemma write_blob_groups_returns groups dir : forall lines w,
  Forall group_encodable groups ->
  exists lines' w', write_blob_groups groups dir lines w = (Some lines', w').
Proof.
  induction groups as [|[key blob_entries] groups IH]; intros lines w Hgs.
  - by exists lines, w.
  - apply Forall_cons in Hgs as [Hg Hgs]. cbn [write_blob_groups].
    unfold io_bind at 1.
    assert (Hhex : is_Some (mapM bytes_fromhex (sort_by_key blob_entries).*2)).
    { apply mapM_is_Some, Forall_fmap. rewrite sort_by_key_perm. exact Hg. }
    destruct Hhex as [payloads Hhex].
    rewrite (write_blob_file_ok _ _ _ _ Hhex). by apply IH.
Qed.

Lemma data_lines_returns es : forall lines,
  Forall entry_encodable es -> is_Some (data_lines es lines).
Proof.
  induction es as [|e es IH]; intros lines Hes; [done|].
  apply Forall_cons in Hes as [He Hes]. cbn [data_lines]. cbv zeta.
  unfold entry_encodable in He. destruct (e_value e); [|done]. simpl.
  by apply IH.
Qed.

Lemma namespace_loop_returns sorted (es : list entry_data) dir : forall lines w,
  Forall entry_encodable es ->
  exists lines' w',
    namespace_loop sorted (group_by_namespace es) dir lines w
    = (Some lines', w').
Proof.
  induction sorted as [|[ns_id ns_name] sorted IH]; intros lines w Hes.
  - by exists lines, w.
  - cbn [namespace_loop]. cbv zeta. unfold io_bind, io_lift.
    rewrite dict_get_group.
    assert (Hns : Forall entry_encodable
                    (filter (fun e => e_namespace e = ns_name) es))
      by (by apply Forall_filter_keep).
    destruct (partition_entries_returns _ [] [] Hns) as
      (blobs & others & Hparts & Hblobs); [constructor|].
    rewrite Hparts. cbn [fst snd].
    destruct (write_blob_groups_returns blobs dir
                (lines ++ [NamespaceLine ns_name]) w Hblobs)
      as (lines1 & w1 & Hwrite).
    rewrite Hwrite.
    apply partition_entries_others in Hparts. simpl in Hparts.
    destruct (data_lines_returns others lines1) as [lines2 Hdata].
    { rewrite Hparts. by apply Forall_filter_keep. }
    rewrite Hdata. by apply IH.
Qed.

Lemma sorted_namespaces_returns namespace_map :
  Forall (fun item => is_Some (py_int item.1)) namespace_map ->
  is_Some (sorted_namespaces namespace_map).
Proof.
  intros Hkeys. unfold sorted_namespaces. fold decorate.
  destruct (mapM_is_Some_2 decorate namespace_map) as [keyed Hkeyed].
  - eapply Forall_impl; [exact Hkeys|]. intros item [k Hk]. simpl.
    unfold decorate. rewrite Hk. by eexists.
  - rewrite Hkeyed. by eexists.
Qed.

Lemma generate_csv_returns data csv_output_path blobs_output_dir w :
  record_encodable data ->
  exists lines w',
    generate_csv data csv_output_path blobs_output_dir w = (Some lines, w').
Proof.
  intros [Hkeys Hentries].
  unfold generate_csv, io_bind, io_lift, io_ret, open_write, file_write.
  destruct (sorted_namespaces_returns _ Hkeys) as [sorted ->].
  destruct (namespace_loop_returns sorted (jd_entries data) blobs_output_dir
              [Header] w Hentries) as (lines & w1 & ->).
  by eexists _, _.
Qed.

(** ** The encoder's output *)

Lemma generate_csv_inv data csv_output_path blobs_output_dir w lines w' :
  generate_csv data csv_output_path blobs_output_dir w = (Some lines, w') ->
  exists sorted w1,
    sorted_namespaces (jd_namespaces data) = Some sorted
    /\ namespace_loop sorted (group_by_namespace (jd_entries data))
         blobs_output_dir [Header] w = (Some lines, w1)
    /\ w_files w' !! csv_output_path
       = Some (list_byte_of_string (join_lines (map render_line lines))).
Proof.
  unfold generate_csv, io_bind, io_lift, io_ret, open_write, file_write.
  intros Hrun.
  destruct (sorted_namespaces _) as [sorted|]; [|done].
  destruct (namespace_loop _ _ _ _ w) as [[lines1|] w1] eqn:Hloop; [|done].
  injection Hrun as <- <-. exists sorted, w1. split; [done|]. split; [done|].
  cbn [w_files]. by rewrite !lookup_insert_eq.
Qed.

(** C7. [generate_csv] returns for every record whose namespace ids are
    integers and whose entries have values (hex strings for the BLOB_DATA
    chunks), and the namespace rows it writes are the names of the
    record's namespace table sorted ascending by numeric id: a
    rearrangement of the table, whatever its order and whatever the order
    of the entries; tables that list the same namespaces with distinct
    ids in different orders give the same rows. *)
Theorem namespace_rows_sorted_by_id data csv_output_path blobs_output_dir w :
  (record_encodable data ->
   exists lines w',
     generate_csv data csv_output_path blobs_output_dir w = (Some lines, w'))
  /\ forall lines w',
       generate_csv data csv_output_path blobs_output_dir w
       = (Some lines, w') ->
       exists sorted,
         sorted_namespaces (jd_namespaces data) = Some sorted
         /\ namespace_rows lines = sorted.*2
         /\ sorted ≡ₚ jd_namespaces data
         /\ StronglySorted id_le sorted
         /\ w_files w' !! csv_output_path
            = Some (list_byte_of_string
                      (join_lines (map render_line lines)))
         /\ forall namespace_map',
              jd_namespaces data ≡ₚ namespace_map' ->
              NoDup ((fun item => default 0 (py_int item.1))
                       <$> jd_namespaces data) ->
              sorted_namespaces namespace_map' = Some sorted.
Proof.
  split; [apply generate_csv_returns|].
  intros lines w' Hrun.
  destruct (generate_csv_inv _ _ _ _ _ _ Hrun)
    as (sorted & w1 & Hsorted & Hloop & Hfile).
  destruct (sorted_namespaces_spec _ _ Hsorted) as (Hperm & Hord & Hindep).
  apply namespace_loop_lines in Hloop as (Hrows & _ & _).
  exists sorted. by repeat split.
Qed.

Lemma namespace_rows_sorted_by_id_witness :
  exists sorted,
    sorted_namespaces (jd_namespaces unordered_record) = Some sorted
    /\ namespace_rows unordered_lines = sorted.*2
    /\ sorted ≡ₚ jd_namespaces unordered_record
    /\ StronglySorted id_le sorted
    /\ w_files (generate_csv unordered_record "out.csv" "blobs"
                  empty_world).2 !! "out.csv"
       = Some (list_byte_of_string
                 (join_lines (map render_line unordered_lines)))
    /\ forall namespace_map',
         jd_namespaces unordered_record ≡ₚ namespace_map' ->
         NoDup ((fun item => default 0 (py_int item.1))
                  <$> jd_namespaces unordered_record) ->
         sorted_namespaces namespace_map' = Some sorted.
Proof.
  apply (proj2 (namespace_rows_sorted_by_id unordered_record "out.csv"
                  "blobs" empty_world) unordered_lines).
  vm_compute. reflexivity.
Defined.

Lemma type_mapping_keys t :
  is_Some (assoc_get t type_mapping) <->
  t ∈ ["U8"; "I8"; "U16"; "I16"; "U32"; "I32"; "U64"; "I64"; "BLOB_DATA";
       "BLOB_IDX"].
Proof.
  unfold type_mapping. cbn [assoc_get].
  repeat match goal with
         | |- context [String.eqb ?a t] =>
             destruct (String.eqb_spec a t) as [<-|?];
             [split; intros _; [by repeat constructor | by eexists]|]
         end.
  split; [by intros [? ?]|]. intros Hin.
  repeat (apply elem_of_cons in Hin as [->|Hin]; [done|]).
  by apply elem_of_nil in Hin.
Qed.

(** C10, as the code has it. STR and BLOB are not keys of the
    type-to-encoding table, so their encoding is Python's [None]. For an
    entry of type STR or BLOB whose namespace name is the name of some id
    in the record's namespace table, [generate_csv] writes a data row
    whose encoding field is the text [None]. *)
Theorem str_blob_encoding_none data csv_output_path blobs_output_dir
    w lines w' entry ns_id :
  generate_csv data csv_output_path blobs_output_dir w = (Some lines, w') ->
  entry ∈ jd_entries data ->
  e_type entry = "STR" \/ e_type entry = "BLOB" ->
  (ns_id, e_namespace entry) ∈ jd_namespaces data ->
  (forall t,
     is_Some (assoc_get t type_mapping) <->
     t ∈ ["U8"; "I8"; "U16"; "I16"; "U32"; "I32"; "U64"; "I64"; "BLOB_DATA";
          "BLOB_IDX"])
  /\ map_type_encoding (e_type entry) = None
  /\ exists v,
       e_value entry = Some v
       /\ DataLine (e_key entry) "None" (value_str v) ∈ lines
       /\ render_line (DataLine (e_key entry) "None" (value_str v))
          = e_key entry +:+ ",data,None," +:+ value_str v.
Proof.
  intros Hrun Hentry Htype Hns.
  destruct (generate_csv_inv _ _ _ _ _ _ Hrun)
    as (sorted & w1 & Hsorted & Hloop & _).
  destruct (sorted_namespaces_spec _ _ Hsorted) as (Hperm & _ & _).
  apply namespace_loop_lines in Hloop as (_ & _ & Hin).
  destruct (Hin ns_id (e_namespace entry) entry) as (v & Hv & Hline).
  - by rewrite Hperm.
  - rewrite dict_get_group. by apply list_elem_of_filter.
  - by destruct Htype as [-> | ->].
  - by destruct Htype as [-> | ->].
  - assert (Henc : map_type_encoding (e_type entry) = None)
      by (by destruct Htype as [-> | ->]).
    rewrite Henc in Hline. split; [apply type_mapping_keys|].
    split; [done|]. by exists v.
Qed.

Lemma str_blob_encoding_none_witness :
  (forall t,
     is_Some (assoc_get t type_mapping) <->
     t ∈ ["U8"; "I8"; "U16"; "I16"; "U32"; "I32"; "U64"; "I64"; "BLOB_DATA";
          "BLOB_IDX"])
  /\ map_type_encoding (e_type (greeting_entry "wifi")) = None
  /\ exists v,
       e_value (greeting_entry "wifi") = Some v
       /\ DataLine (e_key (greeting_entry "wifi")) "None" (value_str v)
          ∈ listed_lines
       /\ render_line
            (DataLine (e_key (greeting_entry "wifi")) "None" (value_str v))
          = e_key (greeting_entry "wifi") +:+ ",data,None," +:+ value_str v.
Proof.
  apply (str_blob_encoding_none listed_record "out.csv" "blobs" empty_world
           listed_lines
           (generate_csv listed_record "out.csv" "blobs" empty_world).2
           (greeting_entry "wifi") "5").
  - vm_compute. reflexivity.
  - vm_compute. repeat constructor.
  - left. reflexivity.
  - vm_compute. repeat constructor.
Defined.

(** C10 as stated fails for an entry whose namespace name is not in the
    table: [two_page_file] decodes to a STR entry of the never-defined
    namespace 1, named [NS_1], beside the table [{0: "System"}]; the
    encoder writes the header and the namespace row only, and no data row
    for the entry. *)
Lemma unlisted_namespace_entry_has_no_row :
  (read_nvs_pages two_page_file).1 = jd_entries unlisted_record
  /\ map_to_list (read_nvs_pages two_page_file).2 = [(0, "System")]
  /\ greeting_entry "NS_1" ∈ jd_entries unlisted_record
  /\ e_type (greeting_entry "NS_1") = "STR"
  /\ (generate_csv unlisted_record "out.csv" "blobs" empty_world).1
     = Some [Header; NamespaceLine "System"]
  /\ forall key encoding value_text,
       DataLine key encoding value_text ∉ [Header; NamespaceLine "System"].
Proof.
  split; [vm_compute; reflexivity|].
  split; [vm_compute; reflexivity|].
  split; [vm_compute; repeat constructor|].
  split; [reflexivity|].
  split; [vm_compute; reflexivity|].
  intros key encoding value_text Hin.
  apply elem_of_cons in Hin as [Hin|Hin]; [discriminate|].
  apply elem_of_cons in Hin as [Hin|Hin]; [discriminate|].
  by apply elem_of_nil in Hin.
Qed.

(** C8. A Written BLOB_IDX slot with a valid span is decoded into an
    entry of type BLOB_IDX whose value holds the three fields of the index.
    When the scan of a file comes to such a slot, that entry is in the
    structured record [read_nvs_pages] returns for the file, after the
    entries decoded before it. The output of [generate_csv], rows and
    files, is the same as for the record without its BLOB_IDX entries. No
    entry that [read_nvs_pages] returns has type ANY. *)
Theorem blob_idx_dropped_any_absent :
  (forall entries bitmap st entry b_type b_span,
     (ls_i st < 126)%nat ->
     is_written bitmap (ls_i st) = true ->
     entries !! ls_i st = Some entry ->
     length entry = 32%nat ->
     entry !! 1%nat = Some b_type ->
     entry !! 2%nat = Some b_span ->
     byte_val b_type = 0x48 ->
     valid_span (ls_i st) (byte_val b_span) = true ->
     exists e,
       loop_body entries bitmap st
       = mk_loop (ls_i st + Z.to_nat (byte_val b_span)) (ls_namespaces st)
           (ls_result st ++ [e])
       /\ e_type e = "BLOB_IDX"
       /\ e_value e
          = Some (VIdx (le_unsigned (slice 24 28 entry))
                    (le_unsigned (slice 29 30 entry))
                    (le_unsigned (slice 30 31 entry))))
  /\ (forall content k entries bitmap n entry b_type b_span,
     let sc := page_state content k in
     let st := slot_state entries bitmap (sc_namespaces sc) n in
     (sc_sector_pos sc < length content)%nat ->
     page_view content (sc_sector_pos sc) = Some (entries, bitmap) ->
     (ls_i st < 126)%nat ->
     is_written bitmap (ls_i st) = true ->
     entries !! ls_i st = Some entry ->
     length entry = 32%nat ->
     entry !! 1%nat = Some b_type ->
     entry !! 2%nat = Some b_span ->
     byte_val b_type = 0x48 ->
     valid_span (ls_i st) (byte_val b_span) = true ->
     exists e,
       loop_body entries bitmap st
       = mk_loop (ls_i st + Z.to_nat (byte_val b_span)) (ls_namespaces st)
           (ls_result st ++ [e])
       /\ e_type e = "BLOB_IDX"
       /\ e_value e
          = Some (VIdx (le_unsigned (slice 24 28 entry))
                    (le_unsigned (slice 29 30 entry))
                    (le_unsigned (slice 30 31 entry)))
       /\ (sc_result sc ++ ls_result st ++ [e])
          `prefix_of` (read_nvs_pages content).1
       /\ e ∈ (read_nvs_pages content).1)
  /\ (forall data csv_output_path blobs_output_dir w,
        generate_csv (without_blob_idx data) csv_output_path
          blobs_output_dir w
        = generate_csv data csv_output_path blobs_output_dir w)
  /\ (forall content,
        Forall (fun e => e_type e <> "ANY") (read_nvs_pages content).1).
Proof.
  split; [apply blob_idx_decoded|].
  split; [|split; [apply generate_csv_without_blob_idx
                  |apply read_nvs_pages_no_any]].
  intros content k entries bitmap n entry b_type b_span sc st
    Hpos Hview Hi Hw He Hlen H1 H2 Htype Hspan.
  destruct (blob_idx_decoded entries bitmap st entry b_type b_span)
    as (e & Hbody & He_type & He_value); try done.
  assert (Hres : ls_result (loop_body entries bitmap st)
                 = ls_result st ++ [e]) by (by rewrite Hbody).
  pose proof (appended_entry_in_result content k entries bitmap n e
                Hpos Hview Hi Hres) as Hprefix.
  fold sc in Hprefix. fold st in Hprefix.
  exists e. repeat split; try done.
  destruct Hprefix as [tail ->].
  rewrite !elem_of_app. left. right. right. by apply list_elem_of_singleton.
Qed.

Lemma blob_idx_dropped_any_absent_witness :
  exists e,
    e_type e = "BLOB_IDX"
    /\ e_value e
       = Some (VIdx (le_unsigned (slice 24 28 blob_idx_slot))
                 (le_unsigned (slice 29 30 blob_idx_slot))
                 (le_unsigned (slice 30 31 blob_idx_slot)))
    /\ e ∈ (read_nvs_pages blob_idx_file).1.
Proof.
  destruct (proj1 (proj2 blob_idx_dropped_any_absent) blob_idx_file 0%nat
              blob_idx_entries blob_idx_bitmap 0%nat blob_idx_slot
              (byte_of_Z 0x48) (byte_of_Z 1))
    as (e & _ & He_type & He_value & _ & Hin).
  - apply Nat.ltb_lt. vm_compute. reflexivity.
  - vm_compute. reflexivity.
  - apply Nat.ltb_lt. vm_compute. reflexivity.
  - reflexivity.
  - reflexivity.
  - reflexivity.
  - reflexivity.
  - reflexivity.
  - reflexivity.
  - reflexivity.
  - by exists e.
Defined.

Import NvsShape.

(** ** The state bitmap *)

Lemma str_index_of_list l n :
  str_index (string_of_list_ascii l) n = l !! n.
Proof.
  unfold str_index. revert n.
  induction l as [|c l IH]; intros n; [by destruct n|].
  destruct n as [|n]; simpl; [done | apply IH].
Qed.

Lemma list_ascii_of_append s1 s2 :
  list_ascii_of_string (s1 +:+ s2)
  = list_ascii_of_string s1 ++ list_ascii_of_string s2.
Proof. induction s1 as [|c s IH]; simpl; [done|]. by rewrite IH. Qed.

Lemma length_of_list l : String.length (string_of_list_ascii l) = length l.
Proof. induction l as [|c l IH]; simpl; [done|]. by rewrite IH. Qed.

Lemma mapM_cons_eq {A B} (f : A -> option B) x l :
  mapM f (x :: l) = y ← f x; k ← mapM f l; Some (y :: k).
Proof. reflexivity. Qed.

Lemma bit_pair v s :
  0 <= s ->
  Z.land (Z.shiftr v s) 3
  = 2 * Z.b2z (Z.testbit v (s + 1)) + Z.b2z (Z.testbit v s).
Proof.
  intros Hs. pose proof (Z.land_ones (Z.shiftr v s) 2) as Hland.
  change (Z.ones 2) with 3 in Hland. change (2 ^ 2) with 4 in Hland.
  rewrite Hland by lia.
  rewrite !Z.testbit_spec' by lia. rewrite Z.shiftr_div_pow2 by lia.
  rewrite Z.pow_add_r by lia. change (2 ^ 1) with 2.
  rewrite <- Z.div_div by lia.
  set (y := v / 2 ^ s).
  pose proof (Z.div_mod y 2). pose proof (Z.div_mod (y / 2) 2).
  pose proof (Z.mod_pos_bound y 2). pose proof (Z.mod_pos_bound (y / 2) 2).
  pose proof (Z.div_mod y 4). pose proof (Z.mod_pos_bound y 4).
  lia.
Qed.

Lemma state_code_raw bitmap n :
  state_code bitmap n
  = b ← bitmap !! (n * 2 / 8)%nat;
    Some (Z.land (Z.shiftr (byte_val b) (6 - Z.of_nat (n * 2 mod 8))) 3).
Proof.
  unfold state_code.
  change 8%nat with (4 * 2)%nat.
  rewrite Nat.Div0.div_mul_cancel_r by lia.
  rewrite Nat.Div0.mul_mod_distr_r.
  destruct (bitmap !! (n / 4)%nat) as [b|]; cbn [mbind option_bind]; [|done].
  pose proof (Nat.mod_upper_bound n 4).
  replace (6 - Z.of_nat (n mod 4 * 2)) with (6 - 2 * Z.of_nat (n mod 4))
    by lia.
  by rewrite bit_pair by lia.
Qed.

Lemma decode_bitmap_codes bitmap nums : forall decoded,
  decode_bitmap bitmap nums decoded
  = codes ← mapM (state_code bitmap) nums;
    Some (string_of_list_ascii
            (list_ascii_of_string decoded ++ map str_of_digit codes)).
Proof.
  induction nums as [|n nums IH]; intros decoded.
  - simpl. by rewrite app_nil_r, string_of_list_ascii_of_string.
  - cbn [decode_bitmap]. rewrite mapM_cons_eq, state_code_raw.
    destruct (bitmap !! (n * 2 / 8)%nat) as [b|];
      cbn [mbind option_bind] in *; try done.
    rewrite IH.
    destruct (mapM (state_code bitmap) nums) as [codes|];
      cbn [mbind option_bind mret option_ret]; [|done].
    do 2 f_equal. cbn [map].
    rewrite list_ascii_of_append. by rewrite <- app_assoc.
Qed.

Lemma state_code_range bitmap n code :
  state_code bitmap n = Some code -> 0 <= code <= 3.
Proof.
  unfold state_code.
  destruct (bitmap !! _) as [b|]; cbn [mbind option_bind]; [|done].
  intros [= <-]. do 2 destruct (Z.testbit _ _); simpl; lia.
Qed.

Lemma int_of_str_of_digit code :
  0 <= code <= 3 -> int_of_char (str_of_digit code) = Some code.
Proof.
  intros H.
  assert (code = 0 \/ code = 1 \/ code = 2 \/ code = 3) as [->|[->|[->| ->]]]
    by lia; reflexivity.
Qed.

Lemma state_code_is_Some bitmap n :
  (n < 126)%nat -> (32 <= length bitmap)%nat -> is_Some (state_code bitmap n).
Proof.
  intros Hn Hlen. unfold state_code.
  destruct (lookup_lt_is_Some_2 bitmap (n / 4)) as [b ->]; [|by eexists].
  pose proof (Nat.Div0.div_le_mono n 125 4).
  change (125 / 4)%nat with 31%nat in *. lia.
Qed.

Lemma decode_bitmap_short bitmap :
  (length bitmap < 32)%nat ->
  decode_bitmap bitmap (seq 0 126) EmptyString = None.
Proof.
  intros Hlen. rewrite decode_bitmap_codes.
  destruct (mapM (state_code bitmap) (seq 0 126)) as [codes|] eqn:Hcodes;
    [|done].
  exfalso.
  assert (Hsome : is_Some (mapM (state_code bitmap) (seq 0 126)))
    by (by eexists).
  apply mapM_is_Some_1 in Hsome. rewrite Forall_forall in Hsome.
  destruct (Hsome 125%nat) as [code Hc].
  { apply elem_of_seq. lia. }
  unfold state_code in Hc.
  rewrite lookup_ge_None_2 in Hc; [done|].
  change (125 / 4)%nat with 31%nat. lia.
Qed.

Lemma decode_bitmap_full bitmap :
  (32 <= length bitmap)%nat ->
  exists codes,
    mapM (state_code bitmap) (seq 0 126) = Some codes
    /\ decode_bitmap bitmap (seq 0 126) EmptyString
       = Some (string_of_list_ascii (map str_of_digit codes)).
Proof.
  intros Hlen. rewrite decode_bitmap_codes.
  destruct (mapM_is_Some_2 (state_code bitmap) (seq 0 126))
    as [codes Hcodes].
  { apply Forall_forall. intros n Hn%elem_of_seq.
    apply state_code_is_Some; [lia|done]. }
  exists codes. by rewrite Hcodes.
Qed.

(** X1. The 32-byte state bitmap of a page is rendered as 126 digits, one
    per slot: the digit of slot [n] is the two-bit field of byte [n / 4]
    that starts [2 * (n mod 4)] bits below the top, and the slot counts as
    Written exactly when that field is 2. With fewer than 32 bytes the
    rendering raises. *)
Theorem bitmap_decoded (entry_state_bitmap : list byte) :
  ((32 <= length entry_state_bitmap)%nat ->
   exists decoded,
     decode_bitmap entry_state_bitmap (seq 0 126) EmptyString = Some decoded
     /\ String.length decoded = 126%nat
     /\ forall n, (n < 126)%nat ->
          exists code,
            state_code entry_state_bitmap n = Some code
            /\ 0 <= code <= 3
            /\ str_index decoded n = Some (str_of_digit code)
            /\ is_written decoded n = (code =? 2))
  /\ ((length entry_state_bitmap < 32)%nat ->
      decode_bitmap entry_state_bitmap (seq 0 126) EmptyString = None).
Proof.
  split; [|apply decode_bitmap_short].
  intros Hlen. destruct (decode_bitmap_full _ Hlen) as (codes & Hcodes & ->).
  eexists. split; [done|].
  apply mapM_Some in Hcodes.
  pose proof (Forall2_length _ _ _ Hcodes) as Hl. rewrite length_seq in Hl.
  split; [by rewrite length_of_list, length_map|].
  intros n Hn.
  destruct (lookup_lt_is_Some_2 codes n) as [code Hcode]; [lia|].
  assert (Hsc : state_code entry_state_bitmap n = Some code).
  { eapply (Forall2_lookup_lr _ _ _ n n code) in Hcodes; [done| |done].
    rewrite lookup_seq. split; [done|lia]. }
  pose proof (state_code_range _ _ _ Hsc) as Hr.
  exists code. repeat split; try done; try lia.
  + by rewrite str_index_of_list, list_lookup_fmap, Hcode.
  + unfold is_written.
    rewrite str_index_of_list, list_lookup_fmap, Hcode. simpl.
    by rewrite int_of_str_of_digit.
Qed.

Lemma bitmap_decoded_witness :
  (exists decoded,
     decode_bitmap (bitmap_bytes 32 [2; 0; 3]) (seq 0 126) EmptyString
     = Some decoded
     /\ String.length decoded = 126%nat
     /\ forall n, (n < 126)%nat ->
          exists code,
            state_code (bitmap_bytes 32 [2; 0; 3]) n = Some code
            /\ 0 <= code <= 3
            /\ str_index decoded n = Some (str_of_digit code)
            /\ is_written decoded n = (code =? 2))
  /\ decode_bitmap (bitmap_bytes 31 [2; 0; 3]) (seq 0 126) EmptyString = None.
Proof.
  split.
  - apply (bitmap_decoded (bitmap_bytes 32 [2; 0; 3])). vm_compute. lia.
  - apply (bitmap_decoded (bitmap_bytes 31 [2; 0; 3])).
    apply Nat.ltb_lt. vm_compute. reflexivity.
Defined.

(** ** The shape of a decoded entry *)

Lemma le_unsigned_bound bs :
  0 <= le_unsigned bs < 2 ^ (8 * Z.of_nat (length bs)).
Proof.
  induction bs as [|b bs IH]; [simpl; lia|].
  cbn [le_unsigned length]. pose proof (byte_val_range b).
  replace (8 * Z.of_nat (S (length bs))) with (8 + 8 * Z.of_nat (length bs))
    by lia.
  rewrite Z.pow_add_r by lia. change (2 ^ 8) with 256. lia.
Qed.

Lemma unpack_unsigned_range width bs v :
  unpack_unsigned width bs = Some v -> in_int_range width false v.
Proof.
  intros [<- ->]%unpack_unsigned_Some. apply le_unsigned_bound.
Qed.

Lemma unpack_signed_range width bs v :
  (0 < width)%nat ->
  unpack_signed width bs = Some v -> in_int_range width true v.
Proof.
  intros Hw. unfold unpack_signed, in_int_range.
  destruct (unpack_unsigned width bs) as [u|] eqn:Hu; [|done].
  apply unpack_unsigned_range in Hu. unfold in_int_range in Hu.
  cbn [mbind option_bind]. intros [= <-].
  replace (8 * Z.of_nat width) with (1 + (8 * Z.of_nat width - 1)) in * by lia.
  rewrite Z.pow_add_r in * by lia. change (2 ^ 1) with 2 in *.
  replace (1 + (8 * Z.of_nat width - 1) - 1) with (8 * Z.of_nat width - 1)
    by lia.
  destruct (u <? 2 ^ (8 * Z.of_nat width - 1)) eqn:Hlt; lia.
Qed.

Lemma length_string_of_list l :
  String.length (string_of_list_ascii l) = length l.
Proof. induction l as [|c l IH]; simpl; [done|]. by rewrite IH. Qed.

Lemma length_decode_ascii_ignore l :
  (String.length (decode_ascii_ignore l) <= length l)%nat.
Proof.
  unfold decode_ascii_ignore.
  rewrite length_string_of_list, length_map. apply length_filter.
Qed.

Lemma ascii_only_decode l : ascii_only (decode_ascii_ignore l) = true.
Proof.
  unfold ascii_only, decode_ascii_ignore.
  rewrite list_ascii_of_string_of_list_ascii. apply forallb_forall.
  intros c Hc%in_map_iff. destruct Hc as (b & <- & Hb).
  apply list_elem_of_In, list_elem_of_filter in Hb as [Hb _].
  rewrite ascii_of_byte_via_N.
  rewrite N_ascii_embedding by (unfold byte_val in Hb; lia).
  unfold byte_val in Hb. apply N.ltb_lt. lia.
Qed.

Lemma length_rstrip_nul l : (length (rstrip_nul l) <= length l)%nat.
Proof.
  induction l as [|b l IH]; [done|]. cbn [rstrip_nul].
  destruct (rstrip_nul l); [case_decide; simpl; lia | simpl in *; lia].
Qed.

Lemma key_length (entry : list byte) :
  (String.length (decode_ascii_ignore (rstrip_nul (slice 8 24 entry))) <= 16)%nat.
Proof.
  pose proof (length_decode_ascii_ignore (rstrip_nul (slice 8 24 entry))).
  pose proof (length_rstrip_nul (slice 8 24 entry)).
  pose proof (length_slice 8 24 entry). lia.
Qed.

Lemma take_size_bound {A} size (l : list A) :
  0 <= size -> Z.of_nat (length (take (Z.to_nat size) l)) <= size.
Proof. intros H. rewrite length_take. lia. Qed.

Lemma decoded_text_bound size l :
  0 <= size ->
  Z.of_nat (String.length (decode_ascii_ignore (take (Z.to_nat size) l)))
  <= size.
Proof.
  intros H. pose proof (take_size_bound size l H).
  pose proof (length_decode_ascii_ignore (take (Z.to_nat size) l)). lia.
Qed.

Lemma collect_chunks_Some_length entries i span data_chunks chunks :
  1 <= span <= 126 - Z.of_nat i ->
  (i < length entries)%nat ->
  collect_chunks entries i (seq 1 (Z.to_nat span - 1)) data_chunks
  = Some chunks ->
  (i + Z.to_nat span <= length entries)%nat.
Proof.
  intros Hspan Hi Hchunks.
  destruct (decide (i + Z.to_nat span <= length entries)%nat) as [|Hshort];
    [done|].
  rewrite collect_chunks_short in Hchunks; [done|lia..].
Qed.

Lemma byte_at_range entry k : 0 <= byte_at entry k <= 255.
Proof.
  unfold byte_at. destruct (entry !! k) as [b|]; simpl; [|done].
  pose proof (byte_val_range b). lia.
Qed.

Ltac no_emit Hres :=
  exfalso; simpl in Hres; apply (f_equal length) in Hres;
  rewrite length_app in Hres; simpl in Hres; lia.

Ltac header_bytes :=
  repeat match goal with
         | H : byte_at _ _ = byte_val _ |- _ => rewrite H
         end.

Lemma unpack_unsigned_mod width bs v :
  unpack_unsigned width bs = Some v ->
  v mod 2 ^ (8 * Z.of_nat width) = le_unsigned bs.
Proof.
  intros Hu. pose proof (unpack_unsigned_range _ _ _ Hu) as Hr.
  apply unpack_unsigned_Some in Hu as [_ <-]. unfold in_int_range in Hr.
  by apply Z.mod_small.
Qed.

Lemma unpack_signed_mod width bs v :
  unpack_signed width bs = Some v ->
  v mod 2 ^ (8 * Z.of_nat width) = le_unsigned bs.
Proof.
  unfold unpack_signed.
  destruct (unpack_unsigned width bs) as [u|] eqn:Hu; [|done].
  cbn [mbind option_bind]. intros [= <-].
  apply unpack_unsigned_mod in Hu as <-.
  destruct (u <? _); [done|].
  replace (u - 2 ^ (8 * Z.of_nat width))
    with (u + (-1) * 2 ^ (8 * Z.of_nat width)) by lia.
  apply Z.mod_add. lia.
Qed.

Ltac not_variable :=
  unfold is_variable_length;
  replace (byte_val _ =? 33) with false by lia;
  replace (byte_val _ =? 65) with false by lia;
  replace (byte_val _ =? 66) with false by lia.

Ltac int_case Hres u Hrange Hmod :=
  let v := fresh "v" in
  let Hu := fresh "Hu" in
  destruct u as [v|] eqn:Hu; simpl in *; [|no_emit Hres];
  apply app_inv_head in Hres; injection Hres as <-;
  split; header_bytes; try done;
  [ unfold value_well_typed; simpl;
    eexists _, _; (split; [reflexivity|]); split; [|done];
    eapply Hrange; [..|exact Hu]; lia
  | simpl; by not_variable
  | exact (Hmod _ _ _ Hu)
  | by not_variable ].

Ltac var_shape Hres entry :=
  let size := fresh "size" in
  let Hu := fresh "Hu" in
  let Hov := fresh "Hov" in
  let chunks := fresh "chunks" in
  let Hchunks := fresh "Hchunks" in
  destruct (unpack_unsigned 2 (slice 0 2 (drop 24 entry))) as [size|] eqn:Hu;
    simpl in *; [|no_emit Hres];
  destruct ((size <? 0) || (size >? 4032)) eqn:Hov; [no_emit Hres|];
  match type of Hres with
  | context [collect_chunks ?a ?b ?c ?d] =>
      destruct (collect_chunks a b c d) as [chunks|] eqn:Hchunks
  end; simpl in *; [|no_emit Hres];
  apply app_inv_head in Hres; injection Hres as <-;
  pose proof Hu as Hsize; rewrite slice_drop_24_2 in Hsize;
  apply unpack_unsigned_Some in Hsize as [_ Hsize];
  apply unpack_unsigned_range in Hu; unfold in_int_range in Hu;
  split; header_bytes; try done;
  [ unfold value_well_typed; simpl;
    exists size; split; [done|]; split; [lia|];
    first
      [ left; split; [done|]; split; [apply ascii_only_decode|];
        apply decoded_text_bound; lia
      | right; split; [by auto|]; eexists; split; [reflexivity|];
        apply take_size_bound; lia ]
  | simpl; unfold is_variable_length, declared_size; rewrite <- Hsize;
    first [ by replace (byte_val _ =? 33) with true by lia
          | by replace (byte_val _ =? 65) with true by lia;
               rewrite orb_true_r
          | by replace (byte_val _ =? 66) with true by lia;
               rewrite orb_true_r ]
  | intros _; simpl; eapply collect_chunks_Some_length; [..|exact Hchunks];
    [lia | by eapply lookup_lt_Some] ].

Lemma emitted_entry_shape entries bitmap st e :
  ls_result (loop_body entries bitmap st) = ls_result st ++ [e] ->
  exists entry,
    entries !! ls_i st = Some entry
    /\ decoded_from entries bitmap st entry e (loop_body entries bitmap st).
Proof.
  unfold loop_body, try_slot.
  destruct (str_index bitmap (ls_i st)) as [c|] eqn:Hc; simpl;
    [|intros Hres; no_emit Hres].
  destruct (int_of_char c) as [s|] eqn:Hs; simpl;
    [|intros Hres; no_emit Hres].
  destruct (s =? 2) eqn:Hs2; simpl; [|intros Hres; no_emit Hres].
  assert (Hw : is_written bitmap (ls_i st) = true).
  { unfold is_written. by rewrite Hc, Hs. }
  destruct (entries !! ls_i st) as [entry|] eqn:He; simpl;
    [|intros Hres; no_emit Hres].
  destruct (entry !! 0%nat) as [b_ns|] eqn:H0; simpl;
    [|intros Hres; no_emit Hres].
  destruct (entry !! 1%nat) as [b_type|] eqn:H1; simpl;
    [|intros Hres; no_emit Hres].
  destruct (entry !! 2%nat) as [b_span|] eqn:H2; simpl;
    [|intros Hres; no_emit Hres].
  destruct (entry !! 3%nat) as [b_chunk|] eqn:H3; simpl;
    [|intros Hres; no_emit Hres].
  destruct (nvs_types (byte_val b_type)) as [tname|] eqn:Ht;
    [|intros Hres; no_emit Hres].
  destruct ((byte_val b_span <? 1)
            || (byte_val b_span >? 126 - Z.of_nat (ls_i st))) eqn:Hsp;
    [intros Hres; no_emit Hres|].
  assert (Hv : valid_span (ls_i st) (byte_val b_span) = true).
  { unfold valid_span. lia. }
  intros Hres. exists entry. split; [done|].
  assert (Hb0 : byte_at entry 0 = byte_val b_ns)
    by (unfold byte_at; by rewrite H0).
  assert (Hb1 : byte_at entry 1 = byte_val b_type)
    by (unfold byte_at; by rewrite H1).
  assert (Hb2 : byte_at entry 2 = byte_val b_span)
    by (unfold byte_at; by rewrite H2).
  assert (Hb3 : byte_at entry 3 = byte_val b_chunk)
    by (unfold byte_at; by rewrite H3).
  pose proof Ht as Ht'. unfold nvs_types in Ht'.
  repeat match type of Ht' with
         | (if ?b then _ else _) = _ => destruct b eqn:?
         end; simplify_eq; simpl in *.
  - (* U8 *)
    destruct (unpack_unsigned 1 _) as [v|] eqn:Hu; simpl in *;
      [|no_emit Hres].
    assert (Hval : value_well_typed
      (set_value (mk_entry (decode_ascii_ignore (rstrip_nul (slice 8 24 entry)))
                    "U8" (namespace_name (ls_namespaces st) (byte_val b_ns))
                    (byte_val b_span) (byte_val b_chunk) None None) (VInt v))).
    { unfold value_well_typed. simpl. exists 1%nat, false.
      split; [done|]. split; [|done]. by eapply unpack_unsigned_range. }
    assert (Hvl : is_variable_length (byte_val b_type) = false).
    { unfold is_variable_length. lia. }
    pose proof (unpack_unsigned_mod _ _ _ Hu) as Hmod.
    destruct (byte_val b_ns =? 0) eqn:Hns; simpl in Hres;
      apply app_inv_head in Hres; injection Hres as <-;
      split; header_bytes; try done; simpl; rewrite ?Hns, ?Hvl; done.
  - int_case Hres (unpack_signed 1 (slice 0 1 (drop 24 entry)))
      unpack_signed_range unpack_signed_mod.
  - int_case Hres (unpack_unsigned 2 (slice 0 2 (drop 24 entry)))
      unpack_unsigned_range unpack_unsigned_mod.
  - int_case Hres (unpack_signed 2 (slice 0 2 (drop 24 entry)))
      unpack_signed_range unpack_signed_mod.
  - int_case Hres (unpack_unsigned 4 (slice 0 4 (drop 24 entry)))
      unpack_unsigned_range unpack_unsigned_mod.
  - int_case Hres (unpack_signed 4 (slice 0 4 (drop 24 entry)))
      unpack_signed_range unpack_signed_mod.
  - int_case Hres (unpack_unsigned 8 (slice 0 8 (drop 24 entry)))
      unpack_unsigned_range unpack_unsigned_mod.
  - int_case Hres (unpack_signed 8 (slice 0 8 (drop 24 entry)))
      unpack_signed_range unpack_signed_mod.
  - var_shape Hres entry.
  - var_shape Hres entry.
  - var_shape Hres entry.
  - (* BLOB_IDX *)
    destruct (unpack_unsigned 4 (slice 0 4 (drop 24 entry))) as [size|] eqn:Hu1;
      simpl in *; [|no_emit Hres].
    destruct (unpack_unsigned 1 (slice 5 6 (drop 24 entry))) as [cc|] eqn:Hu2;
      simpl in *; [|no_emit Hres].
    destruct (unpack_unsigned 1 (slice 6 7 (drop 24 entry))) as [cs|] eqn:Hu3;
      simpl in *; [|no_emit Hres].
    apply app_inv_head in Hres; injection Hres as <-.
    apply unpack_unsigned_range in Hu1, Hu2, Hu3.
    unfold in_int_range in *.
    split; header_bytes; try done; simpl; by not_variable.
  - (* ANY *) no_emit Hres.
Qed.

Lemma loop_body_result_cases entries bitmap st :
  ls_result (loop_body entries bitmap st) = ls_result st
  \/ exists e, ls_result (loop_body entries bitmap st) = ls_result st ++ [e].
Proof.
  destruct (loop_body_kind entries bitmap st); simpl; eauto.
Qed.

Lemma emitted_entry_well_formed entries bitmap st e :
  ls_result (loop_body entries bitmap st) = ls_result st ++ [e] ->
  entry_well_formed e.
Proof.
  intros (entry & _ & Hd)%emitted_entry_shape.
  pose proof (proj1 (valid_span_range _ _) (df_valid_span _ _ _ _ _ _ Hd))
      as Hspan.
  pose proof (byte_at_range entry 3) as Hchunk.
  rewrite <- (df_chunk_index _ _ _ _ _ _ Hd) in Hchunk.
  repeat split; try lia.
  - rewrite (df_key _ _ _ _ _ _ Hd). apply key_length.
  - rewrite (df_key _ _ _ _ _ _ Hd). apply ascii_only_decode.
  - apply (df_value _ _ _ _ _ _ Hd).
Qed.

(** A property of every appended entry holds of every entry of the
    result. *)
Section every_entry.
Variable P : entry_data -> Prop.
Hypothesis emitted_P : forall entries bitmap st e,
  ls_result (loop_body entries bitmap st) = ls_result st ++ [e] -> P e.

Lemma slot_state_Forall entries bitmap ns n :
  Forall P (ls_result (slot_state entries bitmap ns n)).
Proof.
  induction n as [|n IH]; [constructor|].
  cbn [slot_state]. cbv zeta. case_decide; [|done].
  destruct (loop_body_result_cases entries bitmap
              (slot_state entries bitmap ns n)) as [-> | [e He]]; [done|].
  rewrite He. apply Forall_app. split; [done|].
  apply Forall_singleton. by eapply emitted_P.
Qed.

Lemma parse_nvs_entries_Forall entries bitmap ns page_num :
  Forall P (parse_nvs_entries entries bitmap ns page_num).1.
Proof.
  unfold parse_nvs_entries. cbn [fst]. rewrite <- slot_state_while_loop.
  apply slot_state_Forall.
Qed.

Lemma page_state_Forall content k :
  Forall P (sc_result (page_state content k)).
Proof.
  induction k as [|k IH]; [constructor|].
  cbn [page_state]. cbv zeta. case_decide; [|done].
  rewrite scan_body_view.
  destruct (page_view content _) as [[entries bitmap]|]; [|done].
  cbv zeta. cbn [sc_result]. apply Forall_app. split; [done|].
  apply parse_nvs_entries_Forall.
Qed.

Lemma read_nvs_pages_Forall content : Forall P (read_nvs_pages content).1.
Proof. rewrite read_nvs_pages_page_state. apply page_state_Forall. Qed.

End every_entry.

(** X2. Every entry [read_nvs_pages] returns, whatever the file holds, has
    a span between 1 and 126, a chunk index that fits a byte, a key of at
    most 16 seven-bit characters, and a value that agrees with its type:
    an integer within the range of its integer type and no size; for STR a
    seven-bit text no longer than the declared size, which is at most 4032;
    for BLOB and BLOB_DATA the hex text of at most that many bytes; for
    BLOB_IDX the three fields of the index. *)
Theorem decoded_entries_well_formed content :
  Forall entry_well_formed (read_nvs_pages content).1.
Proof.
  apply read_nvs_pages_Forall. apply emitted_entry_well_formed.
Qed.

(** ** Entries fit their page *)









(** ** Where the namespace table comes from *)

Lemma loop_body_quiet_or_emits entries bitmap st :
  (ls_result (loop_body entries bitmap st) = ls_result st
   /\ ls_namespaces (loop_body entries bitmap st) = ls_namespaces st)
  \/ exists e, ls_result (loop_body entries bitmap st) = ls_result st ++ [e].
Proof.
  destruct (loop_body_kind entries bitmap st); simpl; eauto.
Qed.

Lemma table_from_seed : table_from [] {[ 0 := "System" ]}.
Proof.
  intros id name [-> <-]%lookup_singleton_Some. by left.
Qed.

Lemma table_from_more earlier later ns :
  table_from earlier ns -> table_from (earlier ++ later) ns.
Proof.
  intros Hinv id name Hid.
  destruct (Hinv id name Hid) as [?|(e & He & ?)]; [by left|].
  right. exists e. split; [|done]. apply elem_of_app. by left.
Qed.

Lemma loop_body_table earlier entries bitmap st :
  table_from (earlier ++ ls_result st) (ls_namespaces st) ->
  table_from (earlier ++ ls_result (loop_body entries bitmap st))
    (ls_namespaces (loop_body entries bitmap st)).
Proof.
  intros Hinv.
  destruct (loop_body_quiet_or_emits entries bitmap st)
    as [[-> ->] | [e He]]; [done|].
  rewrite He.
  apply emitted_entry_shape in He as (entry & _ & Hd).
  rewrite (df_table _ _ _ _ _ _ Hd), app_assoc.
  destruct (e_value e) as [[v| |]|] eqn:Hval;
    try by apply table_from_more.
  destruct (String.eqb (e_type e) "U8" && (byte_at entry 0 =? 0)) eqn:Hdef;
    [|by apply table_from_more].
  apply andb_true_iff in Hdef as [Htype%String.eqb_eq _].
  intros id name Hid.
  destruct (decide (id = v)) as [->|Hne].
  - rewrite lookup_insert_eq in Hid. injection Hid as <-.
    right. exists e. split; [|done].
    apply elem_of_app. right. by apply list_elem_of_singleton.
  - rewrite lookup_insert_ne in Hid by done.
    by apply (table_from_more _ [e]) in Hinv; apply Hinv.
Qed.

Lemma slot_state_table earlier entries bitmap ns n :
  table_from earlier ns ->
  table_from (earlier ++ ls_result (slot_state entries bitmap ns n))
    (ls_namespaces (slot_state entries bitmap ns n)).
Proof.
  intros Hinv. induction n as [|n IH].
  - cbn. by rewrite app_nil_r.
  - cbn [slot_state]. cbv zeta. case_decide; [|done].
    by apply loop_body_table.
Qed.

Lemma page_state_table content k :
  table_from (sc_result (page_state content k))
    (sc_namespaces (page_state content k)).
Proof.
  induction k as [|k IH]; [apply table_from_seed|].
  cbn [page_state]. cbv zeta. case_decide; [|done].
  rewrite scan_body_view.
  destruct (page_view content _) as [[entries bitmap]|]; [|done].
  cbv zeta. cbn [sc_result sc_namespaces].
  unfold parse_nvs_entries. cbn [fst snd]. rewrite <- slot_state_while_loop.
  by apply slot_state_table.
Qed.

Lemma apply_defs_keeps defs : forall (ns : gmap Z string) id,
  is_Some (ns !! id) -> is_Some (apply_defs defs ns !! id).
Proof.
  induction defs as [|[k v] defs IH]; intros ns id Hid; [done|].
  change (apply_defs ((k, v) :: defs) ns)
    with (apply_defs defs (<[k := v]> ns)).
  apply IH. destruct (decide (k = id)) as [->|Hne].
  - rewrite lookup_insert_eq. by eexists.
  - by rewrite lookup_insert_ne.
Qed.

Lemma namespace_table_ids content id name :
  (read_nvs_pages content).2 !! id = Some name -> 0 <= id <= 255.
Proof.
  intros Hid.
  pose proof (read_nvs_pages_Forall _ emitted_entry_well_formed content)
    as Hwf.
  rewrite read_nvs_pages_page_state in *. cbn [fst snd] in *.
  destruct (page_state_table content _ id name Hid)
    as [[-> ->] | (e & He & Htype & Hval & Hkey)]; [lia|].
  rewrite Forall_forall in Hwf.
  destruct (Hwf e He) as (_ & _ & _ & _ & Hv).
  unfold value_well_typed in Hv. rewrite Hval, Htype in Hv.
  destruct Hv as (width & signed & [= <- <-] & Hrange & _).
  unfold in_int_range in Hrange. cbn in Hrange. lia.
Qed.

(** X5. The namespace table [read_nvs_pages] returns always has an entry
    for id 0, its ids fit a byte, and every name in it other than the
    seeded [0: "System"] was put there by a decoded U8 entry: the entry's
    value is the id and its key is the name. *)
Theorem namespace_table_provenance content :
  is_Some ((read_nvs_pages content).2 !! 0)
  /\ forall id name,
       (read_nvs_pages content).2 !! id = Some name ->
       0 <= id <= 255
       /\ ((id = 0 /\ name = "System")
           \/ exists e,
                e ∈ (read_nvs_pages content).1
                /\ e_type e = "U8"
                /\ e_value e = Some (VInt id)
                /\ e_key e = name).
Proof.
  split.
  - rewrite read_nvs_pages_page_state. cbn [snd].
    rewrite page_state_namespaces. apply apply_defs_keeps.
    rewrite lookup_singleton_eq. by eexists.
  - intros id name Hid. split; [by eapply namespace_table_ids|].
    rewrite read_nvs_pages_page_state in *. cbn [fst snd] in *.
    destruct (page_state_table content _ id name Hid)
      as [[-> ->] | (e & He & Htype & Hval & Hkey)]; [by left|].
    right. by exists e.
Qed.

Lemma namespace_table_provenance_witness :
  0 <= 5 <= 255
  /\ ((5 = 0 /\ "wifi" = "System")
      \/ exists e,
           e ∈ (read_nvs_pages ns_file).1
           /\ e_type e = "U8"
           /\ e_value e = Some (VInt 5)
           /\ e_key e = "wifi").
Proof.
  apply (proj2 (namespace_table_provenance ns_file) 5 "wifi").
  vm_compute. reflexivity.
Defined.

(** ** Files without a page to parse *)

Lemma page_inactive_skipped content sc :
  page_active content (sc_sector_pos sc) = false ->
  scan_body content sc = next_page sc.
Proof.
  intros Hp. apply inactive_page_skipped. intros raw Hraw.
  unfold page_active in Hp. rewrite Hraw in Hp. lia.
Qed.

Lemma no_active_page_at content k :
  no_active_page content = true ->
  (4096 * k < length content)%nat ->
  page_active content (4096 * k) = false.
Proof.
  unfold no_active_page. rewrite forallb_forall. intros Hall Hk.
  apply negb_true_iff, Hall, list_elem_of_In, elem_of_seq.
  split; [lia|].
  assert (k <= length content / 4096)%nat; [|lia].
  apply Nat.div_le_lower_bound; lia.
Qed.

Lemma page_state_no_active content k :
  no_active_page content = true ->
  sc_result (page_state content k) = []
  /\ sc_namespaces (page_state content k) = {[ 0 := "System" ]}.
Proof.
  intros Hno. induction k as [|k [IHr IHn]]; [by split|].
  cbn [page_state]. cbv zeta. case_decide as Hpos; [|done].
  rewrite page_inactive_skipped; [split; [exact IHr | exact IHn]|].
  pose proof (page_state_pos _ _ Hpos) as Hk. rewrite Hk in Hpos |- *.
  by apply no_active_page_at.
Qed.

(** X6. A file in which no 4096-byte stride starts with an ACTIVE or FULL
    state word (erased flash, an empty file, a file of other data) decodes
    to no entries and the seeded table [{0: "System"}]. *)
Theorem file_without_active_page content :
  no_active_page content = true ->
  read_nvs_pages content = ([], {[ 0 := "System" ]}).
Proof.
  intros Hno. rewrite read_nvs_pages_page_state.
  by destruct (page_state_no_active content (S (length content / 4096)) Hno)
    as [-> ->].
Qed.

Lemma file_without_active_page_witness :
  read_nvs_pages erased_flash = ([], {[ 0 := "System" ]}).
Proof.
  apply (file_without_active_page erased_flash). vm_compute. reflexivity.
Defined.

(** ** The layout of a page *)

Lemma mapM_default {A B} (f : A -> option B) (d : B) l : forall k,
  mapM f l = Some k -> k = map (fun x => default d (f x)) l.
Proof.
  induction l as [|x l IH]; intros k Hk.
  - by injection Hk as <-.
  - rewrite mapM_cons_eq in Hk.
    destruct (f x) as [y|] eqn:Hfx; cbn [mbind option_bind] in Hk; [|done].
    destruct (mapM f l) as [k'|]; cbn [mbind option_bind] in Hk; [|done].
    injection Hk as <-. cbn [map]. rewrite Hfx. cbn [default]. f_equal.
    by apply IH.
Qed.

Lemma read_entries_slots content n : forall p acc,
  (read_entries (mk_fh content p) n acc).1
  = acc ++ map (fun j => slice (p + 32 * j) (p + 32 * j + 32) content)
             (seq 0 (Nat.min n ((length content - p) / 32))).
Proof.
  induction n as [|n IH]; intros p acc.
  - cbn. by rewrite app_nil_r.
  - cbn [read_entries]. unfold fh_read. cbn [fh_content fh_pos].
    rewrite length_take, length_drop.
    case_decide as Hshort.
    + cbn [fst].
      replace ((length content - p) / 32)%nat with 0%nat.
      * by rewrite Nat.min_0_r, app_nil_r.
      * symmetry. apply Nat.div_small. lia.
    + replace (32 `min` (length content - p))%nat with 32%nat by lia.
      rewrite IH.
      assert (Hdiv : ((length content - p) / 32
                      = S ((length content - (p + 32)) / 32))%nat).
      { replace (length content - p)%nat
          with (1 * 32 + (length content - (p + 32)))%nat by lia.
        rewrite Nat.div_add_l by lia. lia. }
      rewrite Hdiv, <- Nat.succ_min_distr. cbn [seq map].
      rewrite <- app_assoc. cbn [app]. do 2 f_equal.
      * unfold slice. do 2 f_equal; lia.
      * rewrite <- seq_shift, map_map. apply map_ext. intros j.
        unfold slice. do 2 f_equal; lia.
Qed.

#[local] Opaque decode_bitmap read_entries.

Lemma page_view_layout content pos :
  page_view content pos
  = if page_active content pos && bool_decide (pos + 64 <= length content)%nat
    then Some (page_slots content pos, page_digits content pos)
    else None.
Proof.
  unfold page_view, page_active, fh_read, fh_seek. cbn [fh_content fh_pos].
  rewrite header_state_raw_read.
  destruct (unpack_unsigned 4 (take 4 (drop pos content))) as [raw|] eqn:Hraw;
    cbn [mbind option_bind]; [|done].
  apply unpack_unsigned_Some in Hraw as [Hl1 _].
  rewrite Hl1. rewrite length_take, length_drop in Hl1.
  destruct (unpack_unsigned 4 (take 4 (drop (pos + 4) content)))
    as [seq_no|] eqn:Hseq; cbn [mbind option_bind].
  2:{ apply eq_None_not_Some in Hseq.
      rewrite bool_decide_eq_false_2, andb_false_r; [done|].
      intros Hlen. apply Hseq. unfold unpack_unsigned.
      rewrite decide_True; [by eexists|].
      rewrite length_take, length_drop. lia. }
  apply unpack_unsigned_Some in Hseq as [Hl2 _].
  rewrite Hl2. rewrite length_take, length_drop in Hl2.
  destruct (take 1 (drop (pos + 4 + 4) content) !! 0%nat) as [v|] eqn:Hver;
    cbn [mbind option_bind].
  2:{ apply lookup_ge_None_1 in Hver.
      rewrite length_take, length_drop in Hver.
      rewrite bool_decide_eq_false_2, andb_false_r; [done|lia]. }
  apply lookup_lt_Some in Hver. rewrite length_take, length_drop in Hver.
  replace (length (take 1 (drop (pos + 4 + 4) content))) with 1%nat
    by (rewrite length_take, length_drop; lia).
  set (p19 := (pos + 4 + 4 + 1
               + length (take 19 (drop (pos + 4 + 4 + 1) content)))%nat).
  destruct (unpack_unsigned 4 (take 4 (drop p19 content)))
    as [crc|] eqn:Hcrc; cbn [mbind option_bind].
  2:{ apply eq_None_not_Some in Hcrc.
      rewrite bool_decide_eq_false_2, andb_false_r; [done|].
      intros Hlen. apply Hcrc. unfold unpack_unsigned.
      rewrite decide_True; [by eexists|].
      subst p19. rewrite !length_take, !length_drop. lia. }
  apply unpack_unsigned_Some in Hcrc as [Hl4 _].
  rewrite Hl4. subst p19. rewrite !length_take, !length_drop in Hl4.
  replace (length (take 19 (drop (pos + 4 + 4 + 1) content))) with 19%nat
    by (rewrite length_take, length_drop; lia).
  replace (pos + 4 + 4 + 1 + 19 + 4)%nat with (pos + 32)%nat by lia.
  assert (Hact : active_or_full (page_state_name raw)
                 = (raw =? 4294967294) || (raw =? 4294967292)).
  { apply eq_true_iff_eq. rewrite active_or_full_raw. lia. }
  rewrite Hact.
  destruct ((raw =? 4294967294) || (raw =? 4294967292)); [|done].
  cbn [negb andb].
  rewrite length_take, length_drop.
  case_bool_decide as Hlen.
  - replace (pos + 32 + 32 `min` (length content - (pos + 32)))%nat
      with (pos + 64)%nat by lia.
    destruct (decode_bitmap_full (take 32 (drop (pos + 32) content)))
      as (codes & Hcodes & ->).
    { rewrite length_take, length_drop. lia. }
    cbn [mbind option_bind]. f_equal. f_equal.
    + rewrite read_entries_slots. cbn [app]. unfold page_slots, slots_in_file.
      apply map_ext. intros j. unfold slot_bytes. do 2 f_equal; lia.
    + unfold page_digits. f_equal.
      rewrite (mapM_default _ 3 _ _ Hcodes), map_map. apply map_ext.
      intros n. unfold slice. do 4 f_equal. lia.
  - rewrite decode_bitmap_short; [done|].
    rewrite length_take, length_drop. lia.
Qed.

#[local] Transparent decode_bitmap read_entries.

Lemma scan_body_layout content sc :
  scan_body content sc
  = if page_active content (sc_sector_pos sc)
       && bool_decide (sc_sector_pos sc + 64 <= length content)%nat
    then
      let r := parse_nvs_entries (page_slots content (sc_sector_pos sc))
                 (page_digits content (sc_sector_pos sc)) (sc_namespaces sc)
                 (sc_page_num sc) in
      mk_scan (sc_sector_pos sc + 4096) (sc_page_num sc + 1) r.2
        (sc_result sc ++ r.1)
    else next_page sc.
Proof.
  rewrite scan_body_view, page_view_layout.
  by destruct (page_active _ _ && _).
Qed.

(** X7. What one page contributes depends on fixed places of the file: the
    state word in the first 4 bytes of the stride decides whether the page
    is parsed, the 32 bytes after the 32-byte header are the state bitmap,
    and slot [j] is the 32 bytes at offset [64 + 32 * j]. A page of a file
    that ends before the bitmap does is skipped; one that ends later is
    parsed with the whole slots the file still holds. *)
Theorem page_layout content sc :
  scan_body content sc
  = if page_active content (sc_sector_pos sc)
       && bool_decide (sc_sector_pos sc + 64 <= length content)%nat
    then
      let r := parse_nvs_entries (page_slots content (sc_sector_pos sc))
                 (page_digits content (sc_sector_pos sc)) (sc_namespaces sc)
                 (sc_page_num sc) in
      mk_scan (sc_sector_pos sc + 4096) (sc_page_num sc + 1) r.2
        (sc_result sc ++ r.1)
    else next_page sc.
Proof.
  rewrite scan_body_view, page_view_layout.
  destruct (page_active content (sc_sector_pos sc)); [|done].
  by case_bool_decide.
Qed.

(** ** Appending to a file *)

Lemma slice_app_l {A} lo hi (l1 l2 : list A) :
  (hi <= length l1)%nat -> slice lo hi (l1 ++ l2) = slice lo hi l1.
Proof.
  intros Hhi. unfold slice.
  destruct (decide (lo <= hi)%nat) as [Hlo|Hlo].
  - rewrite drop_app_le by lia. rewrite take_app_le; [done|].
    rewrite length_drop. lia.
  - by replace (hi - lo)%nat with 0%nat by lia.
Qed.

Lemma page_active_app c1 c2 pos :
  (pos + 4 <= length c1)%nat ->
  page_active (c1 ++ c2) pos = page_active c1 pos.
Proof.
  intros H. unfold page_active, header_state_raw.
  by rewrite slice_app_l.
Qed.

Lemma slots_in_file_full content pos :
  (pos + 4096 <= length content)%nat -> slots_in_file content pos = 126%nat.
Proof.
  intros H. unfold slots_in_file.
  assert (126 <= (length content - (pos + 64)) / 32)%nat; [|lia].
  apply Nat.div_le_lower_bound; lia.
Qed.

Lemma page_slots_app c1 c2 pos :
  (pos + 4096 <= length c1)%nat ->
  page_slots (c1 ++ c2) pos = page_slots c1 pos.
Proof.
  intros H. unfold page_slots.
  rewrite !slots_in_file_full by (rewrite ?length_app; lia).
  apply map_ext_in. intros j Hj%list_elem_of_In%elem_of_seq.
  unfold slot_bytes. apply slice_app_l. lia.
Qed.

Lemma page_digits_app c1 c2 pos :
  (pos + 64 <= length c1)%nat ->
  page_digits (c1 ++ c2) pos = page_digits c1 pos.
Proof. intros H. unfold page_digits. by rewrite slice_app_l. Qed.

Lemma scan_body_app c1 c2 sc :
  (sc_sector_pos sc + 4096 <= length c1)%nat ->
  scan_body (c1 ++ c2) sc = scan_body c1 sc.
Proof.
  intros H. rewrite !scan_body_layout.
  rewrite page_active_app, page_slots_app, page_digits_app by lia.
  rewrite !bool_decide_eq_true_2; [done|lia|rewrite length_app; lia].
Qed.

Lemma page_state_pos_upper content k :
  (sc_sector_pos (page_state content k) <= 4096 * k)%nat.
Proof.
  induction k as [|k IH]; [done|].
  cbn [page_state]. cbv zeta. case_decide; [|lia].
  rewrite scan_body_pos. lia.
Qed.

Lemma page_state_app c1 c2 k :
  (4096 * k <= length c1)%nat ->
  page_state (c1 ++ c2) k = page_state c1 k.
Proof.
  induction k as [|k IH]; intros Hk; [done|].
  cbn [page_state]. cbv zeta. rewrite IH by lia.
  pose proof (page_state_pos_upper c1 k).
  rewrite !decide_True by (rewrite ?length_app; lia).
  apply scan_body_app. lia.
Qed.

Lemma page_state_whole_pages content :
  (length content mod 4096 = 0)%nat ->
  page_state content (S (length content / 4096))
  = page_state content (length content / 4096).
Proof.
  intros Hmod. cbn [page_state]. cbv zeta.
  rewrite decide_False; [done|].
  pose proof (page_state_pos_lower content (length content / 4096)).
  pose proof (Nat.div_mod_eq (length content) 4096). lia.
Qed.

(** X8. Appending bytes to a file that holds whole 4096-byte pages leaves
    what was decoded from it as it is: the entries of the longer file start
    with the entries of the shorter one, with the same namespace names. *)
Theorem appended_data_keeps_entries c1 c2 :
  (length c1 mod 4096 = 0)%nat ->
  (read_nvs_pages c1).1 `prefix_of` (read_nvs_pages (c1 ++ c2)).1.
Proof.
  intros Hmod. rewrite !read_nvs_pages_page_state. cbn [fst].
  rewrite page_state_whole_pages by done.
  pose proof (Nat.div_mod_eq (length c1) 4096) as Hdiv.
  rewrite <- (page_state_app c1 c2) by lia.
  assert (Hle : (length c1 / 4096 <= S (length (c1 ++ c2) / 4096))%nat).
  { rewrite length_app.
    pose proof (Nat.Div0.div_le_mono (length c1) (length c1 + length c2) 4096).
    lia. }
  replace (S (length (c1 ++ c2) / 4096))
    with (length c1 / 4096
          + (S (length (c1 ++ c2) / 4096) - length c1 / 4096))%nat by lia.
  apply page_state_result_prefix.
Qed.

Lemma appended_data_keeps_entries_witness :
  (read_nvs_pages ns_file).1
  `prefix_of` (read_nvs_pages (ns_file ++ two_page_file)).1.
Proof.
  apply (appended_data_keeps_entries ns_file two_page_file).
  vm_compute. reflexivity.
Defined.

(** ** Which slots give an entry *)

Lemma byte_at_lookup (entry : list byte) k :
  (k < length entry)%nat ->
  exists b, entry !! k = Some b /\ byte_at entry k = byte_val b.
Proof.
  intros H. destruct (lookup_header entry k H) as [b Hb].
  exists b. split; [done|]. unfold byte_at. by rewrite Hb.
Qed.

Ltac emit_int entry w :=
  unfold unpack_signed;
  rewrite (unpack_slice_drop entry 24 0 w w) by lia; simpl;
  by eexists.

Lemma slot_emits entries bitmap st entry tname :
  is_written bitmap (ls_i st) = true ->
  entries !! ls_i st = Some entry ->
  length entry = 32%nat ->
  nvs_types (byte_at entry 1) = Some tname ->
  tname <> "ANY" ->
  valid_span (ls_i st) (byte_at entry 2) = true ->
  (is_variable_length (byte_at entry 1) = true ->
   declared_size entry <= 4032
   /\ (ls_i st + Z.to_nat (byte_at entry 2) <= length entries)%nat) ->
  exists e, ls_result (loop_body entries bitmap st) = ls_result st ++ [e].
Proof.
  intros Hw He Hlen Ht Hany Hspan Hvar.
  destruct (byte_at_lookup entry 0) as (b_ns & H0 & Hb0); [lia|].
  destruct (byte_at_lookup entry 1) as (b_type & H1 & Hb1); [lia|].
  destruct (byte_at_lookup entry 2) as (b_span & H2 & Hb2); [lia|].
  destruct (byte_at_lookup entry 3) as (b_chunk & H3 & Hb3); [lia|].
  rewrite Hb1 in Ht, Hvar. rewrite Hb2 in Hspan, Hvar.
  open_slot Hw. rewrite He. simpl. rewrite H0, H1, H2, H3. simpl.
  rewrite Ht. apply valid_span_range in Hspan.
  replace ((byte_val b_span <? 1)
           || (byte_val b_span >? 126 - Z.of_nat (ls_i st))) with false by lia.
  pose proof (le_unsigned_nonneg (slice 24 26 entry)) as Hnn.
  fold (declared_size entry) in Hnn.
  pose proof (lookup_lt_Some _ _ _ He) as Hlt.
  assert (Hchunks :
    is_variable_length (byte_val b_type) = true ->
    (declared_size entry <? 0) || (declared_size entry >? 4032) = false
    /\ exists chunks,
         collect_chunks entries (ls_i st)
           (seq 1 (Z.to_nat (byte_val b_span) - 1)) [drop 8 (drop 24 entry)]
         = Some chunks).
  { intros Hv. destruct (Hvar Hv) as [Hsize Hbuf]. split; [lia|].
    rewrite collect_chunks_seq by lia. by eexists. }
  pose proof Ht as Ht'. unfold nvs_types in Ht'.
  repeat match type of Ht' with
         | (if ?b then _ else _) = _ => destruct b eqn:?
         end; simplify_eq; simpl.
  - rewrite (unpack_slice_drop entry 24 0 1 1) by lia. simpl.
    destruct (byte_val b_ns =? 0); by eexists.
  - emit_int entry 1%nat.
  - emit_int entry 2%nat.
  - emit_int entry 2%nat.
  - emit_int entry 4%nat.
  - emit_int entry 4%nat.
  - emit_int entry 8%nat.
  - emit_int entry 8%nat.
  - rewrite unpack_declared_size by lia. simpl.
    destruct Hchunks as (-> & chunks & ->);
      [unfold is_variable_length; lia|]. simpl. by eexists.
  - rewrite unpack_declared_size by lia. simpl.
    destruct Hchunks as (-> & chunks & ->);
      [unfold is_variable_length; lia|]. simpl. by eexists.
  - rewrite unpack_declared_size by lia. simpl.
    destruct Hchunks as (-> & chunks & ->);
      [unfold is_variable_length; lia|]. simpl. by eexists.
  - rewrite (unpack_slice_drop entry 24 0 4 4) by lia. simpl.
    rewrite (unpack_slice_drop entry 24 5 6 1) by lia. simpl.
    rewrite (unpack_slice_drop entry 24 6 7 1) by lia. simpl.
    by eexists.
Qed.

Lemma variable_length_size_bound e size :
  value_well_typed e -> e_size e = Some size -> size <= 4032.
Proof.
  unfold value_well_typed. intros Hv Hsize.
  destruct (e_value e) as [[n|s|sz cc cs]|]; [| | |done].
  - destruct Hv as (? & ? & _ & _ & Hnone). congruence.
  - destruct Hv as (size' & Hsize' & Hle & _). simplify_eq. lia.
  - destruct Hv as (_ & _ & _ & _ & Hnone). congruence.
Qed.

(** X4. On a buffer of 32-byte slots, an iteration of the slot loop
    appends an entry exactly when the slot it looks at is Written, has a
    known type other than ANY and a valid span and, if its type is STR,
    BLOB or BLOB_DATA, declares at most 4032 bytes and has all the slots
    of its span in the buffer; in every other case the result is left as
    it was. *)
Theorem entry_appended_iff entries bitmap st :
  Forall (fun s => length s = 32%nat) entries ->
  ((exists e, ls_result (loop_body entries bitmap st) = ls_result st ++ [e])
   <-> yields_entry entries bitmap (ls_i st) = true)
  /\ (yields_entry entries bitmap (ls_i st) = false ->
      ls_result (loop_body entries bitmap st) = ls_result st).
Proof.
  intros Hslots.
  assert (Hiff :
    (exists e, ls_result (loop_body entries bitmap st) = ls_result st ++ [e])
    <-> yields_entry entries bitmap (ls_i st) = true).
  { unfold yields_entry. split.
    - intros [e (entry & He & Hd)%emitted_entry_shape]. rewrite He.
      rewrite (df_written _ _ _ _ _ _ Hd), (df_type _ _ _ _ _ _ Hd).
      rewrite <- (df_span _ _ _ _ _ _ Hd), (df_valid_span _ _ _ _ _ _ Hd).
      pose proof (df_not_any _ _ _ _ _ _ Hd) as Hany.
      apply String.eqb_neq in Hany. rewrite Hany. cbn [negb andb].
      destruct (is_variable_length (byte_at entry 1)) eqn:Hvl; [|done].
      cbn [negb orb]. apply andb_true_iff. split.
      + pose proof (df_size _ _ _ _ _ _ Hd) as Hsize. rewrite Hvl in Hsize.
        pose proof (variable_length_size_bound _ _
                      (df_value _ _ _ _ _ _ Hd) Hsize). lia.
      + apply Nat.leb_le. by apply (df_slots _ _ _ _ _ _ Hd).
    - destruct (entries !! ls_i st) as [entry|] eqn:He; [|done].
      intros (((Hw & Ht)%andb_true_iff & Hspan)%andb_true_iff & Hvar)
        %andb_true_iff.
      destruct (nvs_types (byte_at entry 1)) as [tname|] eqn:Htype; [|done].
      apply negb_true_iff, String.eqb_neq in Ht.
      apply (slot_emits entries bitmap st entry tname); try done.
      + rewrite Forall_forall in Hslots. apply Hslots.
        by eapply list_elem_of_lookup_2.
      + intros Hvl. rewrite Hvl in Hvar. cbn [negb orb] in Hvar.
        apply andb_true_iff in Hvar as [Hsize Hbuf%Nat.leb_le].
        split; [lia|done]. }
  split; [done|]. intros Hno.
  destruct (loop_body_result_cases entries bitmap st) as [Hsame|Hemit];
    [done|].
  apply Hiff in Hemit. congruence.
Qed.

Lemma entry_appended_iff_witness :
  ((exists e,
      ls_result (loop_body greeting_entries greeting_bitmap
                   (mk_loop 0 seed_namespaces []))
      = ls_result (mk_loop 0 seed_namespaces []) ++ [e])
   <-> yields_entry greeting_entries greeting_bitmap 0 = true)
  /\ (yields_entry greeting_entries greeting_bitmap 0 = false ->
      ls_result (loop_body greeting_entries greeting_bitmap
                   (mk_loop 0 seed_namespaces []))
      = ls_result (mk_loop 0 seed_namespaces [])).
Proof.
  apply (entry_appended_iff greeting_entries greeting_bitmap
           (mk_loop 0 seed_namespaces [])).
  vm_compute. repeat constructor.
Defined.

(** ** Integer entries *)

Lemma int_format_not_variable c tname width signed :
  nvs_types c = Some tname ->
  int_format tname = Some (width, signed) ->
  tname <> "ANY" /\ is_variable_length c = false.
Proof.
  unfold nvs_types. intros Ht Hf.
  repeat match type of Ht with
         | (if ?b then _ else _) = _ => destruct b eqn:?
         end; simplify_eq; try done;
    (split; [done | unfold is_variable_length; lia]).
Qed.

(** X9. A Written 32-byte slot of one of the eight integer types with a
    valid span always gives an entry, and the entry's value is the integer
    that the first bytes of the slot's data area hold in little-endian
    order, read as two's complement for the signed types: it lies in the
    range of the type and agrees with the unsigned value of those bytes
    modulo 2^(8 * width). The entry carries the type's name and the key of
    the slot, and the scan moves on by the span. *)
Theorem integer_entry_decoded entries bitmap st entry tname width signed :
  is_written bitmap (ls_i st) = true ->
  entries !! ls_i st = Some entry ->
  length entry = 32%nat ->
  nvs_types (byte_at entry 1) = Some tname ->
  int_format tname = Some (width, signed) ->
  valid_span (ls_i st) (byte_at entry 2) = true ->
  exists e n,
    ls_result (loop_body entries bitmap st) = ls_result st ++ [e]
    /\ e_type e = tname
    /\ e_key e = decode_ascii_ignore (rstrip_nul (slice 8 24 entry))
    /\ e_value e = Some (VInt n)
    /\ in_int_range width signed n
    /\ n mod 2 ^ (8 * Z.of_nat width)
       = le_unsigned (slice 24 (24 + width) entry)
    /\ ls_i (loop_body entries bitmap st)
       = (ls_i st + Z.to_nat (byte_at entry 2))%nat.
Proof.
  intros Hw He Hlen Ht Hf Hspan.
  destruct (int_format_not_variable _ _ _ _ Ht Hf) as [Hany Hvl].
  destruct (slot_emits entries bitmap st entry tname) as [e Hres];
    try done; [by rewrite Hvl|].
  destruct (emitted_entry_shape _ _ _ _ Hres) as (entry' & He' & Hd).
  assert (entry' = entry) as -> by congruence.
  pose proof (df_type _ _ _ _ _ _ Hd) as Htype.
  assert (e_type e = tname) as Hname by congruence.
  pose proof (df_value _ _ _ _ _ _ Hd) as Hval.
  pose proof (df_int _ _ _ _ _ _ Hd) as Hint.
  unfold value_well_typed in Hval. rewrite Hname in *.
  destruct (e_value e) as [[n|s|sz cc cs]|] eqn:Hv; [| | |done].
  - destruct Hval as (w & sg & Hf' & Hrange & _).
    assert (w = width /\ sg = signed) as [-> ->] by (split; congruence).
    rewrite Hf in Hint. exists e, n. repeat split; try done.
    + apply (df_key _ _ _ _ _ _ Hd).
    + rewrite (df_next _ _ _ _ _ _ Hd). by rewrite (df_span _ _ _ _ _ _ Hd).
  - destruct Hval as (_ & _ & _ & [[-> _]|[[-> | ->] _]]); done.
  - destruct Hval as [-> _]. done.
Qed.

Lemma integer_entry_decoded_witness :
  exists e n,
    ls_result (loop_body ns_entries ns_bitmap (mk_loop 0 seed_namespaces []))
    = ls_result (mk_loop 0 seed_namespaces []) ++ [e]
    /\ e_type e = "U32"
    /\ e_key e = decode_ascii_ignore (rstrip_nul (slice 8 24 ns_early_slot))
    /\ e_value e = Some (VInt n)
    /\ in_int_range 4 false n
    /\ n mod 2 ^ (8 * Z.of_nat 4)
       = le_unsigned (slice 24 (24 + 4) ns_early_slot)
    /\ ls_i (loop_body ns_entries ns_bitmap (mk_loop 0 seed_namespaces []))
       = (ls_i (mk_loop 0 seed_namespaces [])
          + Z.to_nat (byte_at ns_early_slot 2))%nat.
Proof.
  apply (integer_entry_decoded ns_entries ns_bitmap
           (mk_loop 0 seed_namespaces []) ns_early_slot "U32" 4 false);
    vm_compute; reflexivity.
Defined.

Import CsvShape.

(** ** From the decoder to the encoder *)

Lemma fromhex_hex_pair b t :
  fromhex_chars (hex_digit (byte_val b / 16)
                 :: hex_digit (byte_val b mod 16) :: t)
  = rest ← fromhex_chars t; Some (b :: rest).
Proof. destruct b; reflexivity. Qed.

Lemma bytes_fromhex_hex bs : bytes_fromhex (VStr (hex bs)) = Some bs.
Proof.
  unfold bytes_fromhex. induction bs as [|b bs IH]; [done|].
  cbn [hex list_ascii_of_string]. rewrite fromhex_hex_pair, IH. done.
Qed.

Lemma py_int_pretty_byte k : 0 <= k <= 255 -> py_int (pretty k) = Some k.
Proof.
  intros Hk.
  assert (Hall : forallb (fun n => bool_decide (py_int (pretty (Z.of_nat n))
                                                = Some (Z.of_nat n)))
                   (seq 0 256) = true) by (vm_compute; reflexivity).
  rewrite forallb_forall in Hall.
  assert (Hin : In (Z.to_nat k) (seq 0 256)).
  { apply list_elem_of_In, elem_of_seq. lia. }
  apply Hall in Hin. rewrite Z2Nat.id in Hin by lia.
  by apply bool_decide_eq_true in Hin.
Qed.

Lemma well_formed_encodable e : entry_well_formed e -> entry_encodable e.
Proof.
  intros (_ & _ & _ & _ & Hv). unfold value_well_typed in Hv.
  unfold entry_encodable.
  destruct (e_value e) as [[n|s|sz cc cs]|]; [| | |done].
  - destruct Hv as (w & sg & Hf & _). intros Ht. by rewrite Ht in Hf.
  - destruct Hv as (size & _ & _ & [[Ht _]|[_ (bs & -> & _)]]).
    + intros Ht'. congruence.
    + intros _. rewrite bytes_fromhex_hex. by eexists.
  - destruct Hv as [Ht _]. intros Ht'. congruence.
Qed.

Lemma decoded_record_encodable content items :
  items ≡ₚ json_namespaces (read_nvs_pages content).2 ->
  record_encodable (mk_json items (read_nvs_pages content).1).
Proof.
  intros Hitems. split; cbn [jd_namespaces jd_entries].
  - rewrite Hitems. unfold json_namespaces. apply Forall_fmap, Forall_forall.
    intros [id name] Hin%elem_of_map_to_list. cbn.
    rewrite py_int_pretty_byte; [by eexists|].
    by eapply namespace_table_ids.
  - eapply Forall_impl; [apply read_nvs_pages_Forall,
                          emitted_entry_well_formed|].
    apply well_formed_encodable.
Qed.

(** X10. The encoder accepts whatever the decoder produces: for every
    partition file, [generate_csv] returns on the record made of the
    entries and the namespace table that [read_nvs_pages] gives for it,
    the table's ids written as decimal text and its items in any order. *)
Theorem decoded_record_is_encoded content items csv_output_path
    blobs_output_dir w :
  items ≡ₚ json_namespaces (read_nvs_pages content).2 ->
  exists lines w',
    generate_csv (mk_json items (read_nvs_pages content).1) csv_output_path
      blobs_output_dir w
    = (Some lines, w').
Proof.
  intros Hitems. by apply generate_csv_returns, decoded_record_encodable.
Qed.

Lemma decoded_record_is_encoded_witness :
  exists lines w',
    generate_csv
      (mk_json (json_namespaces (read_nvs_pages ns_file).2)
         (read_nvs_pages ns_file).1)
      "out.csv" "blobs" empty_world
    = (Some lines, w').
Proof.
  apply (decoded_record_is_encoded ns_file). reflexivity.
Defined.

(** ** Blob files *)

Lemma mapM_hex_values payloads :
  mapM bytes_fromhex ((fun bs => VStr (hex bs)) <$> payloads) = Some payloads.
Proof.
  induction payloads as [|bs payloads IH]; [done|].
  rewrite fmap_cons, mapM_cons_eq, bytes_fromhex_hex, IH. done.
Qed.

(** X11. The bytes of a blob survive the trip through their hex text:
    writing the hex texts of the chunks [payloads], as the decoder renders
    them, creates the blob file named after the next value of the random
    source, and the file holds the chunks' bytes one after the other. *)
Theorem blob_file_holds_bytes payloads output_dir w :
  exists w',
    write_blob_file ((fun bs => VStr (hex bs)) <$> payloads) output_dir w
    = (Some (blob_path_of output_dir (w_uuid4_hex w (w_uuid_calls w))), w')
    /\ w_files w' !! blob_path_of output_dir (w_uuid4_hex w (w_uuid_calls w))
       = Some (concat payloads)
    /\ w_uuid_calls w' = S (w_uuid_calls w).
Proof.
  eexists. split; [|split].
  - apply write_blob_file_ok, mapM_hex_values.
  - cbn [w_files]. by rewrite lookup_insert_eq.
  - done.
Qed.

Lemma write_blob_values_bad blob_path good bad rest : forall payloads w old,
  mapM bytes_fromhex good = Some payloads ->
  bytes_fromhex bad = None ->
  w_files w !! blob_path = Some old ->
  write_blob_values blob_path (good ++ bad :: rest) w
  = (None,
     mk_world (<[blob_path := old ++ concat payloads]> (w_files w))
       (w_uuid4_hex w) (w_uuid_calls w)).
Proof.
  induction good as [|v vs IH]; intros payloads w old Hhex Hbad Hold.
  - injection Hhex as <-. cbn [app write_blob_values].
    unfold io_bind, io_lift. rewrite Hbad. cbn [concat].
    rewrite app_nil_r, insert_id by done. by destruct w.
  - rewrite mapM_cons_eq in Hhex.
    destruct (bytes_fromhex v) as [bs|] eqn:Hv; [|done].
    cbn [mbind option_bind] in Hhex.
    destruct (mapM bytes_fromhex vs) as [ps|] eqn:Hvs; [|done].
    injection Hhex as <-.
    cbn [app write_blob_values]. unfold io_bind at 1 2, io_lift, file_write.
    rewrite Hv.
    rewrite (IH ps _ (old ++ bs) eq_refl Hbad).
    + cbn [w_files w_uuid4_hex w_uuid_calls]. rewrite Hold. cbn [default].
      by rewrite insert_insert_eq, <- app_assoc.
    + cbn [w_files]. rewrite Hold. cbn [default].
      by rewrite lookup_insert_eq.
Qed.

(** X12. A chunk whose value is not hex text makes [write_blob_file] raise
    after the file was created: the blob file is left behind holding the
    bytes of the chunks before the bad one, and the value drawn from the
    random source is used up. *)
Theorem bad_chunk_leaves_partial_blob good bad rest payloads output_dir w :
  mapM bytes_fromhex good = Some payloads ->
  bytes_fromhex bad = None ->
  write_blob_file (good ++ bad :: rest) output_dir w
  = (None,
     mk_world
       (<[blob_path_of output_dir (w_uuid4_hex w (w_uuid_calls w))
          := concat payloads]> (w_files w))
       (w_uuid4_hex w) (S (w_uuid_calls w))).
Proof.
  intros Hgood Hbad.
  unfold write_blob_file, io_bind, uuid4_hex, open_write, io_ret.
  fold (blob_path_of output_dir (w_uuid4_hex w (w_uuid_calls w))).
  rewrite (write_blob_values_bad _ _ _ _ payloads _ [] Hgood Hbad).
  - cbn [w_files w_uuid4_hex w_uuid_calls]. by rewrite insert_insert_eq.
  - cbn [w_files]. by rewrite lookup_insert_eq.
Qed.

Lemma bad_chunk_leaves_partial_blob_witness :
  write_blob_file ([VStr "aabb"] ++ VStr "zz" :: [VStr "cc"]) "blobs"
    empty_world
  = (None,
     mk_world
       (<[blob_path_of "blobs"
            (w_uuid4_hex empty_world (w_uuid_calls empty_world))
          := concat [[byte_of_Z 0xAA; byte_of_Z 0xBB]]]>
          (w_files empty_world))
       (w_uuid4_hex empty_world) (S (w_uuid_calls empty_world))).
Proof.
  apply (bad_chunk_leaves_partial_blob [VStr "aabb"] (VStr "zz") [VStr "cc"]
           [[byte_of_Z 0xAA; byte_of_Z 0xBB]] "blobs" empty_world);
    reflexivity.
Defined.

(** ** A table with an id that is not a number *)

Lemma sorted_namespaces_bad_id namespace_map item :
  item ∈ namespace_map ->
  py_int item.1 = None ->
  sorted_namespaces namespace_map = None.
Proof.
  intros Hin Hbad. unfold sorted_namespaces.
  destruct (mapM _ namespace_map) as [keyed|] eqn:Hkeyed; [|done].
  exfalso.
  assert (Hsome : is_Some (mapM (fun item : string * string =>
                                   k ← py_int item.1; Some (k, item))
                             namespace_map)) by (by eexists).
  apply mapM_is_Some_1 in Hsome. rewrite Forall_forall in Hsome.
  destruct (Hsome item Hin) as [x Hx]. by rewrite Hbad in Hx.
Qed.

(** X13. If one id of the namespace table is not the text of an integer,
    [generate_csv] raises before it writes anything: no blob file, no CSV
    file, and no value drawn from the random source. *)
Theorem bad_namespace_id_writes_nothing data item csv_output_path
    blobs_output_dir w :
  item ∈ jd_namespaces data ->
  py_int item.1 = None ->
  generate_csv data csv_output_path blobs_output_dir w = (None, w).
Proof.
  intros Hin Hbad. unfold generate_csv, io_bind, io_lift.
  by rewrite (sorted_namespaces_bad_id _ _ Hin Hbad).
Qed.

Lemma bad_namespace_id_writes_nothing_witness :
  generate_csv bad_id_record "out.csv" "blobs" empty_world
  = (None, empty_world).
Proof.
  apply (bad_namespace_id_writes_nothing bad_id_record ("x1", "wifi")).
  - vm_compute. right. left.
  - reflexivity.
Defined.

(** ** What a run touches *)

Lemma touches_blobs_only_refl dir w : touches_blobs_only dir w w.
Proof. by repeat split. Qed.

Lemma touches_blobs_only_trans dir w1 w2 w3 :
  touches_blobs_only dir w1 w2 ->
  touches_blobs_only dir w2 w3 ->
  touches_blobs_only dir w1 w3.
Proof.
  intros (Hu1 & Hc1 & Hf1) (Hu2 & Hc2 & Hf2).
  split; [congruence|]. split; [lia|].
  intros path Hpath. rewrite Hf2, Hf1; [done| |].
  - intros j Hj. apply Hpath. lia.
  - intros j Hj. rewrite Hu1. apply Hpath. lia.
Qed.

Lemma write_blob_values_world blob_path blob_values : forall w r w',
  write_blob_values blob_path blob_values w = (r, w') ->
  w_uuid4_hex w' = w_uuid4_hex w
  /\ w_uuid_calls w' = w_uuid_calls w
  /\ forall path, path <> blob_path -> w_files w' !! path = w_files w !! path.
Proof.
  induction blob_values as [|v vs IH]; intros w r w' Hrun.
  - by injection Hrun as <- <-.
  - cbn [write_blob_values] in Hrun. unfold io_bind at 1 2, io_lift in Hrun.
    destruct (bytes_fromhex v) as [bs|]; [|by injection Hrun as <- <-].
    unfold file_write at 1 in Hrun.
    apply IH in Hrun as (Hu & Hc & Hf). cbn in Hu, Hc, Hf.
    split; [done|]. split; [done|]. intros path Hpath.
    rewrite Hf by done. by rewrite lookup_insert_ne.
Qed.

Lemma write_blob_file_world blob_values dir w r w' :
  write_blob_file blob_values dir w = (r, w') ->
  w_uuid4_hex w' = w_uuid4_hex w
  /\ w_uuid_calls w' = S (w_uuid_calls w)
  /\ (forall path,
        path <> blob_path_of dir (w_uuid4_hex w (w_uuid_calls w)) ->
        w_files w' !! path = w_files w !! path)
  /\ (forall blob_path,
        r = Some blob_path ->
        blob_path = blob_path_of dir (w_uuid4_hex w (w_uuid_calls w))).
Proof.
  unfold write_blob_file, io_bind, uuid4_hex, open_write, io_ret.
  fold (blob_path_of dir (w_uuid4_hex w (w_uuid_calls w))).
  destruct (write_blob_values _ _ _) as [[[]|] w1] eqn:Hvalues;
    intros Hrun; injection Hrun as <- <-;
    apply write_blob_values_world in Hvalues as (Hu & Hc & Hf);
    cbn in Hu, Hc, Hf;
    (split; [done|]); (split; [done|]); split; try done.
  - intros path Hpath. rewrite Hf by done. by rewrite lookup_insert_ne.
  - by intros ? [= <-].
  - intros path Hpath. rewrite Hf by done. by rewrite lookup_insert_ne.
Qed.

Lemma write_blob_file_touches blob_values dir w r w' :
  write_blob_file blob_values dir w = (r, w') ->
  touches_blobs_only dir w w'.
Proof.
  intros (Hu & Hc & Hf & _)%write_blob_file_world.
  split; [done|]. split; [lia|]. intros path Hpath. apply Hf, Hpath. lia.
Qed.

Lemma write_blob_groups_touches groups dir : forall lines w r w',
  write_blob_groups groups dir lines w = (r, w') ->
  touches_blobs_only dir w w'.
Proof.
  induction groups as [|[key blob_entries] groups IH]; intros lines w r w' Hrun.
  - injection Hrun as <- <-. apply touches_blobs_only_refl.
  - cbn [write_blob_groups] in Hrun. unfold io_bind at 1 in Hrun.
    destruct (write_blob_file _ dir w) as [[blob_path|] w1] eqn:Hfile.
    + eapply touches_blobs_only_trans;
        [by eapply write_blob_file_touches | by eapply IH].
    + injection Hrun as <- <-. by eapply write_blob_file_touches.
Qed.

Lemma namespace_loop_touches sorted ebn dir : forall lines w r w',
  namespace_loop sorted ebn dir lines w = (r, w') ->
  touches_blobs_only dir w w'.
Proof.
  induction sorted as [|[ns_id ns_name] sorted IH]; intros lines w r w' Hrun.
  - injection Hrun as <- <-. apply touches_blobs_only_refl.
  - cbn [namespace_loop] in Hrun. cbv zeta in Hrun.
    unfold io_bind, io_lift in Hrun.
    destruct (partition_entries _ [] []) as [[blobs others]|];
      [|injection Hrun as <- <-; apply touches_blobs_only_refl].
    cbn [fst snd] in Hrun.
    destruct (write_blob_groups _ _ _ w) as [[lines1|] w1] eqn:Hblobs.
    + apply write_blob_groups_touches in Hblobs.
      destruct (data_lines _ _) as [lines2|].
      * eapply touches_blobs_only_trans; [done | by eapply IH].
      * by injection Hrun as <- <-.
    + injection Hrun as <- <-. by eapply write_blob_groups_touches.
Qed.

(** X16. A run of [generate_csv], whether it returns or raises, only
    advances the random source and touches no file other than the blobs
    named after the values it drew and, when it returns, the CSV file. A
    run that raises leaves the CSV file as it was (unless its path is that
    of one of the blobs). *)
Theorem run_touches_blobs_and_csv data csv_output_path blobs_output_dir
    w r w' :
  generate_csv data csv_output_path blobs_output_dir w = (r, w') ->
  w_uuid4_hex w' = w_uuid4_hex w
  /\ (w_uuid_calls w <= w_uuid_calls w')%nat
  /\ forall path,
       (forall j, (w_uuid_calls w <= j < w_uuid_calls w')%nat ->
                  path <> blob_path_of blobs_output_dir (w_uuid4_hex w j)) ->
       r = None \/ path <> csv_output_path ->
       w_files w' !! path = w_files w !! path.
Proof.
  unfold generate_csv, io_bind, io_lift, io_ret, open_write, file_write.
  destruct (sorted_namespaces _) as [sorted|];
    [|intros [= <- <-]; split; [done|]; split; [lia|done]].
  destruct (namespace_loop _ _ _ _ w) as [[lines|] w1] eqn:Hloop;
    apply namespace_loop_touches in Hloop as (Hu & Hc & Hf);
    intros [= <- <-]; cbn [w_files w_uuid4_hex w_uuid_calls];
    (split; [done|]); (split; [done|]); intros path Hpath Hcsv.
  - destruct Hcsv as [|Hne]; [done|].
    rewrite !lookup_insert_ne by done. by apply Hf.
  - by apply Hf.
Qed.

Lemma run_touches_blobs_and_csv_witness :
  w_uuid4_hex (generate_csv bad_chunk_record "out.csv" "blobs" empty_world).2
  = w_uuid4_hex empty_world
  /\ (w_uuid_calls empty_world
      <= w_uuid_calls
           (generate_csv bad_chunk_record "out.csv" "blobs" empty_world).2)%nat
  /\ forall path,
       (forall j,
          (w_uuid_calls empty_world <= j
           < w_uuid_calls
               (generate_csv bad_chunk_record "out.csv" "blobs"
                  empty_world).2)%nat ->
          path <> blob_path_of "blobs" (w_uuid4_hex empty_world j)) ->
       @None (list csv_line) = None \/ path <> "out.csv" ->
       w_files (generate_csv bad_chunk_record "out.csv" "blobs" empty_world).2
         !! path
       = w_files empty_world !! path.
Proof.
  apply (run_touches_blobs_and_csv bad_chunk_record "out.csv" "blobs"
           empty_world None).
  vm_compute. reflexivity.
Defined.

(** ** The rows of the CSV file, exactly *)

Lemma mapM_app_Some {A B} (f : A -> option B) l1 l2 r1 r2 :
  mapM f l1 = Some r1 -> mapM f l2 = Some r2 ->
  mapM f (l1 ++ l2) = Some (r1 ++ r2).
Proof.
  revert r1. induction l1 as [|x l1 IH]; intros r1 H1 H2.
  - by injection H1 as <-.
  - rewrite mapM_cons_eq in H1. cbn [app]. rewrite mapM_cons_eq.
    destruct (f x) as [y|]; cbn [mbind option_bind] in *; [|done].
    destruct (mapM f l1) as [r|]; cbn [mbind option_bind] in *; [|done].
    injection H1 as <-. by rewrite (IH r eq_refl H2).
Qed.

Lemma data_rows_app l1 l2 : data_rows (l1 ++ l2) = data_rows l1 ++ data_rows l2.
Proof. apply filter_app. Qed.

Lemma file_rows_app l1 l2 : file_rows (l1 ++ l2) = file_rows l1 ++ file_rows l2.
Proof. apply filter_app. Qed.

Lemma rows_of_entries es : forall rows,
  mapM row_of es = Some rows -> data_rows rows = rows /\ file_rows rows = [].
Proof.
  induction es as [|e es IH]; intros rows Hrows.
  - injection Hrows as <-. by split.
  - rewrite mapM_cons_eq in Hrows.
    destruct (row_of e) as [row|] eqn:Hrow; simpl in Hrows; [|done].
    destruct (mapM row_of es) as [rest|]; simpl in Hrows; [|done].
    injection Hrows as <-. destruct (IH rest eq_refl) as [Hd Hf].
    unfold row_of in Hrow. destruct (e_value e) as [v|]; [|done].
    injection Hrow as <-.
    unfold data_rows, file_rows in *.
    rewrite filter_cons_True by done. rewrite filter_cons_False by done.
    by rewrite Hd, Hf.
Qed.

Lemma rows_of_files dir uuid keys : forall n,
  data_rows (file_rows_from dir uuid n keys) = []
  /\ file_rows (file_rows_from dir uuid n keys)
     = file_rows_from dir uuid n keys.
Proof.
  unfold file_rows_from.
  induction keys as [|k keys IH]; intros n; [by split|].
  cbn [imap]. unfold data_rows, file_rows in *.
  rewrite filter_cons_False by done. rewrite filter_cons_True by done.
  rewrite (imap_ext _ (fun j key =>
             FileLine key (blob_path_of dir (uuid (S n + j)%nat))));
    [|intros; cbn; do 3 f_equal; lia].
  destruct (IH (S n)) as [-> ->]. done.
Qed.

Lemma file_rows_from_app dir uuid n keys1 keys2 :
  file_rows_from dir uuid n (keys1 ++ keys2)
  = file_rows_from dir uuid n keys1
    ++ file_rows_from dir uuid (n + length keys1) keys2.
Proof.
  unfold file_rows_from. rewrite imap_app. f_equal.
  apply imap_ext. intros j key _. cbn. do 3 f_equal. lia.
Qed.

Lemma data_lines_rows es : forall lines lines',
  data_lines es lines = Some lines' ->
  exists rows, mapM row_of es = Some rows /\ lines' = lines ++ rows.
Proof.
  induction es as [|e es IH]; intros lines lines' Hrun.
  - injection Hrun as <-. exists []. by rewrite app_nil_r.
  - cbn [data_lines] in Hrun. cbv zeta in Hrun.
    rewrite mapM_cons_eq.
    assert (Hrow : row_of e
                   = v ← e_value e;
                     Some (DataLine (e_key e)
                             (str_of_encoding (map_type_encoding (e_type e)))
                             (value_str v))) by done.
    rewrite Hrow.
    destruct (e_value e) as [v|]; cbn [mbind option_bind] in *; [|done].
    apply IH in Hrun as (rows & -> & ->). cbn [mbind option_bind].
    eexists. split; [done|]. by rewrite <- app_assoc.
Qed.

Lemma write_blob_groups_rows groups dir : forall lines w lines' w',
  write_blob_groups groups dir lines w = (Some lines', w') ->
  lines' = lines ++ file_rows_from dir (w_uuid4_hex w) (w_uuid_calls w)
                      groups.*1
  /\ w_uuid4_hex w' = w_uuid4_hex w
  /\ w_uuid_calls w' = (w_uuid_calls w + length groups)%nat.
Proof.
  induction groups as [|[key blob_entries] groups IH];
    intros lines w lines' w' Hrun.
  - injection Hrun as <- <-. rewrite app_nil_r. split; [done|].
    split; [done|]. cbn. lia.
  - cbn [write_blob_groups] in Hrun. unfold io_bind at 1 in Hrun.
    destruct (write_blob_file _ dir w) as [[blob_path|] w1] eqn:Hfile; [|done].
    apply write_blob_file_world in Hfile as (Hu & Hc & _ & Hpath).
    rewrite (Hpath blob_path eq_refl) in Hrun.
    apply IH in Hrun as (-> & Hu' & Hc').
    split; [|split; [congruence | cbn [length]; lia]].
    rewrite <- app_assoc. f_equal. rewrite fmap_cons. cbn [fst].
    change (key :: groups.*1) with ([key] ++ groups.*1).
    rewrite file_rows_from_app. cbn [length]. rewrite Hu, Hc.
    unfold file_rows_from at 2. cbn [imap app]. do 3 f_equal; [|lia].
    do 2 f_equal. lia.
Qed.

Lemma first_seen_equiv l : forall seen seen',
  (forall k, k ∈ seen <-> k ∈ seen') ->
  first_seen seen l = first_seen seen' l.
Proof.
  induction l as [|k l IH]; intros seen seen' Heq; [done|].
  cbn [first_seen].
  destruct (decide (k ∈ seen)) as [Hin|Hin].
  - rewrite decide_True by (by apply Heq). by apply IH.
  - rewrite decide_False by (by rewrite <- Heq). f_equal. apply IH.
    intros k'. rewrite !elem_of_cons. by rewrite Heq.
Qed.

Lemma partition_entries_keys es : forall blobs others blobs' others',
  partition_entries es blobs others = Some (blobs', others') ->
  blobs'.*1
  = blobs.*1
    ++ first_seen blobs.*1
         (e_key <$> filter (fun e => e_type e = "BLOB_DATA") es).
Proof.
  induction es as [|e es IH]; intros blobs others blobs' others' Hrun.
  - injection Hrun as <- <-. by rewrite app_nil_r.
  - cbn [partition_entries] in Hrun.
    destruct (String.eqb_spec (e_type e) "BLOB_DATA") as [Hd|Hd].
    + destruct (e_value e) as [v|]; [|done]. cbn [mbind option_bind] in Hrun.
      apply IH in Hrun as ->. rewrite filter_cons_True by done.
      rewrite fmap_cons. cbn [first_seen]. rewrite dict_append_keys.
      case_decide as Hin; [done|].
      rewrite <- app_assoc. cbn [app]. do 2 f_equal.
      apply first_seen_equiv. intros k.
      rewrite elem_of_app, !elem_of_cons, elem_of_nil. tauto.
    + rewrite filter_cons_False by done.
      destruct (negb _); by apply IH in Hrun.
Qed.

Lemma filter_plain (es : list entry_data) :
  filter (fun e => e_type e <> "BLOB_DATA" /\ e_type e <> "BLOB_IDX") es
  = filter is_plain es.
Proof. apply list_filter_iff. by intros e. Qed.

Lemma namespace_loop_rows sorted (es : list entry_data) dir :
  forall lines w lines' w',
    namespace_loop sorted (group_by_namespace es) dir lines w
    = (Some lines', w') ->
    exists rows,
      mapM row_of (plain_entries sorted es) = Some rows
      /\ data_rows lines' = data_rows lines ++ rows
      /\ file_rows lines'
         = file_rows lines
           ++ file_rows_from dir (w_uuid4_hex w) (w_uuid_calls w)
                (file_keys sorted es)
      /\ w_uuid4_hex w' = w_uuid4_hex w
      /\ w_uuid_calls w'
         = (w_uuid_calls w + length (file_keys sorted es))%nat.
Proof.
  induction sorted as [|[ns_id ns_name] sorted IH];
    intros lines w lines' w' Hrun.
  - injection Hrun as <- <-. exists []. rewrite !app_nil_r.
    repeat split; try done.
  - cbn [namespace_loop] in Hrun. cbv zeta in Hrun.
    unfold io_bind, io_lift in Hrun. rewrite dict_get_group in Hrun.
    fold (namespace_entries ns_name es) in Hrun.
    destruct (partition_entries _ [] []) as [[blobs others]|] eqn:Hparts;
      [|done].
    cbn [fst snd] in Hrun.
    destruct (write_blob_groups _ _ _ w) as [[lines1|] w1] eqn:Hblobs; [|done].
    destruct (data_lines _ _) as [lines2|] eqn:Hdata; [|done].
    apply write_blob_groups_rows in Hblobs as (-> & Hu1 & Hc1).
    apply data_lines_rows in Hdata as (rows1 & Hrows1 & ->).
    apply IH in Hrun as (rows & Hrows & Hd & Hf & Hu & Hc).
    pose proof (partition_entries_others _ _ _ _ _ Hparts) as Hothers.
    pose proof (partition_entries_keys _ _ _ _ _ Hparts) as Hkeys.
    cbn [fmap list_fmap app] in Hothers, Hkeys.
    rewrite filter_plain in Hothers. subst others.
    fold (blob_keys ns_name es) in Hkeys.
    destruct (rows_of_entries _ _ Hrows1) as [Hd1 Hf1].
    destruct (rows_of_files dir (w_uuid4_hex w) blobs.*1 (w_uuid_calls w))
      as [Hd2 Hf2].
    exists (rows1 ++ rows).
    unfold plain_entries, file_keys. cbn [map concat snd].
    fold (plain_entries sorted es). fold (file_keys sorted es).
    split; [by apply mapM_app_Some|]. split; [|split; [|split]].
    + rewrite Hd, !data_rows_app, Hd1, Hd2.
      change (data_rows [NamespaceLine ns_name]) with (@nil csv_line).
      by rewrite !app_nil_r, <- app_assoc.
    + rewrite Hf, !file_rows_app, Hf1, Hf2, file_rows_from_app.
      change (file_rows [NamespaceLine ns_name]) with (@nil csv_line).
      rewrite Hu1, Hc1, <- Hkeys, length_fmap.
      by rewrite !app_nil_r, <- !app_assoc.
    + congruence.
    + rewrite Hc, Hc1, length_app, <- Hkeys, length_fmap. lia.
Qed.

Lemma generate_csv_rows data csv_output_path blobs_output_dir w lines w' :
  generate_csv data csv_output_path blobs_output_dir w = (Some lines, w') ->
  exists sorted,
    sorted_namespaces (jd_namespaces data) = Some sorted
    /\ mapM row_of (plain_entries sorted (jd_entries data))
       = Some (data_rows lines)
    /\ file_rows lines
       = file_rows_from blobs_output_dir (w_uuid4_hex w) (w_uuid_calls w)
           (file_keys sorted (jd_entries data))
    /\ w_uuid_calls w'
       = (w_uuid_calls w + length (file_rows lines))%nat.
Proof.
  unfold generate_csv, io_bind, io_lift, io_ret, open_write, file_write.
  intros Hrun.
  destruct (sorted_namespaces _) as [sorted|]; [|done].
  destruct (namespace_loop _ _ _ _ w) as [[lines1|] w1] eqn:Hloop; [|done].
  injection Hrun as <- <-. exists sorted. split; [done|].
  apply namespace_loop_rows in Hloop as (rows & Hrows & Hd & Hf & Hu & Hc).
  change (data_rows [Header]) with (@nil csv_line) in Hd.
  change (file_rows [Header]) with (@nil csv_line) in Hf.
  cbn [app] in Hd, Hf. cbn [w_uuid_calls]. rewrite Hd, Hf.
  repeat split; try done.
  rewrite Hc. unfold file_rows_from. by rewrite length_imap.
Qed.

(** X14. The data rows of the CSV file are, in order, one row for each
    entry of each listed namespace that is neither a BLOB_DATA chunk nor a
    BLOB_IDX entry: the namespaces in ascending order of id, the entries of
    a namespace in record order, each with its key, the encoding of its
    type and the text of its value. An entry of a namespace name listed
    under two ids is written under both; an entry of a name that is not
    listed is written nowhere. *)
Theorem data_rows_exact data csv_output_path blobs_output_dir w lines w' :
  generate_csv data csv_output_path blobs_output_dir w = (Some lines, w') ->
  exists sorted,
    sorted_namespaces (jd_namespaces data) = Some sorted
    /\ mapM row_of (plain_entries sorted (jd_entries data))
       = Some (data_rows lines).
Proof.
  intros (sorted & Hsorted & Hrows & _)%generate_csv_rows. by exists sorted.
Qed.

Lemma data_rows_exact_witness :
  exists sorted,
    sorted_namespaces (jd_namespaces unordered_record) = Some sorted
    /\ mapM row_of (plain_entries sorted (jd_entries unordered_record))
       = Some (data_rows unordered_lines).
Proof.
  apply (data_rows_exact unordered_record "out.csv" "blobs" empty_world
           unordered_lines
           (generate_csv unordered_record "out.csv" "blobs" empty_world).2).
  vm_compute. reflexivity.
Defined.

(** X15. The file rows of the CSV file are, in order, one row for each
    distinct key of the BLOB_DATA chunks of each listed namespace, the keys
    of a namespace in the order of their first chunk in the record. Each
    row names the blob after the next value of the random source, and the
    run draws exactly one value for each file row. *)
Theorem file_rows_exact data csv_output_path blobs_output_dir w lines w' :
  generate_csv data csv_output_path blobs_output_dir w = (Some lines, w') ->
  exists sorted,
    sorted_namespaces (jd_namespaces data) = Some sorted
    /\ file_rows lines
       = file_rows_from blobs_output_dir (w_uuid4_hex w) (w_uuid_calls w)
           (file_keys sorted (jd_entries data))
    /\ w_uuid_calls w'
       = (w_uuid_calls w + length (file_rows lines))%nat.
Proof.
  intros (sorted & Hsorted & _ & Hfiles & Hcalls)%generate_csv_rows.
  by exists sorted.
Qed.

Lemma file_rows_exact_witness :
  exists sorted,
    sorted_namespaces (jd_namespaces two_blob_record) = Some sorted
    /\ file_rows two_blob_lines
       = file_rows_from "blobs" (w_uuid4_hex empty_world)
           (w_uuid_calls empty_world)
           (file_keys sorted (jd_entries two_blob_record))
    /\ w_uuid_calls
         (generate_csv two_blob_record "out.csv" "blobs" empty_world).2
       = (w_uuid_calls empty_world + length (file_rows two_blob_lines))%nat.
Proof.
  apply (file_rows_exact two_blob_record "out.csv" "blobs" empty_world
           two_blob_lines
           (generate_csv two_blob_record "out.csv" "blobs" empty_world).2).
  vm_compute. reflexivity.
Defined.

(** ** Ties among the namespace ids *)



(** ** Header fields the decoder does not look at *)

Lemma slice_ext {A} lo hi (l1 l2 : list A) :
  (forall i, (lo <= i < hi)%nat -> l1 !! i = l2 !! i) ->
  slice lo hi l1 = slice lo hi l2.
Proof.
  intros Hsame. unfold slice. apply list_eq. intros i.
  rewrite !lookup_take, !lookup_drop. case_decide; [|done].
  apply Hsame. lia.
Qed.

Lemma page_offset_mod k off :
  (off < 4096)%nat -> ((4096 * k + off) mod 4096 = off)%nat.
Proof.
  intros H. rewrite (Nat.mul_comm 4096 k), Nat.add_comm, Nat.Div0.mod_add.
  by apply Nat.mod_small.
Qed.

Section same_outside_headers.
Variables c1 c2 : list byte.
Hypothesis same_length : length c1 = length c2.
Hypothesis same_bytes : forall i,
  same_outside_page_header i = true -> c1 !! i = c2 !! i.

Lemma same_in_page k lo hi :
  (hi <= 4096)%nat ->
  (hi <= 4 \/ 32 <= lo)%nat ->
  slice (4096 * k + lo) (4096 * k + hi) c1
  = slice (4096 * k + lo) (4096 * k + hi) c2.
Proof.
  intros Hhi Hout. apply slice_ext. intros i Hi. apply same_bytes.
  unfold same_outside_page_header.
  replace i with (4096 * k + (i - 4096 * k))%nat by lia.
  rewrite page_offset_mod by lia.
  apply orb_true_iff. destruct Hout; [left|right].
  - apply Nat.ltb_lt. lia.
  - apply Nat.leb_le. lia.
Qed.

Lemma scan_body_same k sc :
  sc_sector_pos sc = (4096 * k)%nat ->
  scan_body c1 sc = scan_body c2 sc.
Proof.
  intros Hpos. rewrite !scan_body_layout, Hpos, same_length.
  assert (Hactive : page_active c1 (4096 * k) = page_active c2 (4096 * k)).
  { unfold page_active, header_state_raw.
    replace (4096 * k)%nat with (4096 * k + 0)%nat at 1 3 by lia.
    rewrite (same_in_page k 0 4) by lia.
    by replace (4096 * k + 0)%nat with (4096 * k)%nat by lia. }
  assert (Hdigits : page_digits c1 (4096 * k) = page_digits c2 (4096 * k)).
  { unfold page_digits. by rewrite (same_in_page k 32 64) by lia. }
  assert (Hslots : page_slots c1 (4096 * k) = page_slots c2 (4096 * k)).
  { unfold page_slots, slots_in_file. rewrite same_length.
    apply map_ext_in. intros j Hj%list_elem_of_In%elem_of_seq.
    unfold slot_bytes.
    replace (4096 * k + 64 + 32 * j)%nat
      with (4096 * k + (64 + 32 * j))%nat by lia.
    replace (4096 * k + (64 + 32 * j) + 32)%nat
      with (4096 * k + (64 + 32 * j + 32))%nat by lia.
    apply same_in_page; lia. }
  by rewrite Hactive, Hdigits, Hslots.
Qed.

Lemma page_state_same k : page_state c1 k = page_state c2 k.
Proof.
  induction k as [|k IH]; [done|].
  cbn [page_state]. cbv zeta. rewrite IH, same_length.
  case_decide as Hpos; [|done].
  apply (scan_body_same k). by apply page_state_pos.
Qed.

End same_outside_headers.

(** X18. Of the 32-byte header of a page the decoder uses the state word
    only: the sequence number, the version, the reserved bytes and the
    CRC are read and never checked. Two files of the same length that
    differ only in bytes 4 to 31 of their pages decode to the same entries
    and the same namespace table. *)
Theorem page_header_fields_ignored c1 c2 :
  length c1 = length c2 ->
  (forall i, same_outside_page_header i = true -> c1 !! i = c2 !! i) ->
  read_nvs_pages c1 = read_nvs_pages c2.
Proof.
  intros Hlength Hbytes.
  rewrite !read_nvs_pages_page_state, Hlength.
  by rewrite (page_state_same c1 c2 Hlength Hbytes).
Qed.

Lemma page_header_fields_ignored_witness :
  read_nvs_pages ns_file = read_nvs_pages ns_file_other_header.
Proof.
  apply (page_header_fields_ignored ns_file ns_file_other_header).
  - vm_compute. reflexivity.
  - intros i Hi.
    assert (H1 : ns_file
                 = le_bytes 4 ACTIVE
                   ++ (le_bytes 4 0 ++ [byte_of_Z 254]
                       ++ repeat (byte_of_Z 255) 19 ++ le_bytes 4 0)
                   ++ drop 32 ns_file) by (vm_compute; reflexivity).
    assert (H2 : ns_file_other_header
                 = le_bytes 4 ACTIVE
                   ++ (le_bytes 4 7 ++ [byte_of_Z 253]
                       ++ repeat (byte_of_Z 255) 19 ++ le_bytes 4 0x12345678)
                   ++ drop 32 ns_file) by (vm_compute; reflexivity).
    rewrite H1 at 1. rewrite H2. clear H1 H2.
    destruct (decide (i < 4)%nat) as [Hlt|Hge].
    + by rewrite !lookup_app_l by (cbn; lia).
    + assert (32 <= i)%nat as H32.
      { destruct (decide (32 <= i)%nat) as [|Hsmall]; [done|].
        unfold same_outside_page_header in Hi.
        rewrite Nat.mod_small in Hi by lia.
        apply orb_true_iff in Hi as [Hi%Nat.ltb_lt|Hi%Nat.leb_le]; lia. }
      rewrite !(lookup_app_r (le_bytes 4 ACTIVE)) by (cbn; lia).
      by rewrite !lookup_app_r by (cbn; lia).
Defined.

(** ** The blob files of a run *)

Lemma write_blob_values_Some blob_path blob_values : forall w w',
  write_blob_values blob_path blob_values w = (Some tt, w') ->
  is_Some (mapM bytes_fromhex blob_values).
Proof.
  induction blob_values as [|v vs IH]; intros w w' Hrun; [by eexists|].
  cbn [write_blob_values] in Hrun. unfold io_bind at 1 2, io_lift in Hrun.
  rewrite mapM_cons_eq.
  destruct (bytes_fromhex v) as [bs|]; [|done].
  unfold file_write at 1 in Hrun. apply IH in Hrun as [payloads ->].
  by eexists.
Qed.

Lemma write_blob_file_Some blob_values dir w blob_path w' :
  write_blob_file blob_values dir w = (Some blob_path, w') ->
  exists payloads,
    mapM bytes_fromhex blob_values = Some payloads
    /\ blob_path = blob_path_of dir (w_uuid4_hex w (w_uuid_calls w))
    /\ w_files w' !! blob_path = Some (concat payloads).
Proof.
  intros Hrun. pose proof Hrun as Hinv.
  unfold write_blob_file, io_bind, uuid4_hex, open_write, io_ret in Hinv.
  destruct (write_blob_values _ _ _) as [[[]|] w1] eqn:Hvalues; [|done].
  apply write_blob_values_Some in Hvalues as [payloads Hhex].
  exists payloads. split; [done|].
  rewrite (write_blob_file_ok _ _ _ _ Hhex) in Hrun.
  injection Hrun as <- <-. split; [done|].
  cbn [w_files]. by rewrite lookup_insert_eq.
Qed.

Lemma files_hold_later dir names es w0 w w1 lines :
  files_hold dir names es w0 w lines ->
  w_uuid4_hex w = w_uuid4_hex w0 ->
  touches_blobs_only dir w w1 ->
  distinct_blob_paths dir w0 (w_uuid_calls w0) (w_uuid_calls w1) ->
  files_hold dir names es w0 w1 lines.
Proof.
  intros Hold Hu (Hu1 & Hc1 & Hf1) Hdistinct key path Hin.
  destruct (Hold key path Hin) as (j & name & bytes & Hj & -> & Hn & Hb & Hfile).
  exists j, name, bytes. repeat split; try done; try lia.
  rewrite Hf1; [done|]. intros j' Hj'. rewrite Hu. apply Hdistinct; lia.
Qed.

Lemma files_hold_app dir names es w0 w lines more :
  files_hold dir names es w0 w lines ->
  file_rows more = [] ->
  files_hold dir names es w0 w (lines ++ more).
Proof.
  intros Hold Hmore key path [Hin|Hin]%elem_of_app; [by apply Hold|].
  exfalso.
  assert (Hrow : FileLine key path ∈ file_rows more).
  { by apply list_elem_of_filter. }
  rewrite Hmore in Hrow. by apply elem_of_nil in Hrow.
Qed.

Lemma write_blob_groups_files dir names es w0 name groups :
  name ∈ names ->
  (forall key chunks,
     (key, chunks) ∈ groups ->
     chunks = chunks_of key (namespace_entries name es)) ->
  forall lines w lines' w',
    write_blob_groups groups dir lines w = (Some lines', w') ->
    files_hold dir names es w0 w lines ->
    w_uuid4_hex w = w_uuid4_hex w0 ->
    (w_uuid_calls w0 <= w_uuid_calls w)%nat ->
    distinct_blob_paths dir w0 (w_uuid_calls w0) (w_uuid_calls w') ->
    files_hold dir names es w0 w' lines'.
Proof.
  intros Hname.
  induction groups as [|[key chunks] groups IH];
    intros Hgroups lines w lines' w' Hrun Hold Hu Hc Hdistinct.
  - by injection Hrun as <- <-.
  - cbn [write_blob_groups] in Hrun. unfold io_bind at 1 in Hrun.
    destruct (write_blob_file _ dir w) as [[blob_path|] w1] eqn:Hfile; [|done].
    pose proof (write_blob_groups_touches _ _ _ _ _ _ Hrun)
      as (_ & Hc' & _).
    pose proof (write_blob_file_touches _ _ _ _ _ Hfile) as Htouch.
    pose proof (write_blob_file_world _ _ _ _ _ Hfile) as (Hu1 & Hc1 & _).
    apply write_blob_file_Some in Hfile as (payloads & Hhex & -> & Hbytes).
    apply (IH (fun k c Hin => Hgroups k c (list_elem_of_further _ _ _ Hin))
             _ _ _ _ Hrun); [|congruence|lia|done].
    intros key' path [Hin|Hin]%elem_of_app.
    + eapply files_hold_later; [exact Hold|done|done| |done].
      intros i j Hi Hj. apply Hdistinct; lia.
    + apply list_elem_of_singleton in Hin. injection Hin as -> ->.
      exists (w_uuid_calls w), name, (concat payloads).
      rewrite Hu in Hbytes |- *. repeat split; try done; try lia.
      unfold blob_bytes.
      rewrite <- (Hgroups key chunks) by left.
      change (sort_by_key chunks).*2 with (map snd (sort_by_key chunks)).
      by rewrite Hhex.
Qed.

Lemma namespace_loop_files dir names es w0 sorted :
  (forall item, item ∈ sorted -> item.2 ∈ names) ->
  forall lines w lines' w',
    namespace_loop sorted (group_by_namespace es) dir lines w
    = (Some lines', w') ->
    files_hold dir names es w0 w lines ->
    w_uuid4_hex w = w_uuid4_hex w0 ->
    (w_uuid_calls w0 <= w_uuid_calls w)%nat ->
    distinct_blob_paths dir w0 (w_uuid_calls w0) (w_uuid_calls w') ->
    files_hold dir names es w0 w' lines'.
Proof.
  induction sorted as [|[ns_id ns_name] sorted IH];
    intros Hnames lines w lines' w' Hrun Hold Hu Hc Hdistinct.
  - by injection Hrun as <- <-.
  - cbn [namespace_loop] in Hrun. cbv zeta in Hrun.
    unfold io_bind, io_lift in Hrun. rewrite dict_get_group in Hrun.
    fold (namespace_entries ns_name es) in Hrun.
    destruct (partition_entries _ [] []) as [[blobs others]|] eqn:Hparts;
      [|done].
    cbn [fst snd] in Hrun.
    destruct (write_blob_groups _ _ _ w) as [[lines1|] w1] eqn:Hblobs; [|done].
    destruct (data_lines _ _) as [lines2|] eqn:Hdata; [|done].
    pose proof (namespace_loop_touches _ _ _ _ _ _ _ Hrun) as (_ & Hc2 & _).
    pose proof (write_blob_groups_touches _ _ _ _ _ _ Hblobs)
      as (Hu1 & Hc1 & _).
    apply data_lines_rows in Hdata as (rows & Hrows & ->).
    apply rows_of_entries in Hrows as [_ Hnofile].
    apply (IH (fun item Hin => Hnames item (list_elem_of_further _ _ _ Hin))
             _ _ _ _ Hrun); [|congruence|lia|done].
    apply files_hold_app; [|done].
    apply (write_blob_groups_files dir names es w0 ns_name blobs)
      with (lines := lines ++ [NamespaceLine ns_name]) (w := w);
      try done.
    + apply (Hnames (ns_id, ns_name)). left.
    + intros key chunks Hin. by eapply blob_group_chunks.
    + by apply files_hold_app.
    + intros i j Hi Hj. apply Hdistinct; lia.
Qed.

(** X19. When [generate_csv] returns, every file row of the CSV names a
    file that holds a blob of the row's key: the bytes of the hex texts of
    the BLOB_DATA chunks of that key in one of the listed namespaces, in
    ascending order of chunk index. This needs the blobs of the run to get
    paths of their own, none of them the path of the CSV file: a value
    drawn twice from the random source would make a later blob replace an
    earlier one. *)
Theorem file_rows_name_blob_files data csv_output_path blobs_output_dir
    w lines w' :
  generate_csv data csv_output_path blobs_output_dir w = (Some lines, w') ->
  distinct_blob_paths blobs_output_dir w (w_uuid_calls w) (w_uuid_calls w') ->
  (forall j, (w_uuid_calls w <= j < w_uuid_calls w')%nat ->
             blob_path_of blobs_output_dir (w_uuid4_hex w j)
             <> csv_output_path) ->
  exists sorted,
    sorted_namespaces (jd_namespaces data) = Some sorted
    /\ forall key path,
         FileLine key path ∈ lines ->
         exists name bytes,
           name ∈ sorted.*2
           /\ blob_bytes name key (jd_entries data) = Some bytes
           /\ w_files w' !! path = Some bytes.
Proof.
  unfold generate_csv, io_bind, io_lift, io_ret, open_write, file_write.
  intros Hrun Hdistinct Hcsv.
  destruct (sorted_namespaces _) as [sorted|]; [|done].
  destruct (namespace_loop _ _ _ _ w) as [[lines1|] w1] eqn:Hloop; [|done].
  injection Hrun as <- <-. cbn [w_uuid_calls w_files] in *.
  exists sorted. split; [done|]. intros key path Hin.
  destruct (namespace_loop_files blobs_output_dir sorted.*2 (jd_entries data)
              w sorted) with (lines := [Header]) (w := w) (lines' := lines1)
              (w' := w1) (key := key) (path := path)
    as (j & name & bytes & Hj & -> & Hname & Hbytes & Hfile); try done.
  - intros item Hitem. by apply list_elem_of_fmap_2.
  - intros key' path' Hin'. apply list_elem_of_singleton in Hin'. done.
  - exists name, bytes. split; [done|]. split; [done|].
    rewrite !lookup_insert_ne by (by apply not_eq_sym, Hcsv). done.
Qed.

Lemma file_rows_name_blob_files_witness :
  exists sorted,
    sorted_namespaces (jd_namespaces two_blob_record) = Some sorted
    /\ forall key path,
         FileLine key path ∈ two_blob_lines ->
         exists name bytes,
           name ∈ sorted.*2
           /\ blob_bytes name key (jd_entries two_blob_record) = Some bytes
           /\ w_files
                (generate_csv two_blob_record "out.csv" "blobs"
                   empty_world).2 !! path
              = Some bytes.
Proof.
  apply (file_rows_name_blob_files two_blob_record "out.csv" "blobs"
           empty_world two_blob_lines
           (generate_csv two_blob_record "out.csv" "blobs" empty_world).2).
  - vm_compute. reflexivity.
  - intros i j Hi Hj.
    assert (i = 0%nat /\ j = 1%nat) as [-> ->]
      by (change (w_uuid_calls empty_world) with 0%nat in Hi;
          change (w_uuid_calls (generate_csv two_blob_record "out.csv"
                                  "blobs" empty_world).2)
            with 2%nat in Hj; lia).
    vm_compute. discriminate.
  - intros j Hj.
    change (w_uuid_calls empty_world) with 0%nat in Hj.
    change (w_uuid_calls (generate_csv two_blob_record "out.csv" "blobs"
                            empty_world).2) with 2%nat in Hj.
    assert (j = 0%nat \/ j = 1%nat) as [-> | ->] by lia;
      vm_compute; discriminate.
Defined.

(** ** Ties in what is written *)


